(** * Movie Argument Engine, frontend: a shallow embedding of the client code

    The embedding follows the TypeScript sources of the browser client:
    - [utils/format.ts]         (formatCurrency, formatRuntime, calculateROI),
    - [services/api.ts]         (fetchApi, searchMovies, getMovieScore,
                                 compareMovies, getPosterUrl),
    - [types/index.ts]          (WeightConfig, ComparisonResult, ...),
    - [components/WeightSliders.tsx], [components/SearchBar.tsx],
      [components/ComparisonResult.tsx], [pages/ComparePage.tsx].

    JavaScript numbers are IEEE 754 binary64 values; they are modelled by the
    primitive floats of the kernel, which are binary64 as well.  The built-ins
    the sources call (Number::toString, Number.prototype.toFixed, Math.floor,
    the remainder operator, String.prototype.trim, JSON.stringify,
    URLSearchParams) are written out after ECMA-262 and the URL standard.
    Strings are sequences of UTF-16 code units; the model keeps the code units
    below 256 (Latin-1), one [ascii] each. *)

From Stdlib Require Import ZArith NArith String Ascii List Bool Lia.
From Stdlib Require Import Floats DecimalString.
Import ListNotations.

Set Warnings "-inexact-float,-register-all,-abstract-large-number".

Open Scope string_scope.

(* ================================================================== *)
(** * Part I. Definitions *)
(* ================================================================== *)

(** ** The Number type and its built-ins *)

Module JsNumber.

Definition number := float.

Bind Scope float_scope with number.

(** The Number value of a mathematical integer (exact below 2^53). *)
Definition ofZ (z : Z) : number :=
  SF2Prim (binary_normalize prec emax z 0 false).

(** The double nearest to the fraction [a / b], ties to even. *)
Definition nearest_fraction (a b : positive) : spec_float :=
  let '(q, e, l) := SFdiv_core_binary prec emax (Zpos a) 0 (Zpos b) 0 in
  binary_round_aux prec emax false q e l.

(** The double nearest to [s * 10^p] for a positive integer [s]. *)
Definition nearest_decimal (s : positive) (p : Z) : spec_float :=
  if (0 <=? p)%Z
  then binary_normalize prec emax (Zpos s * 10 ^ p) 0 false
  else nearest_fraction s (Z.to_pos (10 ^ (- p))).

Definition sf_eqb (x y : spec_float) : bool :=
  match x, y with
  | S754_finite sx mx ex, S754_finite sy my ey =>
      Bool.eqb sx sy && Pos.eqb mx my && Z.eqb ex ey
  | S754_zero sx, S754_zero sy => Bool.eqb sx sy
  | S754_infinity sx, S754_infinity sy => Bool.eqb sx sy
  | S754_nan, S754_nan => true
  | _, _ => false
  end.

(** Decimal digits of a natural number, ["0"] for zero. *)
Definition decimal (n : Z) : string :=
  NilZero.string_of_uint (N.to_uint (Z.to_N n)).

Fixpoint zeros (n : nat) : string :=
  match n with
  | O => EmptyString
  | S n' => String "0" (zeros n')
  end.

(** *** Math.floor *)
Definition floor (x : number) : number :=
  match Prim2SF x with
  | S754_finite s m e =>
      if (0 <=? e)%Z then x
      else ofZ ((if s then Zneg m else Zpos m) / 2 ^ (- e))
  | _ => x
  end.

(** *** The remainder operator [n % d] (Number::remainder): the result has
    the sign of the dividend and is exact. *)
Definition rem (n d : number) : number :=
  match Prim2SF n, Prim2SF d with
  | S754_nan, _ | _, S754_nan => nan
  | S754_infinity _, _ => nan
  | _, S754_infinity _ => n
  | _, S754_zero _ => nan
  | S754_zero _, _ => n
  | S754_finite sn mn en, S754_finite _ md ed =>
      let e := Z.min en ed in
      let r := Z.rem (Z.shiftl (Zpos mn) (en - e)) (Z.shiftl (Zpos md) (ed - e)) in
      SF2Prim (binary_normalize prec emax (if sn then (- r)%Z else r) e sn)
  end.

(** *** Number::toString (radix 10) *)

(** [floor (m * 2^e / 10^p)], for any sign of [e] and [p]. *)
Definition scaled_floor (m : positive) (e p : Z) : Z :=
  (Zpos m * 2 ^ Z.max e 0 * 10 ^ Z.max (- p) 0)
  / (2 ^ Z.max (- e) 0 * 10 ^ Z.max p 0).

(** Twice the distance from [m * 2^e / 10^p] down to its floor, compared
    with one: which of the two neighbouring integers is closer. *)
Definition scaled_frac_cmp (m : positive) (e p : Z) : comparison :=
  let num := (Zpos m * 2 ^ Z.max e 0 * 10 ^ Z.max (- p) 0)%Z in
  let den := (2 ^ Z.max (- e) 0 * 10 ^ Z.max p 0)%Z in
  (2 * (num mod den) ?= den)%Z.

(** Least [j] from [j0] on with [b <= a * 10^(j - j0)]. *)
Fixpoint first_scale (fuel : nat) (a b j : Z) : Z :=
  if (b <=? a)%Z then j
  else match fuel with
       | O => j
       | S fuel' => first_scale fuel' (10 * a) b (j + 1)
       end.

(** The integer [n] with [10^(n-1) <= m * 2^e < 10^n]. *)
Definition decimal_exponent (m : positive) (e : Z) : Z :=
  if (0 <=? e)%Z then Z.of_nat (String.length (decimal (Zpos m * 2 ^ e)))
  else if (2 ^ (- e) <=? Zpos m)%Z
       then Z.of_nat (String.length (decimal (Zpos m / 2 ^ (- e))))
       else 1 - first_scale (Z.to_nat (- e)) (Zpos m) (2 ^ (- e)) 0.

Definition rounds_to (s p : Z) (m : positive) (e : Z) : bool :=
  match s with
  | Zpos s' => sf_eqb (nearest_decimal s' p) (S754_finite false m e)
  | _ => false
  end.

(** [(s, k, n)] of ECMA-262 6.1.6.1.20 step 5: the fewest digits [k] such
    that [s * 10^(n-k)] with [10^(k-1) <= s < 10^k] rounds to the number;
    among several [s] the closest one, the even one on a tie. *)
Fixpoint shortest_digits (fuel : nat) (k : Z) (m : positive) (e n0 : Z)
  : Z * Z * Z :=
  let p := (n0 - k)%Z in
  let lo := scaled_floor m e p in
  let hi := (lo + 1)%Z in
  let up := if (hi =? 10 ^ k)%Z then (1%Z, 1%Z, (n0 + 1)%Z) else (hi, k, n0) in
  match rounds_to lo p m e, rounds_to hi p m e with
  | true, true =>
      match scaled_frac_cmp m e p with
      | Lt => (lo, k, n0)
      | Gt => up
      | Eq => if Z.even lo then (lo, k, n0) else up
      end
  | true, false => (lo, k, n0)
  | false, true => up
  | false, false =>
      match fuel with
      | O => (lo, k, n0)
      | S fuel' => shortest_digits fuel' (k + 1) m e n0
      end
  end.

Definition exponent_suffix (n : Z) : string :=
  let ex := (n - 1)%Z in
  "e" ++ (if (ex <? 0)%Z then "-" else "+") ++ decimal (Z.abs ex).

Definition format_digits (s k n : Z) : string :=
  let ds := decimal s in
  if ((k <=? n) && (n <=? 21))%Z
  then ds ++ zeros (Z.to_nat (n - k))
  else if ((0 <? n) && (n <=? 21))%Z
  then substring 0 (Z.to_nat n) ds ++ "."
       ++ substring (Z.to_nat n) (Z.to_nat (k - n)) ds
  else if ((-6 <? n) && (n <=? 0))%Z
  then "0." ++ zeros (Z.to_nat (- n)) ++ ds
  else if (k =? 1)%Z
  then ds ++ exponent_suffix n
  else substring 0 1 ds ++ "." ++ substring 1 (Z.to_nat (k - 1)) ds
       ++ exponent_suffix n.

Definition toString (x : number) : string :=
  match Prim2SF x with
  | S754_nan => "NaN"
  | S754_zero _ => "0"
  | S754_infinity s => if s then "-Infinity" else "Infinity"
  | S754_finite s m e =>
      let '(d, k, n) := shortest_digits 17 1 m e (decimal_exponent m e) in
      (if s then "-" else "") ++ format_digits d k n
  end.

(** *** Number.prototype.toFixed(f), for the digit counts [0 <= f <= 100]
    that raise no RangeError. *)

(** The integer [n] for which [n / 10^f - m * 2^e] is closest to zero, the
    larger one when there are two. *)
Definition nearest_scaled (m : positive) (e : Z) (f : nat) : Z :=
  let a := (Zpos m * 10 ^ Z.of_nat f)%Z in
  if (0 <=? e)%Z then (a * 2 ^ e)%Z
  else ((2 * a + 2 ^ (- e)) / 2 ^ (1 - e))%Z.

Definition fixed_digits (n : Z) (f : nat) : string :=
  let m := decimal n in
  match f with
  | O => m
  | _ =>
      let m' := zeros (f + 1 - String.length m) ++ m in
      let k := String.length m' in
      substring 0 (k - f) m' ++ "." ++ substring (k - f) f m'
  end.

Definition toFixed (x : number) (f : nat) : string :=
  match Prim2SF x with
  | S754_finite s m e =>
      if (10 ^ 21 <=? scaled_floor m e 0)%Z then toString x
      else (if s then "-" else "") ++ fixed_digits (nearest_scaled m e f) f
  | S754_zero _ => fixed_digits 0 f
  | _ => toString x
  end.

(** ToBoolean on a number: [+0], [-0] and [NaN] are falsy. *)
Definition truthy (x : number) : bool :=
  negb (is_zero x || is_nan x).

End JsNumber.

(** ** Strings: the String built-ins the sources call *)

Module JsString.

Definition code (c : ascii) : N := N_of_ascii c.

(** WhiteSpace and LineTerminator code points (ECMA-262 12.2, 12.3) below 256:
    TAB, LF, VT, FF, CR, SP and NBSP. *)
Definition is_white_space (c : ascii) : bool :=
  let n := code c in
  ((9 <=? n) && (n <=? 13) || (n =? 32) || (n =? 160))%N.

Fixpoint trimStart (s : string) : string :=
  match s with
  | EmptyString => EmptyString
  | String c s' => if is_white_space c then trimStart s' else s
  end.

Fixpoint trimEnd (s : string) : string :=
  match s with
  | EmptyString => EmptyString
  | String c s' =>
      match trimEnd s' with
      | EmptyString => if is_white_space c then EmptyString else String c EmptyString
      | t => String c t
      end
  end.

(** String.prototype.trim *)
Definition trim (s : string) : string := trimEnd (trimStart s).

(** ToBoolean on a string: only the empty string is falsy. *)
Definition truthy (s : string) : bool :=
  match s with
  | EmptyString => false
  | _ => true
  end.

Fixpoint join (sep : string) (l : list string) : string :=
  match l with
  | [] => EmptyString
  | [x] => x
  | x :: r => x ++ sep ++ join sep r
  end.

Definition dquote : string := String (ascii_of_nat 34) EmptyString.

Definition hex_digit (upper : bool) (n : N) : ascii :=
  ascii_of_N (if (n <? 10)%N then 48 + n else (if upper then 55 else 87) + n)%N.

Definition hex2 (upper : bool) (n : N) : string :=
  String (hex_digit upper (n / 16)) (String (hex_digit upper (n mod 16)) EmptyString).

(** QuoteJSONString (ECMA-262 25.5.2.3) *)
Definition json_escape (c : ascii) : string :=
  let n := code c in
  if (n =? 8)%N then "\b"
  else if (n =? 9)%N then "\t"
  else if (n =? 10)%N then "\n"
  else if (n =? 12)%N then "\f"
  else if (n =? 13)%N then "\r"
  else if (n =? 34)%N then "\" ++ dquote
  else if (n =? 92)%N then "\\"
  else if (n <? 32)%N then "\u00" ++ hex2 false n
  else String c EmptyString.

Fixpoint json_escape_all (s : string) : string :=
  match s with
  | EmptyString => EmptyString
  | String c s' => json_escape c ++ json_escape_all s'
  end.

Definition json_quote (s : string) : string :=
  dquote ++ json_escape_all s ++ dquote.

(** The application/x-www-form-urlencoded byte serializer (URL standard
    5.2): a code unit from 128 on is first encoded in UTF-8 (two bytes). *)
Definition form_byte (n : N) : string :=
  if (n =? 32)%N then "+"
  else if ((n =? 42) || (n =? 45) || (n =? 46) || (n =? 95)
           || (48 <=? n) && (n <=? 57)
           || (65 <=? n) && (n <=? 90)
           || (97 <=? n) && (n <=? 122))%N
  then String (ascii_of_N n) EmptyString
  else "%" ++ hex2 true n.

Definition form_char (c : ascii) : string :=
  let n := code c in
  if (n <? 128)%N then form_byte n
  else form_byte (192 + n / 64) ++ form_byte (128 + n mod 64).

Fixpoint form_encode (s : string) : string :=
  match s with
  | EmptyString => EmptyString
  | String c s' => form_char c ++ form_encode s'
  end.

(** [s.startsWith(search)] *)
Definition startsWith (search s : string) : bool := prefix search s.

(** [s.split(separator)[0]] for a separator that is not empty: the text
    before the first separator, the whole string when there is none. *)
Definition split_first (separator s : string) : string :=
  match index 0 separator s with
  | Some i => substring 0 i s
  | None => s
  end.

(** [s.charAt(0).toUpperCase()], as UTF-16 code units: the upper case of a
    code unit below 256 can lie above 255 (U+00B5, U+00FF) or be two units
    long (U+00DF). *)
Definition upper_unit (n : N) : list N :=
  if ((97 <=? n) && (n <=? 122))%N then [n - 32]%N
  else if (n =? 181)%N then [924]%N
  else if (n =? 223)%N then [83; 83]%N
  else if ((224 <=? n) && (n <=? 254) && negb (n =? 247))%N then [n - 32]%N
  else if (n =? 255)%N then [376]%N
  else [n].

Definition charAt0_toUpperCase (s : string) : list N :=
  match s with
  | EmptyString => []
  | String c _ => upper_unit (code c)
  end.

(** [letter === 'X'] for a one-character literal. *)
Definition units_are (letter : list N) (literal : ascii) : bool :=
  match letter with
  | [n] => (n =? code literal)%N
  | _ => false
  end.

(** *** parseInt (ECMA-262 19.2.5), called with a string and no radix *)

Definition digit_value (radix : N) (c : ascii) : option N :=
  let n := code c in
  let v :=
    if ((48 <=? n) && (n <=? 57))%N then Some (n - 48)%N
    else if ((97 <=? n) && (n <=? 122))%N then Some (n - 87)%N
    else if ((65 <=? n) && (n <=? 90))%N then Some (n - 55)%N
    else None in
  match v with
  | Some d => if (d <? radix)%N then Some d else None
  | None => None
  end.

(** The digits up to the first code unit that is not a digit of the radix. *)
Fixpoint digits_prefix (radix : N) (s : string) : list N :=
  match s with
  | EmptyString => []
  | String c r =>
      match digit_value radix c with
      | Some d => d :: digits_prefix radix r
      | None => []
      end
  end.

Definition mathInt (radix : N) (digits : list N) : N :=
  fold_left (fun acc d => (acc * radix + d)%N) digits 0%N.

(** The result is the Number value of the integer read (for a decimal of
    more than 20 significant digits the standard also allows an
    approximation of it). *)
Definition parseInt (string : string) : JsNumber.number :=
  let s := trimStart string in
  let '(negative, s) :=
    match s with
    | String "-" r => (true, r)
    | String "+" r => (false, r)
    | _ => (false, s)
    end in
  let '(radix, s) :=
    match s with
    | String "0" (String "x" r) | String "0" (String "X" r) => (16%N, r)
    | _ => (10%N, s)
    end in
  match digits_prefix radix s with
  | [] => nan
  | digits =>
      let m := mathInt radix digits in
      if (m =? 0)%N then (if negative then (-0)%float else 0%float)
      else JsNumber.ofZ (if negative then - Z.of_N m else Z.of_N m)
  end.

End JsString.

(** ** Strings beyond Latin-1: UTF-16 code units and the USVString
    conversion that URLSearchParams applies to names and values *)

Module Usv.

(** A string is the list of its UTF-16 code units. *)
Definition is_lead (u : N) : bool := ((55296 <=? u) && (u <=? 56319))%N.
Definition is_trail (u : N) : bool := ((56320 <=? u) && (u <=? 57343))%N.

(** The conversion to a USVString (WebIDL): a surrogate pair is one code
    point, a surrogate without its partner becomes U+FFFD. *)
Fixpoint scalars (s : list N) : list N :=
  match s with
  | [] => []
  | u :: r =>
      if is_lead u then
        match r with
        | v :: r' =>
            if is_trail v
            then (65536 + (u - 55296) * 1024 + (v - 56320))%N :: scalars r'
            else 65533%N :: scalars r
        | [] => [65533%N]
        end
      else if is_trail u then 65533%N :: scalars r
      else u :: scalars r
  end.

(** The UTF-8 bytes of a code point. *)
Definition utf8 (c : N) : list N :=
  if (c <? 128)%N then [c]
  else if (c <? 2048)%N then [192 + c / 64; 128 + c mod 64]%N
  else if (c <? 65536)%N
  then [224 + c / 4096; 128 + (c / 64) mod 64; 128 + c mod 64]%N
  else [240 + c / 262144; 128 + (c / 4096) mod 64; 128 + (c / 64) mod 64;
        128 + c mod 64]%N.

(** The application/x-www-form-urlencoded serializer on any string. *)
Definition form_encode (s : list N) : string :=
  fold_right append EmptyString (map JsString.form_byte (flat_map utf8 (scalars s))).

(** *** Specification vocabulary *)

(** The code units of a string of this development (all below 256). *)
Definition of_string (s : string) : list N := map JsString.code (list_ascii_of_string s).

(** Code units with every surrogate in a pair. *)
Fixpoint well_formed (s : list N) : bool :=
  match s with
  | [] => true
  | u :: r =>
      if is_lead u then
        match r with
        | v :: r' => is_trail v && well_formed r'
        | [] => false
        end
      else negb (is_trail u) && (u <? 65536)%N && well_formed r
  end.

End Usv.

(** ** URLSearchParams *)

Module URLSearchParams.

Definition t := list (string * string).

(** [new URLSearchParams()] *)
Definition empty : t := [].

Fixpoint remove (name : string) (p : t) : t :=
  match p with
  | [] => []
  | (k, v) :: r => if String.eqb k name then remove name r else (k, v) :: remove name r
  end.

(** [params.set(name, value)]: the first pair of that name takes the value
    and the others are removed; a new pair is appended when there is none. *)
Fixpoint set (name value : string) (p : t) : t :=
  match p with
  | [] => [(name, value)]
  | (k, v) :: r =>
      if String.eqb k name then (k, value) :: remove name r
      else (k, v) :: set name value r
  end.

(** [params.get(name)] *)
Fixpoint get (name : string) (p : t) : option string :=
  match p with
  | [] => None
  | (k, v) :: r => if String.eqb k name then Some v else get name r
  end.

(** [params.toString()], which a template literal applies. *)
Definition toString (p : t) : string :=
  JsString.join "&"
    (map (fun kv => JsString.form_encode (fst kv) ++ "=" ++ JsString.form_encode (snd kv)) p).

End URLSearchParams.

(** ** JavaScript values, exceptions and promises *)

Module Js.

Import JsNumber.

(** The values [JSON.parse] produces, and [undefined] for a property that
    is not there.  An object lists its own properties in creation order,
    each key once. *)
Inductive value :=
| Undefined
| Null
| Bool (b : bool)
| Num (x : number)
| Str (s : string)
| Arr (elements : list value)
| Obj (properties : list (string * value)).

(** What the code throws, and what the runtime throws at it.  All of them
    are instances of [Error]. *)
Inductive JsError :=
| Error (message : string)
| ApiError (status : Z) (message : string)
| TypeError (message : string)
| SyntaxError (message : string).

Definition message (e : JsError) : string :=
  match e with
  | Error m | ApiError _ m | TypeError m | SyntaxError m => m
  end.

(** [e instanceof Error] *)
Definition instanceofError (e : JsError) : bool :=
  match e with
  | Error _ | ApiError _ _ | TypeError _ | SyntaxError _ => true
  end.

(** The outcome of an evaluation or of an awaited promise. *)
Inductive result (A : Type) :=
| Ok (a : A)
| Throw (e : JsError).

Arguments Ok {A} a.
Arguments Throw {A} e.

Definition bind {A B : Type} (c : result A) (k : A -> result B) : result B :=
  match c with
  | Ok a => k a
  | Throw e => Throw e
  end.

(** [promise.catch(handler)] with a handler that returns a value. *)
Definition catch {A : Type} (c : result A) (handler : JsError -> A) : result A :=
  match c with
  | Ok a => Ok a
  | Throw e => Ok (handler e)
  end.

(** ToBoolean *)
Definition truthy (v : value) : bool :=
  match v with
  | Undefined | Null => false
  | Bool b => b
  | Num x => JsNumber.truthy x
  | Str s => JsString.truthy s
  | Arr _ | Obj _ => true
  end.

(** [a || b] *)
Definition or (a b : value) : value := if truthy a then a else b.

Fixpoint lookup (key : string) (ps : list (string * value)) : option value :=
  match ps with
  | [] => None
  | (k, v) :: r => if String.eqb k key then Some v else lookup key r
  end.

(** The own property [key] of an object, [undefined] when it has none. *)
Definition own (key : string) (ps : list (string * value)) : value :=
  match lookup key ps with
  | Some x => x
  | None => Undefined
  end.

(** [v.key], for a key that no prototype defines (error, detail, success,
    comparison, results): the own property of an object, [undefined] on any
    other value that has properties, a TypeError on [null] and [undefined]. *)
Definition get (v : value) (key : string) : result value :=
  match v with
  | Undefined =>
      Throw (TypeError ("Cannot read properties of undefined (reading '" ++ key ++ "')"))
  | Null =>
      Throw (TypeError ("Cannot read properties of null (reading '" ++ key ++ "')"))
  | Obj ps => Ok (own key ps)
  | _ => Ok Undefined
  end.

(** ToString.  An array joins its elements with commas ([null] and
    [undefined] elements give the empty string); an object made by
    [JSON.parse] gives "[object Object]", unless it has an own [toString]
    property, which is then not callable and makes the conversion fail. *)
Fixpoint toString (v : value) : result string :=
  match v with
  | Undefined => Ok "undefined"
  | Null => Ok "null"
  | Bool b => Ok (if b then "true" else "false")
  | Num x => Ok (JsNumber.toString x)
  | Str s => Ok s
  | Arr l =>
      (fix join (l : list value) : result string :=
         match l with
         | [] => Ok EmptyString
         | x :: r =>
             bind (match x with
                   | Undefined | Null => Ok EmptyString
                   | _ => toString x
                   end)
               (fun a =>
                  match r with
                  | [] => Ok a
                  | _ => bind (join r) (fun b => Ok (a ++ "," ++ b))
                  end)
         end) l
  | Obj ps =>
      match lookup "toString" ps with
      | Some _ => Throw (TypeError "Cannot convert object to primitive value")
      | None => Ok "[object Object]"
      end
  end.

(** How [JSON.stringify] writes a number: a number that is not finite is
    written [null]. *)
Definition json_number (x : number) : string :=
  if is_finite x then JsNumber.toString x else "null".

(** [JSON.stringify(v)]; [None] is the [undefined] it returns for
    [undefined].  A property whose value is [undefined] is left out; an
    [undefined] array element is written [null]. *)
Fixpoint stringify (v : value) : option string :=
  match v with
  | Undefined => None
  | Null => Some "null"
  | Bool b => Some (if b then "true" else "false")
  | Num x => Some (json_number x)
  | Str s => Some (JsString.json_quote s)
  | Arr l =>
      Some ("[" ++ JsString.join ","
                     (map (fun x => match stringify x with
                                    | Some t => t
                                    | None => "null"
                                    end) l) ++ "]")
  | Obj ps =>
      Some ("{" ++ JsString.join ","
                     (flat_map (fun kv => match stringify (snd kv) with
                                          | Some t => [JsString.json_quote (fst kv) ++ ":" ++ t]
                                          | None => []
                                          end) ps) ++ "}")
  end.

(** *** Specification vocabulary *)

(** How the receiving side reads the decimal text of a number (a JSON
    parser on the body, a float parser on a query parameter): an optional
    minus sign, digits, an optional fraction, an optional exponent, and
    nothing else; the value is the double nearest to the decimal. *)
Fixpoint read_digits (s : string) (acc : N) (count : nat) : N * nat * string :=
  match s with
  | String c r =>
      let n := JsString.code c in
      if ((48 <=? n) && (n <=? 57))%N
      then read_digits r (acc * 10 + (n - 48))%N (S count)
      else (acc, count, s)
  | EmptyString => (acc, count, s)
  end.

Definition read_exponent (s : string) : option Z :=
  match s with
  | EmptyString => Some 0%Z
  | String c r =>
      if ((JsString.code c =? 101) || (JsString.code c =? 69))%N then
        let '(negative, r) :=
          match r with
          | String "-" r' => (true, r')
          | String "+" r' => (false, r')
          | _ => (false, r)
          end in
        match read_digits r 0 0 with
        | (_, O, _) => None
        | (e, _, EmptyString) => Some (if negative then - Z.of_N e else Z.of_N e)%Z
        | _ => None
        end
      else None
  end.

Definition read_number (s : string) : option number :=
  let '(negative, s) :=
    match s with
    | String "-" r => (true, r)
    | _ => (false, s)
    end in
  match read_digits s 0 0 with
  | (_, O, _) => None
  | (whole, _, rest) =>
      let fraction :=
        match rest with
        | String "." r =>
            match read_digits r whole 0 with
            | (_, O, _) => None
            | (mantissa, places, rest') => Some (mantissa, places, rest')
            end
        | _ => Some (whole, O, rest)
        end in
      match fraction with
      | None => None
      | Some (mantissa, places, rest') =>
          match read_exponent rest' with
          | None => None
          | Some e =>
              Some match mantissa with
                   | N0 => if negative then (-0)%float else 0%float
                   | Npos m =>
                       let x := SF2Prim (nearest_decimal m (e - Z.of_nat places)) in
                       if negative then (- x)%float else x
                   end
          end
      end
  end.


(** A value that has properties but is no object with own properties: a
    boolean, a number, a string or an array. *)
Definition plain (v : value) : bool :=
  match v with
  | Bool _ | Num _ | Str _ | Arr _ => true
  | _ => false
  end.

End Js.

Notation "x <- c ;; k" := (Js.bind c (fun x => k))
  (at level 61, c at next level, right associativity).

(** ** types/index.ts *)

Module MovieBasic.
Import JsNumber.

Record t := {
  id : number;
  title : string;
  original_title : string;
  overview : string;
  poster_path : option string;
  backdrop_path : option string;
  release_date : option string;
  vote_average : number;
  vote_count : number;
  popularity : number;
  genre_ids : list number
}.

End MovieBasic.

Module FeatureScore.
Import JsNumber.

Record t := {
  name : string;
  display_name : string;
  raw_value : number;
  normalized_value : number;
  weight : number;
  weighted_score : number;
  category : string;
  explanation : string
}.

End FeatureScore.

Module ScoreBreakdown.
Import JsNumber.

Record t := {
  movie_id : number;
  movie_title : string;
  total_score : number;
  grade : string;
  features : list FeatureScore.t;
  strengths : list string;
  weaknesses : list string;
  summary : string
}.

End ScoreBreakdown.

(** ['movie1' | 'movie2' | 'tie'] *)
Inductive Winner := movie1 | movie2 | tie.

Definition Winner_eqb (a b : Winner) : bool :=
  match a, b with
  | movie1, movie1 | movie2, movie2 | tie, tie => true
  | _, _ => false
  end.

(** ['decisive' | 'clear' | 'close' | 'very_close'] *)
Inductive Confidence := decisive | clear | close | very_close.

(** ['high' | 'medium' | 'low'] *)
Inductive Importance := high | medium | low.

Module ArgumentPoint.
Import JsNumber.

Record t := {
  factor : string;
  winner : Winner;
  movie1_value : string;
  movie2_value : string;
  difference : number;
  importance : Importance;
  explanation : string
}.

End ArgumentPoint.

Module RadarDataPoint.
Import JsNumber.

Record t := {
  feature : string;
  movie1 : number;
  movie2 : number
}.

End RadarDataPoint.

Module BarDataPoint.
Import JsNumber.

Record t := {
  feature : string;
  movie1_score : number;
  movie2_score : number;
  difference : number
}.

End BarDataPoint.

Module ComparisonResult.
Import JsNumber.

Record t := {
  movie1_id : number;
  movie1_title : string;
  movie1_score : number;
  movie1_breakdown : ScoreBreakdown.t;
  movie2_id : number;
  movie2_title : string;
  movie2_score : number;
  movie2_breakdown : ScoreBreakdown.t;
  winner : Winner;
  score_difference : number;
  confidence : Confidence;
  arguments : list ArgumentPoint.t;
  verdict : string;
  detailed_analysis : string;
  radar_data : list RadarDataPoint.t;
  bar_data : list BarDataPoint.t
}.

End ComparisonResult.

Module WeightConfig.
Import JsNumber.

Record t := {
  vote_average : number;
  vote_count : number;
  popularity : number;
  revenue : number;
  runtime_quality : number;
  release_recency : number;
  cast_star_power : number
}.

(** [keyof WeightConfig] *)
Inductive key :=
| k_vote_average | k_vote_count | k_popularity | k_revenue
| k_runtime_quality | k_release_recency | k_cast_star_power.

(** [weights[key]] *)
Definition get (w : t) (k : key) : number :=
  match k with
  | k_vote_average => vote_average w
  | k_vote_count => vote_count w
  | k_popularity => popularity w
  | k_revenue => revenue w
  | k_runtime_quality => runtime_quality w
  | k_release_recency => release_recency w
  | k_cast_star_power => cast_star_power w
  end.

(** [{ ...weights, [key]: value }] *)
Definition set (w : t) (k : key) (value : number) : t :=
  match k with
  | k_vote_average =>
      Build_t value (vote_count w) (popularity w) (revenue w)
        (runtime_quality w) (release_recency w) (cast_star_power w)
  | k_vote_count =>
      Build_t (vote_average w) value (popularity w) (revenue w)
        (runtime_quality w) (release_recency w) (cast_star_power w)
  | k_popularity =>
      Build_t (vote_average w) (vote_count w) value (revenue w)
        (runtime_quality w) (release_recency w) (cast_star_power w)
  | k_revenue =>
      Build_t (vote_average w) (vote_count w) (popularity w) value
        (runtime_quality w) (release_recency w) (cast_star_power w)
  | k_runtime_quality =>
      Build_t (vote_average w) (vote_count w) (popularity w) (revenue w)
        value (release_recency w) (cast_star_power w)
  | k_release_recency =>
      Build_t (vote_average w) (vote_count w) (popularity w) (revenue w)
        (runtime_quality w) value (cast_star_power w)
  | k_cast_star_power =>
      Build_t (vote_average w) (vote_count w) (popularity w) (revenue w)
        (runtime_quality w) (release_recency w) value
  end.

(** [Object.values(weights)]: the values in property order. *)
Definition values (w : t) : list number :=
  [vote_average w; vote_count w; popularity w; revenue w;
   runtime_quality w; release_recency w; cast_star_power w].

(** The object itself, as [JSON.stringify] walks it. *)
Definition toValue (w : t) : Js.value :=
  Js.Obj [("vote_average", Js.Num (vote_average w));
          ("vote_count", Js.Num (vote_count w));
          ("popularity", Js.Num (popularity w));
          ("revenue", Js.Num (revenue w));
          ("runtime_quality", Js.Num (runtime_quality w));
          ("release_recency", Js.Num (release_recency w));
          ("cast_star_power", Js.Num (cast_star_power w))].

(** The name of a key, as a property of the object. *)
Definition name (k : key) : string :=
  match k with
  | k_vote_average => "vote_average"
  | k_vote_count => "vote_count"
  | k_popularity => "popularity"
  | k_revenue => "revenue"
  | k_runtime_quality => "runtime_quality"
  | k_release_recency => "release_recency"
  | k_cast_star_power => "cast_star_power"
  end.

(** *** Specification vocabulary *)


(** All seven weights are 0 (as numbers: [w === 0], which [-0] satisfies). *)
Definition allZero (w : t) : Prop :=
  forall k : key, is_zero (get w k) = true.

End WeightConfig.

Definition DEFAULT_WEIGHTS : WeightConfig.t := {|
  WeightConfig.vote_average := 0.25%float;
  WeightConfig.vote_count := 0.15%float;
  WeightConfig.popularity := 0.20%float;
  WeightConfig.revenue := 0.10%float;
  WeightConfig.runtime_quality := 0.05%float;
  WeightConfig.release_recency := 0.10%float;
  WeightConfig.cast_star_power := 0.15%float
|}.

(** ** utils/format.ts *)

Module Format.
Import JsNumber.

(** Format a number as currency (USD). *)
Definition formatCurrency (value : number) : string :=
  if (1000000000 <=? value)%float
  then "$" ++ toFixed (value / 1000000000)%float 1 ++ "B"
  else if (1000000 <=? value)%float
  then "$" ++ toFixed (value / 1000000)%float 0 ++ "M"
  else if (1000 <=? value)%float
  then "$" ++ toFixed (value / 1000)%float 0 ++ "K"
  else "$" ++ toString value.

(** Format runtime in hours and minutes; [None] is [null]. *)
Definition formatRuntime (minutes : option number) : string :=
  match minutes with
  | None => "N/A"
  | Some minutes =>
      if negb (truthy minutes) then "N/A"
      else
        let hours := floor (minutes / 60)%float in
        let mins := rem minutes 60%float in
        if (0 <? hours)%float
        then toString hours ++ "h " ++ toString mins ++ "m"
        else toString mins ++ "m"
  end.

(** Calculate ROI percentage. *)
Definition calculateROI (revenue budget : number) : string :=
  if (budget <=? 0)%float then "N/A"
  else
    let roi := ((revenue - budget) / budget * 100)%float in
    let sign := if (0 <=? roi)%float then "+" else "" in
    sign ++ toFixed roi 0 ++ "%".

(** Format a date string to year only; [None] is [null].  [split] does not
    throw on a string, so the [catch] is never entered. *)
Definition formatYear (dateString : option string) : string :=
  match dateString with
  | None => "N/A"
  | Some d => if negb (JsString.truthy d) then "N/A" else JsString.split_first "-" d
  end.

(** Get grade color class based on letter grade. *)
Definition getGradeColor (grade : string) : string :=
  let letter := JsString.charAt0_toUpperCase grade in
  if JsString.units_are letter "A" then "text-emerald-400"
  else if JsString.units_are letter "B" then "text-yellow-400"
  else if JsString.units_are letter "C" then "text-orange-400"
  else if JsString.units_are letter "D" then "text-red-400"
  else if JsString.units_are letter "F" then "text-red-500"
  else "text-gray-400".

(** Get score color based on numeric value. *)
Definition getScoreColor (score : number) : string :=
  if (80 <=? score)%float then "#10b981"
  else if (60 <=? score)%float then "#f59e0b"
  else if (40 <=? score)%float then "#f97316"
  else "#ef4444".

End Format.

(** ** services/api.ts *)

Module Api.
Import JsNumber Js.

Definition API_BASE : string := "/api".

(** The second argument of [fetch]; [None] is a property that is not there. *)
Record RequestInit := {
  method : option string;
  headers : option (list (string * string));
  body : option string
}.

(** What [fetch] is called with. *)
Record Request := {
  url : string;
  init : RequestInit
}.

(** A response as [fetchApi] reads it: the status, and what
    [response.json()] settles to. *)
Record Response := {
  status : Z;
  json : result value
}.

(** [response.ok]: the status is in the range 200-299. *)
Definition ok (r : Response) : bool :=
  ((200 <=? status r) && (status r <=? 299))%Z.

(** Object spread on string maps: [{ ...a, ...b }]. *)
Fixpoint assign1 (a : list (string * string)) (k v : string) : list (string * string) :=
  match a with
  | [] => [(k, v)]
  | (k', v') :: r => if String.eqb k' k then (k', v) :: r else (k', v') :: assign1 r k v
  end.

Definition spread (a b : list (string * string)) : list (string * string) :=
  fold_left (fun acc kv => assign1 acc (fst kv) (snd kv)) b a.

(** The request [fetchApi(endpoint, options)] sends:
    [fetch(`${API_BASE}${endpoint}`,
           { headers: { 'Content-Type': 'application/json', ...options?.headers },
             ...options })]. *)
Definition fetchApi_request (endpoint : string) (options : option RequestInit) : Request :=
  let merged :=
    spread [("Content-Type", "application/json")]
      match options with
      | Some o => match headers o with Some h => h | None => [] end
      | None => []
      end in
  {| url := API_BASE ++ endpoint;
     init :=
       match options with
       | Some o =>
           {| method := method o;
              headers := Some match headers o with Some h => h | None => merged end;
              body := body o |}
       | None => {| method := None; headers := Some merged; body := None |}
       end |}.

(** What [fetchApi] makes of the settled [fetch] promise. *)
Definition fetchApi_response (fetched : result Response) : result value :=
  response <- fetched ;;
  if negb (ok response) then
    error <- catch (json response) (fun _ => Obj [("error", Str "Unknown error")]) ;;
    e <- get error "error" ;;
    m <- (if truthy e then Ok e
          else d <- get error "detail" ;; Ok (or d (Str "Request failed"))) ;;
    message <- toString m ;;
    Throw (ApiError (status response) message)
  else json response.

Section Network.

(** The network: what [fetch] settles to for a request. *)
Variable fetch : Request -> result Response.

Definition fetchApi (endpoint : string) (options : option RequestInit) : result value :=
  fetchApi_response (fetch (fetchApi_request endpoint options)).

(** Search movies *)
Definition searchMovies_endpoint (query : string) (page : option number) : string :=
  let page := match page with Some p => p | None => 1%float end in
  let params : URLSearchParams.t := [("q", query); ("page", JsNumber.toString page)] in
  "/search?" ++ URLSearchParams.toString params.

Definition searchMovies (query : string) (page : option number) : result value :=
  fetchApi (searchMovies_endpoint query page) None.

(** The endpoint of [searchMovies] for a query given by its UTF-16 code
    units, whatever they are: URLSearchParams converts the value to a
    USVString before it writes it. *)
Definition searchMovies_endpoint_units (query : list N) (page : option number) : string :=
  let page := match page with Some p => p | None => 1%float end in
  "/search?"
  ++ JsString.join "&"
       [JsString.form_encode "q" ++ "=" ++ Usv.form_encode query;
        JsString.form_encode "page" ++ "=" ++ JsString.form_encode (JsNumber.toString page)].

(** Get movie score breakdown *)
Definition getMovieScore_params (weights : option WeightConfig.t) : URLSearchParams.t :=
  let params := URLSearchParams.empty in
  match weights with
  | Some weights =>
      let params := URLSearchParams.set "vote_average_weight"
                      (JsNumber.toString (WeightConfig.vote_average weights)) params in
      let params := URLSearchParams.set "vote_count_weight"
                      (JsNumber.toString (WeightConfig.vote_count weights)) params in
      let params := URLSearchParams.set "popularity_weight"
                      (JsNumber.toString (WeightConfig.popularity weights)) params in
      let params := URLSearchParams.set "revenue_weight"
                      (JsNumber.toString (WeightConfig.revenue weights)) params in
      let params := URLSearchParams.set "runtime_weight"
                      (JsNumber.toString (WeightConfig.runtime_quality weights)) params in
      let params := URLSearchParams.set "recency_weight"
                      (JsNumber.toString (WeightConfig.release_recency weights)) params in
      let params := URLSearchParams.set "cast_weight"
                      (JsNumber.toString (WeightConfig.cast_star_power weights)) params in
      params
  | None => params
  end.

Definition getMovieScore_endpoint (movieId : number) (weights : option WeightConfig.t) : string :=
  "/score/" ++ JsNumber.toString movieId ++ "?"
  ++ URLSearchParams.toString (getMovieScore_params weights).

Definition getMovieScore (movieId : number) (weights : option WeightConfig.t) : result value :=
  fetchApi (getMovieScore_endpoint movieId weights) None.

(** Compare two movies *)

(** The object literal [{ movie1_id: movie1Id, movie2_id: movie2Id, weights }]. *)
Definition compareMovies_payload (movie1Id movie2Id : number)
    (weights : option WeightConfig.t) : value :=
  Obj [("movie1_id", Num movie1Id);
       ("movie2_id", Num movie2Id);
       ("weights", match weights with
                   | Some w => WeightConfig.toValue w
                   | None => Undefined
                   end)].

Definition compareMovies_options (movie1Id movie2Id : number)
    (weights : option WeightConfig.t) : RequestInit :=
  {| method := Some "POST";
     headers := None;
     body := stringify (compareMovies_payload movie1Id movie2Id weights) |}.

Definition compareMovies_request (movie1Id movie2Id : number)
    (weights : option WeightConfig.t) : Request :=
  fetchApi_request "/compare" (Some (compareMovies_options movie1Id movie2Id weights)).

(** The part of [compareMovies] after the [await]. *)
Definition compareMovies_response (fetched : result Response) : result value :=
  response <- fetchApi_response fetched ;;
  success <- get response "success" ;;
  failed <- (if negb (truthy success) then Ok true
             else comparison <- get response "comparison" ;; Ok (negb (truthy comparison))) ;;
  if (failed : bool) then
    error <- get response "error" ;;
    message <- toString (or error (Str "Comparison failed")) ;;
    Throw (Error message)
  else get response "comparison".

Definition compareMovies (movie1Id movie2Id : number)
    (weights : option WeightConfig.t) : result value :=
  compareMovies_response (fetch (compareMovies_request movie1Id movie2Id weights)).

End Network.

(** *** Specification vocabulary *)


(** [c] is the whole [comparison] of a response that [fetch] delivered with
    a 2xx status, a body that parsed, and a truthy [success]. *)
Definition complete_comparison (fetched : result Response) (c : value) : Prop :=
  exists response body success,
    fetched = Ok response /\ ok response = true /\ json response = Ok body
    /\ get body "success" = Ok success /\ truthy success = true
    /\ get body "comparison" = Ok c /\ truthy c = true.

(** A call that fails before any body is read: the request is rejected
    (no network, a refused connection), or a 2xx body is not JSON. *)
Definition transport_failure (fetched : result Response) (e : JsError) : Prop :=
  fetched = Throw e
  \/ exists response,
       fetched = Ok response /\ ok response = true /\ json response = Throw e.

(** A property that is absent or falsy, so that [||] moves on. *)
Definition falsy_or_absent (v : option value) : bool :=
  match v with
  | Some x => negb (truthy x)
  | None => true
  end.

(** ['w185' | 'w342' | 'w500' | 'original'] *)
Inductive PosterSize := w185 | w342 | w500 | original.

Definition PosterSize_toString (s : PosterSize) : string :=
  match s with
  | w185 => "w185"
  | w342 => "w342"
  | w500 => "w500"
  | original => "original"
  end.

(** Utility: Get poster URL.  [path = None] is [null]; [size = None] is an
    argument left out, which takes the default ['w342']. *)
Definition getPosterUrl (path : option string) (size : option PosterSize) : string :=
  let size := match size with Some s => s | None => w342 end in
  if negb (match path with Some p => JsString.truthy p | None => false end)
  then "https://via.placeholder.com/342x513?text=No+Poster"
  else "https://image.tmdb.org/t/p/" ++ PosterSize_toString size
       ++ match path with Some p => p | None => "null" end.

(** ['w780' | 'w1280' | 'original'] *)
Module Backdrop.

Inductive Size := w780 | w1280 | original.

Definition Size_toString (s : Size) : string :=
  match s with
  | w780 => "w780"
  | w1280 => "w1280"
  | original => "original"
  end.

End Backdrop.

(** Utility: Get backdrop URL; a size left out is ['w1280']. *)
Definition getBackdropUrl (path : option string) (size : option Backdrop.Size) : string :=
  let size := match size with Some s => s | None => Backdrop.w1280 end in
  if negb (match path with Some p => JsString.truthy p | None => false end)
  then EmptyString
  else "https://image.tmdb.org/t/p/" ++ Backdrop.Size_toString size
       ++ match path with Some p => p | None => "null" end.

(** ['day' | 'week'] *)
Inductive TimeWindow := day | week.

Definition TimeWindow_toString (t : TimeWindow) : string :=
  match t with
  | day => "day"
  | week => "week"
  end.

(** The endpoints of the calls that only read. *)

(** Get movie details *)
Definition getMovie_endpoint (movieId : number) : string :=
  "/movie/" ++ JsNumber.toString movieId.

(** Get trending movies; a [timeWindow] left out is ['week'], a
    [withScores] left out is [false]. *)
Definition getTrending_endpoint (timeWindow : option TimeWindow)
    (withScores : option bool) : string :=
  let timeWindow := match timeWindow with Some t => t | None => week end in
  let withScores := match withScores with Some b => b | None => false end in
  let params : URLSearchParams.t :=
    [("time_window", TimeWindow_toString timeWindow);
     ("with_scores", if withScores then "true" else "false")] in
  "/trending?" ++ URLSearchParams.toString params.

(** Get recommendations *)
Definition getRecommendations_endpoint (movieId : number) : string :=
  "/recommendations/" ++ JsNumber.toString movieId.

(** Get cast analysis *)
Definition getCastAnalysis_endpoint (movieId : number) : string :=
  "/cast-analysis/" ++ JsNumber.toString movieId.

Section ReadCalls.

Variable fetch : Request -> result Response.

Definition getMovie (movieId : number) : result value :=
  fetchApi fetch (getMovie_endpoint movieId) None.

Definition getTrending (timeWindow : option TimeWindow) (withScores : option bool)
  : result value :=
  fetchApi fetch (getTrending_endpoint timeWindow withScores) None.

Definition getRecommendations (movieId : number) : result value :=
  fetchApi fetch (getRecommendations_endpoint movieId) None.

Definition getCastAnalysis (movieId : number) : result value :=
  fetchApi fetch (getCastAnalysis_endpoint movieId) None.

(** Get genres *)
Definition getGenres : result value := fetchApi fetch "/genres" None.

(** Health check *)
Definition healthCheck : result value := fetchApi fetch "/health" None.

End ReadCalls.

End Api.

(** ** React elements *)

Module React.

(** What a component returns: text, or an element with its type (a tag or
    a component), its props, its event handlers and its children.  A child
    expression that evaluates to [false] or [null] renders nothing and is
    left out of the list of children. *)
Inductive element (H : Type) :=
| Text (s : string)
| Elem (type : string) (props : list (string * Js.value))
       (handlers : list (string * H)) (children : list (element H)).

Arguments Text {H} s.
Arguments Elem {H} type props handlers children.

Definition className (s : string) : string * Js.value := ("className", Js.Str s).

(** An element with a class and no handler. *)
Definition tag {H : Type} (type cls : string) (children : list (element H)) : element H :=
  Elem type [className cls] [] children.

(** [<>...</>] *)
Definition fragment {H : Type} (children : list (element H)) : element H :=
  Elem "Fragment" [] [] children.

(** [cond && child] *)
Definition when {H : Type} (cond : bool) (child : element H) : list (element H) :=
  if cond then [child] else [].

(** *** Specification vocabulary *)

(** The elements of a rendered tree that satisfy a test, in document
    order. *)
Fixpoint select {H : Type} (test : element H -> bool) (e : element H) : list (element H) :=
  (if test e then [e] else [])
  ++ match e with
     | Text _ => []
     | Elem _ _ _ children => flat_map (select test) children
     end.

(** An element whose class list holds the red error style. *)
Definition isRed {H : Type} (e : element H) : bool :=
  match e with
  | Text _ => false
  | Elem _ props _ _ =>
      match Js.lookup "className" props with
      | Some (Js.Str cls) =>
          match index 0 "text-red-400" cls with
          | Some _ => true
          | None => false
          end
      | _ => false
      end
  end.

End React.

(** ** components/WeightSliders.tsx *)

Module WeightSliders.
Import JsNumber React.

Definition WEIGHT_LABELS : list (WeightConfig.key * string * (string * string)) :=
  [(WeightConfig.k_vote_average, "vote_average",
     ("User Rating", "TMDB user ratings (0-10 scale)"));
   (WeightConfig.k_vote_count, "vote_count",
     ("Rating Confidence", "Number of votes - more votes = more reliable"));
   (WeightConfig.k_popularity, "popularity",
     ("Popularity", "TMDB popularity index - cultural impact"));
   (WeightConfig.k_revenue, "revenue",
     ("Box Office", "Financial performance and profitability"));
   (WeightConfig.k_runtime_quality, "runtime_quality",
     ("Runtime Quality", "Optimal movie length (90-150 min ideal)"));
   (WeightConfig.k_release_recency, "release_recency",
     ("Era Score", "Classic status vs recency"));
   (WeightConfig.k_cast_star_power, "cast_star_power",
     ("Star Power", "Lead actor popularity and recognition"))].

(** The handlers of the component; [handleWeightChange] receives
    [parseFloat(e.target.value)] from the slider of its key. *)
Inductive handler :=
| toggleExpanded
| handleWeightChange_of (key : WeightConfig.key)
| handleReset_.

(** [const [isExpanded, setIsExpanded] = useState(false)]: the panel starts
    collapsed. *)
Definition isExpanded_initial : bool := false.

(** [() => setIsExpanded(!isExpanded)] *)
Definition toggle (isExpanded : bool) : bool := negb isExpanded.

(** [handleWeightChange]: the argument of [onChange]. *)
Definition handleWeightChange (weights : WeightConfig.t) (key : WeightConfig.key)
    (value : number) : WeightConfig.t :=
  WeightConfig.set weights key value.

(** [handleReset]: the argument of [onChange]. *)
Definition handleReset : WeightConfig.t := DEFAULT_WEIGHTS.

(** [Object.values(weights).reduce((sum, w) => sum + w, 0)] *)
Definition totalWeight (weights : WeightConfig.t) : number :=
  fold_left (fun sum w => (sum + w)%float) (WeightConfig.values weights) 0%float.

(** The class of the total indicator. *)
Definition totalClass (weights : WeightConfig.t) : string :=
  if (0 <? totalWeight weights)%float then "text-primary-400" else "text-red-400".

Definition slider (weights : WeightConfig.t)
    (entry : WeightConfig.key * string * (string * string)) : element handler :=
  let '(key, name, (label, description)) := entry in
  Elem "div" [("key", Js.Str name); className "space-y-1"] []
    [tag "div" "flex justify-between text-sm"
       [tag "label" "text-gray-300" [Text label];
        tag "span" "text-primary-400 font-medium"
          [Text (toFixed (WeightConfig.get weights key * 100)%float 0); Text "%"]];
     Elem "input"
       [("type", Js.Str "range"); ("min", Js.Str "0"); ("max", Js.Str "1");
        ("step", Js.Str "0.05"); ("value", Js.Num (WeightConfig.get weights key));
        className "w-full h-2 bg-dark-700 rounded-lg appearance-none cursor-pointer [&::-webkit-slider-thumb]:appearance-none [&::-webkit-slider-thumb]:w-4 [&::-webkit-slider-thumb]:h-4 [&::-webkit-slider-thumb]:bg-primary-500 [&::-webkit-slider-thumb]:rounded-full [&::-webkit-slider-thumb]:cursor-pointer [&::-webkit-slider-thumb]:hover:bg-primary-400"]
       [("onChange", handleWeightChange_of key)] [];
     tag "p" "text-xs text-gray-600" [Text description]].

(** The total indicator:
    [<span className={totalWeight > 0 ? 'text-primary-400' : 'text-red-400'}>
       {(totalWeight * 100).toFixed(0)}%</span>] *)
Definition totalIndicator (weights : WeightConfig.t) : element handler :=
  tag "span" (totalClass weights)
    [Text (toFixed (totalWeight weights * 100)%float 0); Text "%"].

(** The row under the sliders: the total and the reset button. *)
Definition totalRow (weights : WeightConfig.t) : element handler :=
  tag "div" "flex items-center justify-between pt-2 border-t border-dark-700"
    [tag "div" "text-sm"
       [tag "span" "text-gray-500" [Text "Total: "];
        totalIndicator weights;
        tag "span" "text-gray-600 text-xs ml-2" [Text "(will be normalized)"]];
     Elem "button"
       [className "flex items-center gap-1 text-sm text-gray-400 hover:text-white transition-colors"]
       [("onClick", handleReset_)]
       [tag "RotateCcw" "w-4 h-4" []; Text "Reset"]].

Definition WeightSliders (weights : WeightConfig.t) (isExpanded : bool) : element handler :=
  tag "div" "card p-4"
    [Elem "button" [className "w-full flex items-center justify-between text-left"]
       [("onClick", toggleExpanded)]
       [Elem "div" [] []
          [tag "h3" "font-semibold text-white" [Text "Scoring Weights"];
           tag "p" "text-sm text-gray-500" [Text "Customize how movies are scored"]];
        if isExpanded then tag "ChevronUp" "w-5 h-5 text-gray-400" []
        else tag "ChevronDown" "w-5 h-5 text-gray-400" []];
     Elem "AnimatePresence" [] []
       (when isExpanded
          (Elem "motion.div"
             [("initial", Js.Obj [("height", Js.Num 0); ("opacity", Js.Num 0)]);
              ("animate", Js.Obj [("height", Js.Str "auto"); ("opacity", Js.Num 1)]);
              ("exit", Js.Obj [("height", Js.Num 0); ("opacity", Js.Num 0)]);
              className "overflow-hidden"] []
             [tag "div" "pt-4 space-y-4"
                (map (slider weights) WEIGHT_LABELS ++ [totalRow weights])]))].

End WeightSliders.

(** ** components/SearchBar.tsx: the debounced search *)

Module SearchBar.
Import Js.

(** The component state ([useState]) and the timer handle ([useRef]). *)
Record State := {
  query : string;
  results : value;
  isLoading : bool;
  isOpen : bool;
  error : option string;
  debounceRef : option nat
}.

(** The component in its environment: the timers that are set and not yet
    fired or cleared, each with the [query] its callback closed over; the
    next timer handle; the arguments of the [searchMovies] calls made so
    far, latest first; the number of those calls that have not settled.
    Timer handles are positive, hence truthy. *)
Record World := {
  state : State;
  timers : list (nat * string);
  next_timer : nat;
  calls : list string;
  awaiting : nat
}.

(** [clearTimeout(id)] *)
Definition clearTimeout (id : nat) (timers : list (nat * string)) : list (nat * string) :=
  filter (fun t => negb (Nat.eqb (fst t) id)) timers.

(** The effect on [query]: it runs after the first render and after each
    render in which [query] has changed. *)
Definition effect (w : World) : World :=
  let s := state w in
  (* if (debounceRef.current) clearTimeout(debounceRef.current) *)
  let timers1 :=
    match debounceRef s with
    | Some id => clearTimeout id (timers w)
    | None => timers w
    end in
  if (String.length (JsString.trim (query s)) <? 2)%nat then
    (* setResults([]); setIsOpen(false); return *)
    {| state := {| query := query s; results := Arr []; isLoading := isLoading s;
                   isOpen := false; error := error s; debounceRef := debounceRef s |};
       timers := timers1; next_timer := next_timer w;
       calls := calls w; awaiting := awaiting w |}
  else
    (* setIsLoading(true); setError(null);
       debounceRef.current = setTimeout(async () => { ... }, 300) *)
    let id := next_timer w in
    {| state := {| query := query s; results := results s; isLoading := true;
                   isOpen := isOpen s; error := None; debounceRef := Some id |};
       timers := (id, query s) :: timers1; next_timer := S id;
       calls := calls w; awaiting := awaiting w |}.

(** The cleanup the effect returns, run before the effect runs again. *)
Definition cleanup (w : World) : World :=
  {| state := state w;
     timers := match debounceRef (state w) with
               | Some id => clearTimeout id (timers w)
               | None => timers w
               end;
     next_timer := next_timer w; calls := calls w; awaiting := awaiting w |}.

(** [setQuery(q)] and the render that follows: the effect runs again, after
    its cleanup, when [q] differs from the query of the last render. *)
Definition setQuery (q : string) (w : World) : World :=
  let s := state w in
  if String.eqb q (query s) then w
  else
    effect (cleanup
      {| state := {| query := q; results := results s; isLoading := isLoading s;
                     isOpen := isOpen s; error := error s; debounceRef := debounceRef s |};
         timers := timers w; next_timer := next_timer w;
         calls := calls w; awaiting := awaiting w |}).

(** [handleSelect] and [handleClear]:
    [setQuery(''); setResults([]); setIsOpen(false)]. *)
Definition handleClear (w : World) : World :=
  let w' := setQuery EmptyString w in
  let s := state w' in
  {| state := {| query := query s; results := Arr []; isLoading := isLoading s;
                 isOpen := false; error := error s; debounceRef := debounceRef s |};
     timers := timers w'; next_timer := next_timer w';
     calls := calls w'; awaiting := awaiting w' |}.

(** The timer [id] fires: its callback calls [searchMovies(query)] with the
    query it closed over. *)
Definition fire (id : nat) (w : World) : World :=
  match find (fun t => Nat.eqb (fst t) id) (timers w) with
  | Some (_, q) =>
      {| state := state w; timers := clearTimeout id (timers w);
         next_timer := next_timer w; calls := q :: calls w; awaiting := S (awaiting w) |}
  | None => w
  end.

(** [response.results.slice(0, 8)] *)
Definition first8 (response : value) : result value :=
  r <- get response "results" ;;
  match r with
  | Arr l => Ok (Arr (firstn 8 l))
  | Str s => Ok (Str (substring 0 8 s))
  | Undefined => Throw (TypeError "Cannot read properties of undefined (reading 'slice')")
  | Null => Throw (TypeError "Cannot read properties of null (reading 'slice')")
  | _ => Throw (TypeError "response.results.slice is not a function")
  end.

(** A pending [searchMovies] call settles: the rest of the timer callback. *)
Definition settle (outcome : result value) (w : World) : World :=
  match awaiting w with
  | O => w
  | S n =>
      let s := state w in
      let s' :=
        match response <- outcome ;; first8 response with
        | Ok rs =>
            {| query := query s; results := rs; isLoading := false;
               isOpen := true; error := error s; debounceRef := debounceRef s |}
        | Throw _ =>
            {| query := query s; results := Arr []; isLoading := false;
               isOpen := isOpen s; error := Some "Search failed. Please try again.";
               debounceRef := debounceRef s |}
        end in
      {| state := s'; timers := timers w; next_timer := next_timer w;
         calls := calls w; awaiting := n |}
  end.

(** What can happen to a mounted search bar. *)
Inductive event :=
| Input (q : string)
| Clear
| Fire (id : nat)
| Settle (outcome : result value).

Definition step (w : World) (e : event) : World :=
  match e with
  | Input q => setQuery q w
  | Clear => handleClear w
  | Fire id => fire id w
  | Settle outcome => settle outcome w
  end.

(** The first render, with [query = ''], and its effect. *)
Definition mount : World :=
  effect {| state := {| query := EmptyString; results := Arr []; isLoading := false;
                        isOpen := false; error := None; debounceRef := None |};
            timers := []; next_timer := 1; calls := []; awaiting := 0 |}.

Definition run (events : list event) : World := fold_left step events mount.

(** *** Specification vocabulary *)

(** A query the effect lets through. *)
Definition searchable (q : string) : Prop := 2 <= String.length (JsString.trim q).

(** What holds of a mounted search bar at all times: every call made was
    for a searchable query, and at most one timer is pending, the one
    [debounceRef] names, set for the current query, which is searchable. *)
Definition invariant (w : World) : Prop :=
  Forall searchable (calls w)
  /\ match timers w with
     | [] => True
     | [(id, q)] =>
         q = query (state w) /\ debounceRef (state w) = Some id /\ searchable q
     | _ => False
     end.

Definition isFire (e : event) : bool :=
  match e with
  | Fire _ => true
  | _ => false
  end.

(** The timers and the calls are for queries that were typed, and no call
    was made without a timer that fired. *)
Definition typed_by (events : list event) (w : World) : Prop :=
  (forall id q, In (id, q) (timers w) -> In (Input q) events)
  /\ (forall q, In q (calls w) -> In (Input q) events)
  /\ length (calls w) <= length (filter isFire events).

(** An event that starts no search: anything but typing a searchable
    query. *)
Definition quiet (e : event) : Prop :=
  match e with
  | Input q => ~ searchable q
  | _ => True
  end.

(** The spinner turns with nothing left that could stop it: no timer is
    pending, no call was made, none is awaited. *)
Definition spinning_idle (w : World) : Prop :=
  isLoading (state w) = true /\ timers w = [] /\ calls w = [] /\ awaiting w = 0.

(** At most eight results. *)
Definition at_most_8 (results : value) : Prop :=
  match results with
  | Arr l => length l <= 8
  | Str s => String.length s <= 8
  | _ => False
  end.

End SearchBar.

(** ** components/ComparisonResult.tsx *)

Module ComparisonResultComponent.
Import JsNumber React.

Definition Confidence_toString (c : Confidence) : string :=
  match c with
  | decisive => "decisive"
  | clear => "clear"
  | close => "close"
  | very_close => "very_close"
  end.

(** [s.replace(pattern, replacement)] for a string pattern: the first
    occurrence is replaced. *)
Definition replace (pattern replacement s : string) : string :=
  match index 0 pattern s with
  | Some i =>
      substring 0 i s ++ replacement
      ++ substring (i + String.length pattern)
           (String.length s - i - String.length pattern) s
  | None => s
  end.

Definition radar_value (d : RadarDataPoint.t) : Js.value :=
  Js.Obj [("feature", Js.Str (RadarDataPoint.feature d));
          ("movie1", Js.Num (RadarDataPoint.movie1 d));
          ("movie2", Js.Num (RadarDataPoint.movie2 d))].

Definition bar_value (d : BarDataPoint.t) : Js.value :=
  Js.Obj [("feature", Js.Str (BarDataPoint.feature d));
          ("movie1_score", Js.Num (BarDataPoint.movie1_score d));
          ("movie2_score", Js.Num (BarDataPoint.movie2_score d));
          ("difference", Js.Num (BarDataPoint.difference d))].

Definition offset (axis : string) (v opacity : number) : Js.value :=
  Js.Obj [(axis, Js.Num v); ("opacity", Js.Num opacity)].

Section Render.

(** The component has no event handler: any handler type will do. *)
Variable H : Type.

Variable result : ComparisonResult.t.

(** The destructured props. *)
Let movie1_title := ComparisonResult.movie1_title result.
Let movie1_score := ComparisonResult.movie1_score result.
Let movie1_breakdown := ComparisonResult.movie1_breakdown result.
Let movie2_title := ComparisonResult.movie2_title result.
Let movie2_score := ComparisonResult.movie2_score result.
Let movie2_breakdown := ComparisonResult.movie2_breakdown result.
Let winner := ComparisonResult.winner result.
Let confidence := ComparisonResult.confidence result.
Let verdict := ComparisonResult.verdict result.
Let args := ComparisonResult.arguments result.
Let radar_data := ComparisonResult.radar_data result.
Let bar_data := ComparisonResult.bar_data result.

Definition winnerTitle : string :=
  if Winner_eqb winner movie1 then movie1_title
  else if Winner_eqb winner movie2 then movie2_title
  else "Tie".

(** Winner Banner *)
Definition winnerBanner : element H :=
  Elem "motion.div"
    [("initial", offset "scale" 0.9 0); ("animate", offset "scale" 1 1);
     className "card p-6 text-center bg-gradient-to-br from-dark-900 to-dark-800"] []
    [if negb (Winner_eqb winner tie) then
       fragment
         [tag "Trophy" "w-12 h-12 text-primary-500 mx-auto mb-3" [];
          tag "h2" "text-2xl font-bold text-white mb-2" [Text winnerTitle; Text " Wins!"];
          tag "p" "text-gray-400 capitalize"
            [Text (replace "_" " " (Confidence_toString confidence)); Text " victory"]]
     else
       fragment
         [tag "MinusCircle" "w-12 h-12 text-gray-400 mx-auto mb-3" [];
          tag "h2" "text-2xl font-bold text-white mb-2" [Text "It's a Tie!"];
          tag "p" "text-gray-400" [Text "Both movies score nearly identical"]]].

Definition scoreGauge (score : number) (grade : string) : element H :=
  Elem "ScoreGauge"
    [("score", Js.Num score); ("grade", Js.Str grade); ("size", Js.Str "lg")] [] [].

(** Movie 1 *)
Definition movie1Card : element H :=
  Elem "motion.div"
    [("initial", offset "x" (-50) 0); ("animate", offset "x" 0 1);
     className ("card p-6 text-center "
                ++ (if Winner_eqb winner movie1 then "ring-2 ring-primary-500" else ""))] []
    ([tag "h3" "font-bold text-lg text-white mb-4" [Text movie1_title];
      tag "div" "flex justify-center mb-4"
        [scoreGauge movie1_score (ScoreBreakdown.grade movie1_breakdown)]]
     ++ when (Winner_eqb winner movie1)
          (tag "span" "inline-flex items-center gap-1 text-primary-500 text-sm font-medium"
             [tag "Trophy" "w-4 h-4" []; Text " Winner"])).

(** VS *)
Definition versus : element H :=
  tag "div" "text-center"
    [tag "div" "text-4xl font-bold text-gray-600" [Text "VS"];
     tag "div" "text-sm text-gray-500 mt-2"
       [Text "Score Difference: ";
        Text (toFixed (ComparisonResult.score_difference result) 1);
        Text " pts"]].

(** Movie 2 *)
Definition movie2Card : element H :=
  Elem "motion.div"
    [("initial", offset "x" 50 0); ("animate", offset "x" 0 1);
     className ("card p-6 text-center "
                ++ (if Winner_eqb winner movie2 then "ring-2 ring-blue-500" else ""))] []
    ([tag "h3" "font-bold text-lg text-white mb-4" [Text movie2_title];
      tag "div" "flex justify-center mb-4"
        [scoreGauge movie2_score (ScoreBreakdown.grade movie2_breakdown)]]
     ++ when (Winner_eqb winner movie2)
          (tag "span" "inline-flex items-center gap-1 text-blue-500 text-sm font-medium"
             [tag "Trophy" "w-4 h-4" []; Text " Winner"])).

(** Score Comparison *)
Definition scoreComparison : element H :=
  tag "div" "grid md:grid-cols-3 gap-6 items-center" [movie1Card; versus; movie2Card].

Definition delayed (delay : number) (cls : string) (children : list (element H)) : element H :=
  Elem "motion.div"
    [("initial", offset "y" 20 0); ("animate", offset "y" 0 1);
     ("transition", Js.Obj [("delay", Js.Num delay)]); className cls] [] children.

(** Verdict *)
Definition verdictCard : element H :=
  delayed 0.2 "card p-6"
    [tag "h3" "font-semibold text-white mb-3 flex items-center gap-2"
       [tag "AlertCircle" "w-5 h-5 text-primary-500" []; Text "The Verdict"];
     tag "p" "text-gray-300 leading-relaxed" [Text verdict]].

Definition legend : element H :=
  tag "div" "flex justify-center gap-6 mb-2 text-sm"
    [tag "span" "flex items-center gap-2"
       [tag "div" "w-3 h-3 rounded-full bg-primary-500" []; Text movie1_title];
     tag "span" "flex items-center gap-2"
       [tag "div" "w-3 h-3 rounded-full bg-blue-500" []; Text movie2_title]].

Definition chart (type : string) (data : list Js.value) : element H :=
  Elem type
    [("data", Js.Arr data); ("movie1Title", Js.Str movie1_title);
     ("movie2Title", Js.Str movie2_title)] [] [].

(** Charts *)
Definition charts : element H :=
  tag "div" "grid md:grid-cols-2 gap-6"
    [delayed 0.3 "card p-6"
       [tag "h3" "font-semibold text-white mb-4" [Text "Feature Comparison"];
        legend;
        chart "ComparisonRadar" (map radar_value radar_data)];
     delayed 0.4 "card p-6"
       [tag "h3" "font-semibold text-white mb-4" [Text "Score Breakdown"];
        chart "ComparisonBar" (map bar_value bar_data)]].

Definition Importance_is_high (i : Importance) : bool :=
  match i with
  | high => true
  | _ => false
  end.

Definition argument (index : nat) (arg : ArgumentPoint.t) : element H :=
  let w := ArgumentPoint.winner arg in
  let key_factor := Importance_is_high (ArgumentPoint.importance arg) in
  Elem "motion.div"
    [("key", Js.Str (ArgumentPoint.factor arg));
     ("initial", offset "x" (-20) 0); ("animate", offset "x" 0 1);
     ("transition", Js.Obj [("delay", Js.Num (0.5 + ofZ (Z.of_nat index) * 0.1))]);
     className ("p-4 rounded-lg border "
                ++ (if key_factor then "bg-dark-800 border-primary-500/30"
                    else "bg-dark-800/50 border-dark-700"))] []
    [tag "div" "flex items-start justify-between mb-2"
       [tag "div" "flex items-center gap-2"
          (when (Winner_eqb w movie1) (tag "CheckCircle" "w-4 h-4 text-primary-500" [])
           ++ when (Winner_eqb w movie2) (tag "CheckCircle" "w-4 h-4 text-blue-500" [])
           ++ when (Winner_eqb w tie) (tag "MinusCircle" "w-4 h-4 text-gray-500" [])
           ++ [tag "span" "font-medium text-white" [Text (ArgumentPoint.factor arg)]]
           ++ when key_factor
                (tag "span" "text-xs bg-primary-500/20 text-primary-400 px-2 py-0.5 rounded"
                   [Text "Key Factor"]))];
     tag "div" "flex items-center gap-4 text-sm mb-2"
       [tag "span" (if Winner_eqb w movie1 then "text-primary-400 font-medium" else "text-gray-400")
          [Text movie1_title; Text ": "; Text (ArgumentPoint.movie1_value arg)];
        tag "ArrowRight" "w-4 h-4 text-gray-600" [];
        tag "span" (if Winner_eqb w movie2 then "text-blue-400 font-medium" else "text-gray-400")
          [Text movie2_title; Text ": "; Text (ArgumentPoint.movie2_value arg)]];
     tag "p" "text-sm text-gray-500" [Text (ArgumentPoint.explanation arg)]].

Fixpoint mapi {A B : Type} (f : nat -> A -> B) (index : nat) (l : list A) : list B :=
  match l with
  | [] => []
  | x :: r => f index x :: mapi f (S index) r
  end.

(** Arguments *)
Definition argumentsCard : element H :=
  delayed 0.5 "card p-6"
    [tag "h3" "font-semibold text-white mb-4" [Text "Detailed Arguments"];
     tag "div" "space-y-4" (mapi argument 0 args)].

Definition ComparisonResult : element H :=
  tag "div" "space-y-8 animate-in"
    [winnerBanner; scoreComparison; verdictCard; charts; argumentsCard].

End Render.

(** A "Winner" badge: a [span] that holds a trophy and the word. *)
Definition isWinnerBadge {H : Type} (e : element H) : bool :=
  match e with
  | Text _ => false
  | Elem type _ _ children =>
      String.eqb type "span"
      && match children with
         | [Elem icon _ _ _; Text word] =>
             String.eqb icon "Trophy" && String.eqb word " Winner"
         | _ => false
         end
  end.

(** The number of "Winner" badges in a rendered tree. *)
Fixpoint countWinnerBadges {H : Type} (e : element H) : nat :=
  (if isWinnerBadge e then 1 else 0)
  + match e with
    | Text _ => 0
    | Elem _ _ _ children => list_sum (map countWinnerBadges children)
    end.

(** A "Key Factor" tag: a [span] of the tag's class that holds the words. *)
Definition isKeyFactorTag {H : Type} (e : element H) : bool :=
  match e with
  | Text _ => false
  | Elem type props _ children =>
      String.eqb type "span"
      && match props with
         | [(_, Js.Str cls)] =>
             String.eqb cls "text-xs bg-primary-500/20 text-primary-400 px-2 py-0.5 rounded"
         | _ => false
         end
      && match children with
         | [Text word] => String.eqb word "Key Factor"
         | _ => false
         end
  end.

(** The number of "Key Factor" tags in a rendered tree. *)
Fixpoint countKeyFactorTags {H : Type} (e : element H) : nat :=
  (if isKeyFactorTag e then 1 else 0)
  + match e with
    | Text _ => 0
    | Elem _ _ _ children => list_sum (map countKeyFactorTags children)
    end.

(** The rows of the arguments card. *)
Definition argumentRows {H : Type} (e : element H) : list (element H) :=
  match e with
  | Elem _ _ _ [_; Elem _ _ _ rows] => rows
  | _ => []
  end.

(** The [key] of a row. *)
Definition rowKey {H : Type} (e : element H) : option Js.value :=
  match e with
  | Elem _ props _ _ => Js.lookup "key" props
  | Text _ => None
  end.

End ComparisonResultComponent.

(** ** pages/ComparePage.tsx *)

Module ComparePage.
Import JsNumber Js React.

(** The [useState] cells of the page.  [result] holds what [compareMovies]
    returned, or [null]. *)
Record State := {
  movie1 : option MovieBasic.t;
  movie2 : option MovieBasic.t;
  weights : WeightConfig.t;
  result : option value;
  isLoading : bool;
  error : option string
}.

Definition initial : State :=
  {| movie1 := None; movie2 := None; weights := DEFAULT_WEIGHTS;
     result := None; isLoading := false; error := None |}.

Definition setMovie1 (m : option MovieBasic.t) (s : State) : State :=
  {| movie1 := m; movie2 := movie2 s; weights := weights s;
     result := result s; isLoading := isLoading s; error := error s |}.

Definition setMovie2 (m : option MovieBasic.t) (s : State) : State :=
  {| movie1 := movie1 s; movie2 := m; weights := weights s;
     result := result s; isLoading := isLoading s; error := error s |}.

Definition setWeights (w : WeightConfig.t) (s : State) : State :=
  {| movie1 := movie1 s; movie2 := movie2 s; weights := w;
     result := result s; isLoading := isLoading s; error := error s |}.

Definition setResult (r : option value) (s : State) : State :=
  {| movie1 := movie1 s; movie2 := movie2 s; weights := weights s;
     result := r; isLoading := isLoading s; error := error s |}.

Definition setIsLoading (b : bool) (s : State) : State :=
  {| movie1 := movie1 s; movie2 := movie2 s; weights := weights s;
     result := result s; isLoading := b; error := error s |}.

Definition setError (e : option string) (s : State) : State :=
  {| movie1 := movie1 s; movie2 := movie2 s; weights := weights s;
     result := result s; isLoading := isLoading s; error := e |}.

(** [handleCompare] up to its [await]: the new state, and the request that
    [compareMovies] sends; nothing happens unless both movies are chosen. *)
Definition handleCompare_start (s : State) : State * option Api.Request :=
  match movie1 s, movie2 s with
  | Some m1, Some m2 =>
      (setResult None (setError None (setIsLoading true s)),
       Some (Api.compareMovies_request (MovieBasic.id m1) (MovieBasic.id m2)
               (Some (weights s))))
  | _, _ => (s, None)
  end.

(** [handleCompare] from the [await] on: [comparison] is what
    [compareMovies] settled to. *)
Definition handleCompare_settle (comparison : Js.result value) (s : State) : State :=
  setIsLoading false
    match comparison with
    | Ok c => setResult (Some c) s
    | Throw err =>
        setError (Some (if instanceofError err then message err else "Comparison failed")) s
    end.

(** [handleCompare], run to its end over a network. *)
Definition handleCompare (fetch : Api.Request -> Js.result Api.Response) (s : State) : State :=
  match handleCompare_start s with
  | (s', Some request) =>
      handleCompare_settle (Api.compareMovies_response (fetch request)) s'
  | (s', None) => s'
  end.

Definition clearMovie1 (s : State) : State := setResult None (setMovie1 None s).

Definition clearMovie2 (s : State) : State := setResult None (setMovie2 None s).

(** *** Rendering *)

Inductive handler :=
| h_handleCompare
| h_clearMovie1
| h_clearMovie2
| h_setMovie1
| h_setMovie2
| h_setWeights.

(** [s.split('-')[0]] *)
Definition before_dash (s : string) : string :=
  match index 0 "-" s with
  | Some i => substring 0 i s
  | None => s
  end.

(** [release_date?.split('-')[0] || 'N/A'] *)
Definition year (release_date : option string) : string :=
  match release_date with
  | Some d => if JsString.truthy (before_dash d) then before_dash d else "N/A"
  | None => "N/A"
  end.

Definition selected (clear : handler) (accent : string) (m : MovieBasic.t) : element handler :=
  tag "div" "card p-4 relative"
    [Elem "button"
       [className "absolute top-2 right-2 p-1 hover:bg-dark-700 rounded-full transition-colors"]
       [("onClick", clear)]
       [tag "X" "w-5 h-5 text-gray-400" []];
     tag "div" "flex gap-4"
       [Elem "img"
          [("src", Str (Api.getPosterUrl (MovieBasic.poster_path m) (Some Api.w185)));
           ("alt", Str (MovieBasic.title m));
           className "w-24 h-36 object-cover rounded-lg"] [] [];
        Elem "div" [] []
          [tag "h3" "font-semibold text-white" [Text (MovieBasic.title m)];
           tag "p" "text-gray-500 text-sm" [Text (year (MovieBasic.release_date m))];
           tag "p" (accent ++ " text-sm mt-1")
             [Text "Rating: "; Text (toFixed (MovieBasic.vote_average m) 1); Text "/10"]]]].

Definition searchBar (select : handler) (placeholder : string) : element handler :=
  Elem "SearchBar" [("placeholder", Str placeholder)] [("onSelect", select)] [].

Definition heading (badge number title : string) : element handler :=
  tag "h2" "text-lg font-semibold text-white flex items-center gap-2"
    [tag "span" badge [Text number]; Text title].

(** Movie Selection *)
Definition movieSelection (s : State) : element handler :=
  tag "div" "grid md:grid-cols-2 gap-8 mb-8"
    [Elem "motion.div"
       [("initial", Obj [("x", Num (-30)); ("opacity", Num 0)]);
        ("animate", Obj [("x", Num 0); ("opacity", Num 1)]);
        className "space-y-4"] []
       [heading "w-8 h-8 rounded-full bg-primary-500 text-dark-950 flex items-center justify-center font-bold"
          "1" "First Movie";
        match movie1 s with
        | Some m => selected h_clearMovie1 "text-primary-400" m
        | None => searchBar h_setMovie1 "Search for first movie..."
        end];
     Elem "motion.div"
       [("initial", Obj [("x", Num 30); ("opacity", Num 0)]);
        ("animate", Obj [("x", Num 0); ("opacity", Num 1)]);
        className "space-y-4"] []
       [heading "w-8 h-8 rounded-full bg-blue-500 text-white flex items-center justify-center font-bold"
          "2" "Second Movie";
        match movie2 s with
        | Some m => selected h_clearMovie2 "text-blue-400" m
        | None => searchBar h_setMovie2 "Search for second movie..."
        end]].

(** Weight Configuration *)
Definition weightConfiguration (s : State) : element handler :=
  Elem "motion.div"
    [("initial", Obj [("y", Num 20); ("opacity", Num 0)]);
     ("animate", Obj [("y", Num 0); ("opacity", Num 1)]);
     ("transition", Obj [("delay", Num 0.2)]);
     className "mb-8"] []
    [Elem "WeightSliders" [("weights", WeightConfig.toValue (weights s))]
       [("onChange", h_setWeights)] []].

(** [disabled={!movie1 || !movie2 || isLoading}] *)
Definition compareDisabled (s : State) : bool :=
  negb (match movie1 s with Some _ => true | None => false end)
  || negb (match movie2 s with Some _ => true | None => false end)
  || isLoading s.

(** Compare Button *)
Definition compareButton (s : State) : element handler :=
  Elem "motion.div"
    [("initial", Obj [("y", Num 20); ("opacity", Num 0)]);
     ("animate", Obj [("y", Num 0); ("opacity", Num 1)]);
     ("transition", Obj [("delay", Num 0.3)]);
     className "text-center mb-12"] []
    [Elem "button"
       [("disabled", Bool (compareDisabled s));
        className "btn-primary inline-flex items-center gap-2 text-lg px-10 py-4 disabled:opacity-50 disabled:cursor-not-allowed"]
       [("onClick", h_handleCompare)]
       [if isLoading s then
          fragment [tag "Loader2" "w-6 h-6 animate-spin" []; Text "Analyzing..."]
        else
          fragment [tag "GitCompare" "w-6 h-6" []; Text "Compare Movies"]]].

(** Error: [error && (...)] *)
Definition errorBanner (s : State) : element handler :=
  Elem "AnimatePresence" [] []
    match error s with
    | Some e =>
        when (JsString.truthy e)
          (Elem "motion.div"
             [("initial", Obj [("opacity", Num 0); ("y", Num (-10))]);
              ("animate", Obj [("opacity", Num 1); ("y", Num 0)]);
              ("exit", Obj [("opacity", Num 0); ("y", Num (-10))]);
              className "mb-8 p-4 bg-red-500/10 border border-red-500/30 rounded-lg flex items-center gap-3"] []
             [tag "AlertCircle" "w-5 h-5 text-red-500 flex-shrink-0" [];
              tag "p" "text-red-400" [Text e]])
    | None => []
    end.

(** Results: [result && (...)] *)
Definition results (s : State) : element handler :=
  Elem "AnimatePresence" [] []
    match result s with
    | Some r =>
        when (truthy r)
          (Elem "motion.div"
             [("initial", Obj [("opacity", Num 0)]);
              ("animate", Obj [("opacity", Num 1)]);
              ("exit", Obj [("opacity", Num 0)])] []
             [Elem "ComparisonResultComponent" [("result", r)] [] []])
    | None => []
    end.

(** Header *)
Definition header : element handler :=
  Elem "motion.div"
    [("initial", Obj [("y", Num (-20)); ("opacity", Num 0)]);
     ("animate", Obj [("y", Num 0); ("opacity", Num 1)]);
     className "text-center mb-10"] []
    [tag "h1" "text-3xl md:text-4xl font-bold text-white mb-3" [Text "Movie Comparison Engine"];
     tag "p" "text-gray-400 max-w-2xl mx-auto"
       [Text "Select two movies to compare. Get detailed, evidence-based arguments for which movie is better based on multiple factors."]].

Definition ComparePage (s : State) : element handler :=
  tag "div" "min-h-screen bg-dark-950 py-8"
    [tag "div" "max-w-7xl mx-auto px-4 sm:px-6 lg:px-8"
       [header; movieSelection s; weightConfiguration s; compareButton s;
        errorBanner s; results s]].

(** *** The page as a state machine

    The events of the page: a movie picked in a search bar (which is
    rendered while its movie is [null]), a movie cleared, the weights
    changed by the sliders, a click on the compare button (which does
    nothing while the button is disabled), and the settling of the
    comparison in flight with any outcome of [fetch]. *)
Inductive event :=
| SelectMovie1 (m : MovieBasic.t)
| SelectMovie2 (m : MovieBasic.t)
| ClearMovie1
| ClearMovie2
| ChangeWeights (w : WeightConfig.t)
| ClickCompare
| Settle (fetched : Js.result Api.Response).

Record Page := {
  state : State;
  inflight : option Api.Request;
  sent : list Api.Request
}.

Definition step (p : Page) (e : event) : Page :=
  let s := state p in
  let keep s' := {| state := s'; inflight := inflight p; sent := sent p |} in
  match e with
  | SelectMovie1 m =>
      match movie1 s with
      | None => keep (setMovie1 (Some m) s)
      | Some _ => p
      end
  | SelectMovie2 m =>
      match movie2 s with
      | None => keep (setMovie2 (Some m) s)
      | Some _ => p
      end
  | ClearMovie1 => keep (clearMovie1 s)
  | ClearMovie2 => keep (clearMovie2 s)
  | ChangeWeights w => keep (setWeights w s)
  | ClickCompare =>
      if compareDisabled s then p
      else
        match handleCompare_start s with
        | (s', Some request) =>
            {| state := s'; inflight := Some request; sent := request :: sent p |}
        | (s', None) => keep s'
        end
  | Settle fetched =>
      match inflight p with
      | Some _ =>
          {| state := handleCompare_settle (Api.compareMovies_response fetched) s;
             inflight := None; sent := sent p |}
      | None => p
      end
  end.

Definition start : Page := {| state := initial; inflight := None; sent := [] |}.

Definition run (events : list event) : Page := fold_left step events start.

(** *** Specification vocabulary *)

(** While a comparison is in flight the page is loading and shows neither
    a result nor an error; otherwise it is not loading. *)
Definition invariant (p : Page) : Prop :=
  match inflight p with
  | Some _ =>
      result (state p) = None /\ error (state p) = None /\ isLoading (state p) = true
  | None => isLoading (state p) = false
  end.

(** The result the page holds, if any, is the whole comparison of some
    successful response. *)
Definition delivered (p : Page) : Prop :=
  forall c, result (state p) = Some c ->
    exists fetched, Api.complete_comparison fetched c.

(** The banner that shows an error message. *)
Definition errorShown (e : string) : element handler :=
  Elem "AnimatePresence" [] []
    [Elem "motion.div"
       [("initial", Obj [("opacity", Num 0); ("y", Num (-10))]);
        ("animate", Obj [("opacity", Num 1); ("y", Num 0)]);
        ("exit", Obj [("opacity", Num 0); ("y", Num (-10))]);
        className "mb-8 p-4 bg-red-500/10 border border-red-500/30 rounded-lg flex items-center gap-3"] []
       [tag "AlertCircle" "w-5 h-5 text-red-500 flex-shrink-0" [];
        tag "p" "text-red-400" [Text e]]].

(** Nothing rendered inside [AnimatePresence]. *)
Definition nothingShown : element handler := Elem "AnimatePresence" [] [] [].

(** A request for two movies that were picked and for weights that were
    set (or the default ones) in the course of [events]. *)
Definition requested_by (events : list event) (request : Api.Request) : Prop :=
  exists m1 m2 w,
    request = Api.compareMovies_request (MovieBasic.id m1) (MovieBasic.id m2) (Some w)
    /\ In (SelectMovie1 m1) events /\ In (SelectMovie2 m2) events
    /\ (w = DEFAULT_WEIGHTS \/ In (ChangeWeights w) events).

Definition isClickCompare (e : event) : bool :=
  match e with
  | ClickCompare => true
  | _ => false
  end.

Definition isSettle (e : event) : bool :=
  match e with
  | Settle _ => true
  | _ => false
  end.

(** What the page holds comes from its events. *)
Definition chosen_by (events : list event) (p : Page) : Prop :=
  (forall m, movie1 (state p) = Some m -> In (SelectMovie1 m) events)
  /\ (forall m, movie2 (state p) = Some m -> In (SelectMovie2 m) events)
  /\ (weights (state p) = DEFAULT_WEIGHTS \/ In (ChangeWeights (weights (state p))) events)
  /\ (forall request, In request (sent p) -> requested_by events request)
  /\ length (sent p) <= length (filter isClickCompare events).

End ComparePage.

(** ** components/MovieCard.tsx *)

Module MovieCard.

(** [movie.release_date ? movie.release_date.split('-')[0] : 'N/A'] *)
Definition year (release_date : option string) : string :=
  match release_date with
  | Some d => if JsString.truthy d then JsString.split_first "-" d else "N/A"
  | None => "N/A"
  end.

Definition getGradeColor (grade : string) : string :=
  if JsString.startsWith "A" grade then "text-emerald-400"
  else if JsString.startsWith "B" grade then "text-yellow-400"
  else if JsString.startsWith "C" grade then "text-orange-400"
  else if JsString.startsWith "D" grade then "text-red-400"
  else "text-red-500".

End MovieCard.

(** ** components/ScoreBreakdownChart.tsx *)

Module ScoreBreakdownChart.
Import JsNumber.

Definition getScoreColor (score : number) : string :=
  if (80 <=? score)%float then "#10b981"
  else if (60 <=? score)%float then "#f59e0b"
  else if (40 <=? score)%float then "#f97316"
  else "#ef4444".

Definition getGradeColorClass (grade : string) : string :=
  if JsString.startsWith "A" grade then "text-emerald-400"
  else if JsString.startsWith "B" grade then "text-yellow-400"
  else if JsString.startsWith "C" grade then "text-orange-400"
  else "text-red-400".

End ScoreBreakdownChart.

(** ** pages/MoviePage.tsx *)

Module MoviePage.
Import JsNumber Js.

(** The [useState] cells of the page. *)
Record State := {
  movie : value;
  scoreBreakdown : value;
  recommendations : value;
  castAnalysis : value;
  isLoading : bool;
  error : option string
}.

Definition initial : State :=
  {| movie := Null; scoreBreakdown := Null; recommendations := Arr [];
     castAnalysis := Null; isLoading := true; error := None |}.

Definition setMovie (v : value) (s : State) : State :=
  {| movie := v; scoreBreakdown := scoreBreakdown s; recommendations := recommendations s;
     castAnalysis := castAnalysis s; isLoading := isLoading s; error := error s |}.

Definition setScoreBreakdown (v : value) (s : State) : State :=
  {| movie := movie s; scoreBreakdown := v; recommendations := recommendations s;
     castAnalysis := castAnalysis s; isLoading := isLoading s; error := error s |}.

Definition setRecommendations (v : value) (s : State) : State :=
  {| movie := movie s; scoreBreakdown := scoreBreakdown s; recommendations := v;
     castAnalysis := castAnalysis s; isLoading := isLoading s; error := error s |}.

Definition setCastAnalysis (v : value) (s : State) : State :=
  {| movie := movie s; scoreBreakdown := scoreBreakdown s;
     recommendations := recommendations s;
     castAnalysis := v; isLoading := isLoading s; error := error s |}.

Definition setIsLoading (b : bool) (s : State) : State :=
  {| movie := movie s; scoreBreakdown := scoreBreakdown s;
     recommendations := recommendations s;
     castAnalysis := castAnalysis s; isLoading := b; error := error s |}.

Definition setError (e : option string) (s : State) : State :=
  {| movie := movie s; scoreBreakdown := scoreBreakdown s;
     recommendations := recommendations s;
     castAnalysis := castAnalysis s; isLoading := isLoading s; error := e |}.

(** [loadMovie] up to its [await]: the new state, and the endpoints of the
    four calls handed to [Promise.all], in the order they are made.
    Nothing happens for an [id] that is undefined ([None]) or empty. *)
Definition loadMovie_start (id : option string) (s : State) : State * list string :=
  match id with
  | None => (s, [])
  | Some id =>
      if negb (JsString.truthy id) then (s, [])
      else
        let movieId := JsString.parseInt id in
        (setError None (setIsLoading true s),
         [Api.getMovie_endpoint movieId;
          Api.getMovieScore_endpoint movieId None;
          Api.getRecommendations_endpoint movieId;
          Api.getCastAnalysis_endpoint movieId])
  end.

(** [recommendations.slice(0, 6)] *)
Definition first6 (recommendations : value) : result value :=
  match recommendations with
  | Arr l => Ok (Arr (firstn 6 l))
  | Str s => Ok (Str (substring 0 6 s))
  | Undefined => Throw (TypeError "Cannot read properties of undefined (reading 'slice')")
  | Null => Throw (TypeError "Cannot read properties of null (reading 'slice')")
  | _ => Throw (TypeError "recsData.recommendations.slice is not a function")
  end.

(** [loadMovie] from the [await] on: [all] is what [Promise.all] settled
    to, the four values or the rejection of the call that failed first. *)
Definition loadMovie_settle (all : result (value * value * value * value)) (s : State)
  : State :=
  setIsLoading false
    match all with
    | Ok (movieData, scoreData, recsData, castData) =>
        let s := setScoreBreakdown scoreData (setMovie movieData s) in
        match recs <- get recsData "recommendations" ;; first6 recs with
        | Ok shown => setCastAnalysis castData (setRecommendations shown s)
        | Throw err =>
            setError (Some (if instanceofError err then message err
                            else "Failed to load movie")) s
        end
    | Throw err =>
        setError (Some (if instanceofError err then message err
                        else "Failed to load movie")) s
    end.

(** Which of its three returns the component takes. *)
Inductive View :=
| Spinner
| ErrorView (text : string)
| Content.

Definition view (s : State) : View :=
  if isLoading s then Spinner
  else
    let shown := match error s with Some e => JsString.truthy e | None => false end in
    if shown || negb (truthy (movie s)) then
      ErrorView match error s with
                | Some e => if JsString.truthy e then e else "Movie not found"
                | None => "Movie not found"
                end
    else Content.

(** [movie.release_date?.split('-')[0] || 'N/A'] *)
Definition year (release_date : option string) : string :=
  match release_date with
  | Some d =>
      if JsString.truthy (JsString.split_first "-" d) then JsString.split_first "-" d
      else "N/A"
  | None => "N/A"
  end.

(** [movie.runtime ? `${Math.floor(movie.runtime / 60)}h ${movie.runtime % 60}m` : 'N/A'] *)
Definition runtime (runtime : option number) : string :=
  match runtime with
  | Some minutes =>
      if JsNumber.truthy minutes
      then JsNumber.toString (floor (minutes / 60)%float) ++ "h "
           ++ JsNumber.toString (rem minutes 60%float) ++ "m"
      else "N/A"
  | None => "N/A"
  end.

(** *** Specification vocabulary *)

(** The four endpoints for the text of an id. *)
Definition endpoints_of (id : string) : list string :=
  ["/movie/" ++ id; "/score/" ++ id ++ "?"; "/recommendations/" ++ id;
   "/cast-analysis/" ++ id].

(** The character cannot begin an integer: it is no white space, no sign
    and no digit. *)
Definition begins_no_integer (c : ascii) : bool :=
  let n := JsString.code c in
  negb (JsString.is_white_space c || (n =? 43)%N || (n =? 45)%N
        || (48 <=? n)%N && (n <=? 57)%N).

End MoviePage.

(** ** pages/TrendingPage.tsx *)

Module TrendingPage.
Import Js.

Record State := {
  timeWindow : Api.TimeWindow;
  movies : value;
  scoredMovies : value;
  isLoading : bool;
  showScores : bool
}.

Definition initial : State :=
  {| timeWindow := Api.week; movies := Arr []; scoredMovies := Arr [];
     isLoading := true; showScores := false |}.

Definition setTimeWindow (t : Api.TimeWindow) (s : State) : State :=
  {| timeWindow := t; movies := movies s; scoredMovies := scoredMovies s;
     isLoading := isLoading s; showScores := showScores s |}.

Definition setMovies (v : value) (s : State) : State :=
  {| timeWindow := timeWindow s; movies := v; scoredMovies := scoredMovies s;
     isLoading := isLoading s; showScores := showScores s |}.

Definition setScoredMovies (v : value) (s : State) : State :=
  {| timeWindow := timeWindow s; movies := movies s; scoredMovies := v;
     isLoading := isLoading s; showScores := showScores s |}.

Definition setIsLoading (b : bool) (s : State) : State :=
  {| timeWindow := timeWindow s; movies := movies s; scoredMovies := scoredMovies s;
     isLoading := b; showScores := showScores s |}.

Definition setShowScores (b : bool) (s : State) : State :=
  {| timeWindow := timeWindow s; movies := movies s; scoredMovies := scoredMovies s;
     isLoading := isLoading s; showScores := b |}.

(** [loadTrending] up to its [await]: the new state and the endpoint that
    [getTrending(timeWindow, showScores)] asks for. *)
Definition loadTrending_start (s : State) : State * string :=
  (setIsLoading true s,
   Api.getTrending_endpoint (Some (timeWindow s)) (Some (showScores s))).

(** [loadTrending] from the [await] on; a failure is logged and no state
    records it. *)
Definition loadTrending_settle (outcome : result value) (s : State) : State :=
  setIsLoading false
    match data <- outcome ;; get data "results" with
    | Ok results =>
        let s := setMovies results s in
        match data <- outcome ;; get data "scored_results" with
        | Ok scored => if truthy scored then setScoredMovies scored s else s
        | Throw _ => s
        end
    | Throw _ => s
    end.

(** The page in its environment: the endpoints asked for so far, latest
    first, and the number of calls that have not settled. *)
Record World := {
  state : State;
  sent : list string;
  pending : nat
}.

(** The effect on [[timeWindow, showScores]]. *)
Definition effect (w : World) : World :=
  let '(s, endpoint) := loadTrending_start (state w) in
  {| state := s; sent := endpoint :: sent w; pending := S (pending w) |}.

Definition TimeWindow_eqb (a b : Api.TimeWindow) : bool :=
  match a, b with
  | Api.day, Api.day | Api.week, Api.week => true
  | _, _ => false
  end.

(** The two buttons, the checkbox, and the settling of a pending call.  A
    state setter given the value the cell holds causes no render, hence no
    effect. *)
Inductive event :=
| ClickTimeWindow (t : Api.TimeWindow)
| ChangeShowScores (checked : bool)
| Settle (outcome : result value).

Definition step (w : World) (e : event) : World :=
  match e with
  | ClickTimeWindow t =>
      if TimeWindow_eqb t (timeWindow (state w)) then w
      else effect {| state := setTimeWindow t (state w); sent := sent w;
                     pending := pending w |}
  | ChangeShowScores b =>
      if Bool.eqb b (showScores (state w)) then w
      else effect {| state := setShowScores b (state w); sent := sent w;
                     pending := pending w |}
  | Settle outcome =>
      match pending w with
      | O => w
      | S n => {| state := loadTrending_settle outcome (state w); sent := sent w;
                  pending := n |}
      end
  end.

(** The first render and its effect. *)
Definition mount : World := effect {| state := initial; sent := []; pending := 0 |}.

Definition run (events : list event) : World := fold_left step events mount.

End TrendingPage.

(** ** hooks/useApi.ts *)

Module UseApi.
Import Js.

(** [UseApiState]; [data = Null] is [null]. *)
Record State := {
  data : value;
  isLoading : bool;
  error : option string
}.

Definition initial : State := {| data := Null; isLoading := false; error := None |}.

(** [execute] up to its [await]. *)
Definition execute_start : State := {| data := Null; isLoading := true; error := None |}.

(** What a promise is rejected with: an instance of Error, or any other
    value ([apiFunction] is the caller's: it may [throw] or reject with
    anything). *)
Inductive rejection :=
| AnError (err : JsError)
| NotAnError (thrown : value).

(** How the promise that [apiFunction] returned settles. *)
Inductive outcome :=
| Fulfilled (result : value)
| Rejected (err : rejection).

(** [err instanceof Error ? err.message : 'An error occurred'] *)
Definition errorMessage (err : rejection) : string :=
  match err with
  | AnError e => if instanceofError e then message e else "An error occurred"
  | NotAnError _ => "An error occurred"
  end.

(** [execute] from the [await] on: the new state and the value the promise
    of [execute] is fulfilled with. *)
Definition execute_settle (settled : outcome) : State * value :=
  match settled with
  | Fulfilled result => ({| data := result; isLoading := false; error := None |}, result)
  | Rejected err =>
      ({| data := Null; isLoading := false; error := Some (errorMessage err) |}, Null)
  end.

Definition reset : State := {| data := Null; isLoading := false; error := None |}.

(** A component that uses the hook: calls of [execute] may overlap. *)
Inductive event :=
| Execute
| Settle (settled : outcome)
| Reset.

Record Hook := {
  state : State;
  pending : nat;
  returned : list value
}.

Definition step (h : Hook) (e : event) : Hook :=
  match e with
  | Execute => {| state := execute_start; pending := S (pending h); returned := returned h |}
  | Settle settled =>
      match pending h with
      | O => h
      | S n =>
          let '(s, v) := execute_settle settled in
          {| state := s; pending := n; returned := v :: returned h |}
      end
  | Reset => {| state := reset; pending := pending h; returned := returned h |}
  end.

Definition start : Hook := {| state := initial; pending := 0; returned := [] |}.

Definition run (events : list event) : Hook := fold_left step events start.

(** *** Specification vocabulary *)

(** At most one of data, isLoading and error is set. *)
Definition one_at_most (s : State) : Prop :=
  (isLoading s = true -> data s = Null /\ error s = None)
  /\ (error s <> None -> data s = Null /\ isLoading s = false)
  /\ (data s <> Null -> isLoading s = false /\ error s = None).

End UseApi.

(** ** hooks/useApi.ts: useDebounce *)

Module UseDebounce.

Section Hook.

Variable T : Type.

(** The cell of the first [useState], and the timeouts that are set, each
    with the [value] its callback closed over.  The second [useState]
    keeps what its initializer returned (the function that would clear the
    timeout); nothing reads or calls it. *)
Record Hook := {
  debouncedValue : T;
  timers : list T
}.

(** The first render: both initializers run, the second one sets the
    timeout.  The hook returns [debouncedValue]. *)
Definition mount (value : T) : Hook := {| debouncedValue := value; timers := [value] |}.

(** A later render with a new [value]: [useState] ignores its argument
    after the first render, so no initializer runs and no timeout is
    set. *)
Definition render (value : T) (h : Hook) : Hook := h.

(** The oldest timeout fires: [setDebouncedValue(value)]. *)
Definition fire (h : Hook) : Hook :=
  match timers h with
  | v :: r => {| debouncedValue := v; timers := r |}
  | [] => h
  end.

Inductive event :=
| Render (value : T)
| Fire.

Definition step (h : Hook) (e : event) : Hook :=
  match e with
  | Render value => render value h
  | Fire => fire h
  end.

Definition run (value : T) (events : list event) : Hook :=
  fold_left step events (mount value).

End Hook.

Arguments debouncedValue {T} h.
Arguments timers {T} h.
Arguments Render {T} value.
Arguments Fire {T}.
Arguments run {T} value events.
Arguments step {T} h e.
Arguments mount {T} value.

End UseDebounce.

(** ** Specification vocabulary for the formatters *)

Module FormatSpec.

(** Whether a predicate holds of [count] integers from [from] on. *)
Fixpoint upto (p : Z -> bool) (count : nat) (from : Z) : bool :=
  match count with
  | O => true
  | S c => p from && upto p c (from + 1)%Z
  end.

(** A whole number of minutes written as hours and minutes. *)
Definition hours_and_minutes (n : Z) : string :=
  JsNumber.decimal (n / 60) ++ "h " ++ JsNumber.decimal (n mod 60) ++ "m".

(** The first character of a grade is one of A, B, C and D. *)
Definition starts_A_to_D (grade : string) : Prop :=
  exists c rest, grade = String c rest /\ (c = "A" \/ c = "B" \/ c = "C" \/ c = "D")%char.

End FormatSpec.

(** ** Reading a form-urlencoded string back

    The parser of the URL standard (5.1), as far as the serializer's output
    goes: [+] is a space, [%XY] a byte, and two bytes that encode a code
    point from 128 to 255 in UTF-8 give that code unit. *)

Module Urlencoded.
Import JsString.

(** The characters the serializer leaves in a name or a value. *)
Definition safe (c : ascii) : bool :=
  let n := code c in
  ((n =? 37) || (n =? 42) || (n =? 43) || (n =? 45) || (n =? 46) || (n =? 95)
   || (48 <=? n) && (n <=? 57)
   || (65 <=? n) && (n <=? 90)
   || (97 <=? n) && (n <=? 122))%N.

Fixpoint all (p : ascii -> bool) (s : string) : bool :=
  match s with
  | EmptyString => true
  | String c s' => p c && all p s'
  end.

Definition hex_value (c : ascii) : option N :=
  let n := code c in
  if ((48 <=? n) && (n <=? 57))%N then Some (n - 48)%N
  else if ((65 <=? n) && (n <=? 70))%N then Some (n - 55)%N
  else if ((97 <=? n) && (n <=? 102))%N then Some (n - 87)%N
  else None.

Fixpoint percent_decode (s : string) : list N :=
  match s with
  | EmptyString => []
  | String c r =>
      if (code c =? 43)%N then 32%N :: percent_decode r
      else if (code c =? 37)%N then
        match r with
        | String a (String b r') =>
            match hex_value a, hex_value b with
            | Some x, Some y => (16 * x + y)%N :: percent_decode r'
            | _, _ => code c :: percent_decode r
            end
        | _ => code c :: percent_decode r
        end
      else code c :: percent_decode r
  end.

Fixpoint utf8_decode (bytes : list N) : string :=
  match bytes with
  | [] => EmptyString
  | b :: r =>
      if (b <? 128)%N then String (ascii_of_N b) (utf8_decode r)
      else
        match r with
        | b' :: r' =>
            if ((192 <=? b) && (b <=? 195) && (128 <=? b') && (b' <=? 191))%N
            then String (ascii_of_N ((b - 192) * 64 + (b' - 128))) (utf8_decode r')
            else String (ascii_of_N b) (utf8_decode r)
        | [] => String (ascii_of_N b) EmptyString
        end
  end.

Definition form_decode (s : string) : string := utf8_decode (percent_decode s).

(** UTF-8 read back into code points, and code points into UTF-16 code
    units, for the bytes the serializer writes. *)
Fixpoint utf8_scalars (bytes : list N) : list N :=
  match bytes with
  | [] => []
  | b :: r =>
      if (b <? 128)%N then b :: utf8_scalars r
      else
        match r with
        | b2 :: r2 =>
            if (b <? 224)%N then ((b - 192) * 64 + (b2 - 128))%N :: utf8_scalars r2
            else
              match r2 with
              | b3 :: r3 =>
                  if (b <? 240)%N
                  then ((b - 224) * 4096 + (b2 - 128) * 64 + (b3 - 128))%N
                       :: utf8_scalars r3
                  else
                    match r3 with
                    | b4 :: r4 =>
                        ((b - 240) * 262144 + (b2 - 128) * 4096 + (b3 - 128) * 64
                         + (b4 - 128))%N :: utf8_scalars r4
                    | [] => [65533%N]
                    end
              | [] => [65533%N]
              end
        | [] => [65533%N]
        end
  end.

Definition to_units (c : N) : list N :=
  if (c <? 65536)%N then [c]
  else [55296 + (c - 65536) / 1024; 56320 + (c - 65536) mod 1024]%N.

Definition form_decode_units (s : string) : list N :=
  flat_map to_units (utf8_scalars (percent_decode s)).

(** The bytes of a code unit in UTF-8. *)
Definition utf8 (c : ascii) : list N :=
  let n := code c in
  if (n <? 128)%N then [n] else [192 + n / 64; 128 + n mod 64]%N.

End Urlencoded.

(** ** Sample data for the concrete runs below *)

Module Sample.

Definition movie (id : JsNumber.number) (title date : string) : MovieBasic.t :=
  {| MovieBasic.id := id; MovieBasic.title := title; MovieBasic.original_title := title;
     MovieBasic.overview := "A crew of thieves and the detective after them.";
     MovieBasic.poster_path := Some "/heat.jpg"; MovieBasic.backdrop_path := None;
     MovieBasic.release_date := Some date;
     MovieBasic.vote_average := 7.9%float; MovieBasic.vote_count := 7000%float;
     MovieBasic.popularity := 60%float; MovieBasic.genre_ids := [28%float; 80%float] |}.

(** Two movies picked and the compare button clicked: a comparison is in
    flight. *)
Definition comparing : list ComparePage.event :=
  [ComparePage.SelectMovie1 (movie 949%float "Heat" "1995-12-15");
   ComparePage.SelectMovie2 (movie 8195%float "Ronin" "1998-09-25");
   ComparePage.ClickCompare].

(** A response with a JSON body. *)
Definition response (status : Z) (body : list (string * Js.value)) : Api.Response :=
  {| Api.status := status; Api.json := Js.Ok (Js.Obj body) |}.

End Sample.

(* ================================================================== *)
(** * Part II. Properties *)
(* ================================================================== *)

(** ** The number built-ins on known values *)

Section NumberBuiltins.
Import JsNumber.
Open Scope float_scope.

Example toString_shortest :
  map toString [0.1 + 0.2; 1 / 3; 1e21; 123456789012345680000; 5e-324; 0.000001; 1e-7; -1.5]
  = ["0.30000000000000004"; "0.3333333333333333"; "1e+21"; "123456789012345680000";
     "5e-324"; "0.000001"; "1e-7"; "-1.5"]%string.
Proof. vm_compute. reflexivity. Qed.

Example toString_special :
  map toString [0; -0; nan; infinity; neg_infinity]
  = ["0"; "0"; "NaN"; "Infinity"; "-Infinity"]%string.
Proof. vm_compute. reflexivity. Qed.

Example toFixed_rounding :
  map (fun x => toFixed x 0) [2.5; -2.5; 0.5; -0.4; 1e21]
  = ["3"; "-3"; "1"; "-0"; "1e+21"]%string
  /\ map (fun x => toFixed x 2) [1.005; 8.345; 0.001; 10.235]
     = ["1.00"; "8.35"; "0.00"; "10.23"]%string.
Proof. split; vm_compute; reflexivity. Qed.

Example floor_rem_values :
  map floor [1.5; -1.5; 0.5; -0.5; -0; 125 / 60] = [1; -2; 0; -1; -0; 2]
  /\ [rem 125 60; rem 90.5 60; rem (-125) 60; rem 5.5 2; rem (-4) 2]
     = [5; 30.5; -5; 1.5; -0].
Proof. split; vm_compute; reflexivity. Qed.

(** A number that equals zero is one of the two zeros. *)
Lemma is_zero_cases (x : number) :
  is_zero x = true -> x = zero \/ x = neg_zero.
Proof.
  unfold is_zero. rewrite eqb_spec. intros H.
  rewrite <- (SF2Prim_Prim2SF x).
  destruct (Prim2SF x) as [s | s | | s m e].
  - destruct s; [right | left]; reflexivity.
  - destruct s; cbv in H; discriminate H.
  - cbv in H; discriminate H.
  - destruct s; cbv in H; discriminate H.
Qed.

Lemma zero_leb_zero (x : number) : is_zero x = true -> (x <=? 0) = true.
Proof.
  intros H. destruct (is_zero_cases x H) as [-> | ->]; reflexivity.
Qed.

End NumberBuiltins.

(** ** Strings *)

Lemma append_assoc (a b c : string) : (a ++ b) ++ c = a ++ (b ++ c).
Proof.
  induction a as [ | x a IH]; simpl; [reflexivity | rewrite IH; reflexivity].
Qed.

(** ** utils/format.ts *)

Section FormatProperties.
Import JsNumber Format.
Open Scope float_scope.

(** C7. formatCurrency gives "$1.5B" for 1_500_000_000, "$2M" for
    2_000_000 and "$500" for 500. *)
Theorem formatCurrency_examples :
  formatCurrency 1500000000 = "$1.5B"%string
  /\ formatCurrency 2000000 = "$2M"%string
  /\ formatCurrency 500 = "$500"%string.
Proof. repeat split; vm_compute; reflexivity. Qed.

(** C8. formatRuntime gives "2h 5m" for 125 and "N/A" for null. *)
Theorem formatRuntime_examples :
  formatRuntime (Some 125) = "2h 5m"%string
  /\ formatRuntime None = "N/A"%string.
Proof. split; vm_compute; reflexivity. Qed.

(** The guard of calculateROI: no budget that is zero or below reaches the
    division. *)
Lemma calculateROI_guard (revenue budget : number) :
  (budget <=? 0) = true -> calculateROI revenue budget = "N/A"%string.
Proof. intros H. unfold calculateROI. rewrite H. reflexivity. Qed.

(** C9. calculateROI gives "+100%" for revenue 200 and budget 100, and
    "N/A" whenever the budget is zero, as for revenue 50 and budget 0. *)
Theorem calculateROI_examples_and_zero_budget :
  calculateROI 200 100 = "+100%"%string
  /\ calculateROI 50 0 = "N/A"%string
  /\ forall revenue budget : number,
       (budget =? 0) = true -> calculateROI revenue budget = "N/A"%string.
Proof.
  split; [vm_compute; reflexivity | split; [vm_compute; reflexivity | ]].
  intros revenue budget H. apply calculateROI_guard, zero_leb_zero, H.
Qed.

(** A budget of [-0]. *)
Lemma calculateROI_zero_budget_witness :
  (-0 =? 0) = true /\ calculateROI 1000000 (-0) = "N/A"%string.
Proof.
  split; [reflexivity | ].
  apply (proj2 (proj2 calculateROI_examples_and_zero_budget)). reflexivity.
Defined.

End FormatProperties.

(** ** services/api.ts: getPosterUrl *)

Section PosterUrl.
Import Api.

(** C10. getPosterUrl is total: a null or empty path gives the placeholder
    for every size; any other path gives the image base, the size and the
    path, concatenated; a size left out is 'w342'. *)
Theorem getPosterUrl_total (path : option string) (size : option PosterSize) :
  getPosterUrl path size
  = match path with
    | None | Some EmptyString => "https://via.placeholder.com/342x513?text=No+Poster"
    | Some p =>
        "https://image.tmdb.org/t/p/"
        ++ PosterSize_toString (match size with Some s => s | None => w342 end) ++ p
    end.
Proof.
  destruct path as [[ | c p] | ]; reflexivity.
Qed.

End PosterUrl.

(** ** components/ComparisonResult.tsx: the "Winner" badge *)

Section WinnerBadge.
Import React ComparisonResultComponent.

Variable H : Type.

(** No argument row holds a badge, whatever its texts are. *)
Lemma argument_no_badge (result : ComparisonResult.t) (index : nat) (arg : ArgumentPoint.t) :
  countWinnerBadges (argument H result index arg) = 0.
Proof.
  unfold argument.
  destruct (ArgumentPoint.winner arg), (Importance_is_high (ArgumentPoint.importance arg));
    reflexivity.
Qed.

Lemma arguments_no_badge (result : ComparisonResult.t) (l : list ArgumentPoint.t) :
  forall index, list_sum (map countWinnerBadges (mapi (argument H result) index l)) = 0.
Proof.
  induction l as [ | arg l IH]; intros index; cbn [mapi map list_sum fold_right].
  - reflexivity.
  - fold (list_sum (map (@countWinnerBadges H) (mapi (argument H result) (S index) l))).
    rewrite argument_no_badge, IH. reflexivity.
Qed.

Lemma movie1Card_badges (result : ComparisonResult.t) :
  countWinnerBadges (movie1Card H result)
  = if Winner_eqb (ComparisonResult.winner result) movie1 then 1 else 0.
Proof.
  unfold movie1Card. destruct (ComparisonResult.winner result); reflexivity.
Qed.

Lemma movie2Card_badges (result : ComparisonResult.t) :
  countWinnerBadges (movie2Card H result)
  = if Winner_eqb (ComparisonResult.winner result) movie2 then 1 else 0.
Proof.
  unfold movie2Card. destruct (ComparisonResult.winner result); reflexivity.
Qed.

Lemma winnerBanner_no_badge (result : ComparisonResult.t) :
  countWinnerBadges (winnerBanner H result) = 0.
Proof.
  unfold winnerBanner. destruct (ComparisonResult.winner result); reflexivity.
Qed.

Lemma other_cards_no_badge (result : ComparisonResult.t) :
  countWinnerBadges (versus H result) = 0
  /\ countWinnerBadges (verdictCard H result) = 0
  /\ countWinnerBadges (charts H result) = 0.
Proof.
  split; [ | split]; reflexivity.
Qed.

(** The whole rendered comparison holds one badge when there is a winner
    and none on a tie. *)
Lemma ComparisonResult_badges (result : ComparisonResult.t) :
  countWinnerBadges (ComparisonResult H result)
  = match ComparisonResult.winner result with
    | tie => 0
    | _ => 1
    end.
Proof.
  destruct (other_cards_no_badge result) as (Hvs & Hverdict & Hcharts).
  unfold ComparisonResult, scoreComparison, argumentsCard, delayed.
  cbn [countWinnerBadges tag map list_sum fold_right isWinnerBadge String.eqb
         Ascii.eqb Bool.eqb andb].
  rewrite winnerBanner_no_badge, movie1Card_badges, movie2Card_badges,
    arguments_no_badge, Hvs, Hverdict, Hcharts.
  destruct (ComparisonResult.winner result); reflexivity.
Qed.

(** C6. When the winner is 'tie', neither movie's card renders a "Winner"
    badge: each card has its title and its gauge as only children, and the
    whole rendered comparison holds no badge. *)
Theorem tie_renders_no_winner_badge (result : ComparisonResult.t) :
  ComparisonResult.winner result = tie ->
  countWinnerBadges (movie1Card H result) = 0
  /\ countWinnerBadges (movie2Card H result) = 0
  /\ countWinnerBadges (ComparisonResult H result) = 0.
Proof.
  intros Hw.
  rewrite movie1Card_badges, movie2Card_badges, ComparisonResult_badges, Hw.
  repeat split; reflexivity.
Qed.

End WinnerBadge.

(** A tie between a movie called " Winner" and one called "Trophy". *)
Lemma tie_renders_no_winner_badge_witness :
  let breakdown title :=
    {| ScoreBreakdown.movie_id := 1; ScoreBreakdown.movie_title := title;
       ScoreBreakdown.total_score := 70; ScoreBreakdown.grade := "B";
       ScoreBreakdown.features := []; ScoreBreakdown.strengths := [];
       ScoreBreakdown.weaknesses := []; ScoreBreakdown.summary := "even" |} in
  let result :=
    {| ComparisonResult.movie1_id := 1; ComparisonResult.movie1_title := " Winner";
       ComparisonResult.movie1_score := 70;
       ComparisonResult.movie1_breakdown := breakdown " Winner";
       ComparisonResult.movie2_id := 2; ComparisonResult.movie2_title := "Trophy";
       ComparisonResult.movie2_score := 70;
       ComparisonResult.movie2_breakdown := breakdown "Trophy";
       ComparisonResult.winner := tie; ComparisonResult.score_difference := 0;
       ComparisonResult.confidence := very_close;
       ComparisonResult.arguments :=
         [{| ArgumentPoint.factor := " Winner"; ArgumentPoint.winner := tie;
             ArgumentPoint.movie1_value := "7"; ArgumentPoint.movie2_value := "7";
             ArgumentPoint.difference := 0; ArgumentPoint.importance := high;
             ArgumentPoint.explanation := "same rating" |}];
       ComparisonResult.verdict := "a tie"; ComparisonResult.detailed_analysis := "none";
       ComparisonResult.radar_data := []; ComparisonResult.bar_data := [] |} in
  ComparisonResultComponent.countWinnerBadges
    (ComparisonResultComponent.ComparisonResult Empty_set result) = 0.
Proof.
  intros breakdown result.
  apply (tie_renders_no_winner_badge Empty_set result). reflexivity.
Defined.

(** ** components/SearchBar.tsx: no search for a short query *)

Section DebouncedSearch.
Import SearchBar.

Lemma trimStart_length (s : string) :
  String.length (JsString.trimStart s) <= String.length s.
Proof.
  induction s as [ | c s IH]; simpl.
  - lia.
  - destruct (JsString.is_white_space c); simpl; lia.
Qed.

Lemma trimEnd_length (s : string) :
  String.length (JsString.trimEnd s) <= String.length s.
Proof.
  induction s as [ | c s IH]; simpl.
  - lia.
  - destruct (JsString.trimEnd s); [destruct (JsString.is_white_space c) | ];
      simpl in *; lia.
Qed.

(** Trimming never lengthens a string. *)
Lemma trim_length (s : string) :
  String.length (JsString.trim s) <= String.length s.
Proof.
  unfold JsString.trim.
  pose proof (trimEnd_length (JsString.trimStart s)).
  pose proof (trimStart_length s). lia.
Qed.

Lemma clearTimeout_ref (w : World) :
  invariant w ->
  match debounceRef (state w) with
  | Some id => clearTimeout id (timers w)
  | None => timers w
  end = [].
Proof.
  intros [_ Ht]. destruct (timers w) as [ | [id q] [ | t l]]; try contradiction.
  - destruct (debounceRef (state w)); reflexivity.
  - destruct Ht as (_ & -> & _). simpl. rewrite Nat.eqb_refl. reflexivity.
Qed.

Lemma search_effect_invariant (w : World) :
  invariant w -> query (state (effect w)) = query (state w) /\ invariant (effect w).
Proof.
  intros Hw. pose proof (clearTimeout_ref w Hw) as Hc. destruct Hw as [Hcalls _].
  unfold effect. rewrite Hc.
  destruct (String.length (JsString.trim (query (state w))) <? 2)%nat eqn:Hshort.
  - split; [reflexivity | split; [exact Hcalls | exact I]].
  - split; [reflexivity | split; [exact Hcalls | ]]. simpl.
    apply Nat.ltb_ge in Hshort. repeat split; assumption.
Qed.

Lemma search_setQuery_invariant (q : string) (w : World) :
  invariant w -> invariant (setQuery q w).
Proof.
  intros Hw. unfold setQuery. destruct (String.eqb q (query (state w))); [exact Hw | ].
  apply search_effect_invariant. unfold cleanup. cbn [state timers calls debounceRef].
  rewrite (clearTimeout_ref w Hw). split; [apply Hw | exact I].
Qed.

Lemma search_step_invariant (w : World) (e : event) :
  invariant w -> invariant (step w e).
Proof.
  intros Hw. destruct e as [q | | id | outcome]; simpl.
  - apply search_setQuery_invariant, Hw.
  - pose proof (search_setQuery_invariant EmptyString w Hw) as [Hc Ht].
    unfold handleClear. split; [exact Hc | ]. cbn [timers state query debounceRef].
    exact Ht.
  - unfold fire. destruct Hw as [Hc Ht].
    destruct (timers w) as [ | [id' q] [ | t l]] eqn:Htimers; try contradiction.
    + simpl. split; [exact Hc | rewrite Htimers; exact I].
    + simpl. destruct (Nat.eqb id' id) eqn:Hid.
      * destruct Ht as (_ & _ & Hq). split; simpl.
        -- constructor; assumption.
        -- exact I.
      * split; [exact Hc | rewrite Htimers; exact Ht].
  - unfold settle. destruct (awaiting w); [exact Hw | ].
    destruct Hw as [Hc Ht]. split; [exact Hc | ].
    cbn [timers state]. destruct (timers w) as [ | [id q] [ | t l]]; try exact Ht.
    destruct (Js.bind outcome first8); exact Ht.
Qed.

Lemma search_mount_invariant : invariant mount.
Proof. split; [constructor | exact I]. Qed.

Lemma search_fold_invariant (events : list event) :
  forall w, invariant w -> invariant (fold_left step events w).
Proof.
  induction events as [ | e events IH]; intros w Hw; simpl.
  - exact Hw.
  - apply IH, search_step_invariant, Hw.
Qed.

Lemma search_run_invariant (events : list event) : invariant (run events).
Proof. apply search_fold_invariant, search_mount_invariant. Qed.

Lemma short_not_searchable (q : string) :
  String.length q < 2 -> ~ searchable q.
Proof. unfold searchable. pose proof (trim_length q). lia. Qed.

(** The effect on a short query: the pending timer is cleared, none is
    set, no call is made, and the results are emptied and closed. *)
Lemma short_query_effect (q : string) (w : World) :
  invariant w -> String.length q < 2 -> q <> query (state w) ->
  let w' := setQuery q w in
  timers w' = [] /\ calls w' = calls w
  /\ results (state w') = Js.Arr [] /\ isOpen (state w') = false.
Proof.
  intros Hw Hq Hne. unfold setQuery.
  destruct (String.eqb_spec q (query (state w))) as [Heq | _]; [contradiction | ].
  unfold cleanup, effect. cbn [state timers calls debounceRef query next_timer awaiting].
  rewrite (clearTimeout_ref w Hw).
  assert (Hshort : (String.length (JsString.trim q) <? 2)%nat = true).
  { apply Nat.ltb_lt. pose proof (trim_length q). lia. }
  rewrite Hshort. cbn. destruct (debounceRef (state w)); repeat split; reflexivity.
Qed.

(** C5. For a query shorter than 2 characters no network call is ever
    triggered: searchMovies is never called with it, whatever the user
    types and whenever timers fire and responses arrive; typing it leaves no
    timer pending and makes no call, and the effect it triggers empties and
    closes the results list. *)
Theorem short_query_never_searched (events : list event) (q : string) :
  String.length q < 2 ->
  ~ In q (calls (run events))
  /\ timers (run (events ++ [Input q])) = []
  /\ calls (run (events ++ [Input q])) = calls (run events)
  /\ (q <> query (state (run events)) ->
      results (state (run (events ++ [Input q]))) = Js.Arr []
      /\ isOpen (state (run (events ++ [Input q]))) = false).
Proof.
  intros Hq. pose proof (search_run_invariant events) as Hinv.
  split.
  - intros Hin. destruct Hinv as [Hcalls _].
    rewrite Forall_forall in Hcalls.
    exact (short_not_searchable q Hq (Hcalls q Hin)).
  - unfold run in *. rewrite fold_left_app. simpl.
    set (w := fold_left step events mount) in *.
    destruct (String.eqb_spec q (query (state w))) as [Heq | Hne].
    + assert (Hsame : setQuery q w = w).
      { unfold setQuery. rewrite Heq, String.eqb_refl. reflexivity. }
      rewrite Hsame. split; [ | split; [reflexivity | intros Hne; contradiction]].
      destruct Hinv as [_ Ht].
      destruct (timers w) as [ | [id q'] [ | t l]]; try contradiction; [reflexivity | ].
      destruct Ht as (-> & _ & Hs). rewrite <- Heq in Hs.
      destruct (short_not_searchable q Hq Hs).
    + destruct (short_query_effect q w Hinv Hq Hne) as (Ht & Hc & Hr & Ho).
      split; [exact Ht | split; [exact Hc | intros _; split; assumption]].
Qed.

(** Typing "ab", the search it triggers, then "abc", then "a". *)
Lemma short_query_never_searched_witness :
  let events :=
    [Input "ab"; Fire 1; Settle (Js.Ok (Js.Obj [("results", Js.Arr [Js.Str "Abba"])]));
     Input "abc"] in
  ~ In "a" (calls (run events)) /\ timers (run (events ++ [Input "a"])) = [].
Proof.
  intros events.
  assert (Hq : String.length "a" < 2) by (simpl; lia).
  destruct (short_query_never_searched events "a" Hq) as (Hnever & Htimers & _).
  split; assumption.
Defined.

End DebouncedSearch.

(** ** components/WeightSliders.tsx and the compare button: all weights zero *)

Section ZeroWeights.
Import JsNumber.
Open Scope float_scope.

Lemma allZero_fields (w : WeightConfig.t) :
  WeightConfig.allZero w ->
  Forall (fun x => x = zero \/ x = neg_zero) (WeightConfig.values w).
Proof.
  intros Hz. unfold WeightConfig.values.
  repeat apply Forall_cons; try apply Forall_nil; apply is_zero_cases.
  - exact (Hz WeightConfig.k_vote_average).
  - exact (Hz WeightConfig.k_vote_count).
  - exact (Hz WeightConfig.k_popularity).
  - exact (Hz WeightConfig.k_revenue).
  - exact (Hz WeightConfig.k_runtime_quality).
  - exact (Hz WeightConfig.k_release_recency).
  - exact (Hz WeightConfig.k_cast_star_power).
Qed.

(** Adding zeros to [+0] gives [+0]. *)
Lemma sum_of_zeros (l : list number) :
  Forall (fun x => x = zero \/ x = neg_zero) l ->
  fold_left (fun sum w => sum + w) l 0 = 0.
Proof.
  induction 1 as [ | x l [-> | ->] _ IH]; simpl; [reflexivity | exact IH | exact IH].
Qed.

Lemma totalWeight_allZero (w : WeightConfig.t) :
  WeightConfig.allZero w -> WeightSliders.totalWeight w = 0.
Proof.
  intros Hz. apply sum_of_zeros, allZero_fields, Hz.
Qed.

(** The disabled state of the compare button is a function of which movies
    are chosen and of [isLoading], and of nothing else. *)
Lemma compareDisabled_depends (s1 s2 : ComparePage.State) :
  (ComparePage.movie1 s1 = None <-> ComparePage.movie1 s2 = None) ->
  (ComparePage.movie2 s1 = None <-> ComparePage.movie2 s2 = None) ->
  ComparePage.isLoading s1 = ComparePage.isLoading s2 ->
  ComparePage.compareDisabled s1 = ComparePage.compareDisabled s2.
Proof.
  unfold ComparePage.compareDisabled. intros [H1 H1'] [H2 H2'] ->.
  destruct (ComparePage.movie1 s1), (ComparePage.movie1 s2),
    (ComparePage.movie2 s1), (ComparePage.movie2 s2); try reflexivity;
    (discriminate (H1 eq_refl) || discriminate (H1' eq_refl)
     || discriminate (H2 eq_refl) || discriminate (H2' eq_refl)).
Qed.

(** C4, as worded, fails: with all weights zero and the panel collapsed,
    which is how the component starts, nothing in the red style is
    rendered, so the total is not flagged. *)
Lemma zero_weights_unflagged_when_collapsed :
  ~ (forall (w : WeightConfig.t) (isExpanded : bool),
       WeightConfig.allZero w ->
       React.select React.isRed
         (WeightSliders.WeightSliders w isExpanded : React.element WeightSliders.handler)
       <> []).
Proof.
  intros H.
  apply (H {| WeightConfig.vote_average := 0; WeightConfig.vote_count := 0;
              WeightConfig.popularity := 0; WeightConfig.revenue := 0;
              WeightConfig.runtime_quality := 0; WeightConfig.release_recency := 0;
              WeightConfig.cast_star_power := 0 |}
           WeightSliders.isExpanded_initial).
  - intros k; destruct k; reflexivity.
  - reflexivity.
Qed.

(** The collapsed component shows nothing of the weights. *)
Lemma collapsed_ignores_weights (w w' : WeightConfig.t) :
  WeightSliders.WeightSliders w false = WeightSliders.WeightSliders w' false.
Proof. reflexivity. Qed.

(** The red elements of the expanded panel: the total indicator when the
    total is not greater than 0, and nothing otherwise. *)
Lemma expanded_red_elements (w : WeightConfig.t) :
  React.select React.isRed (WeightSliders.WeightSliders w true)
  = if 0 <? WeightSliders.totalWeight w then [] else [WeightSliders.totalIndicator w].
Proof.
  unfold WeightSliders.WeightSliders, WeightSliders.totalRow,
    WeightSliders.totalIndicator, WeightSliders.totalClass.
  destruct (0 <? WeightSliders.totalWeight w); reflexivity.
Qed.

(** C4. When all seven weights are 0 the total is not greater than 0, and
    the component with its panel expanded renders the total indicator in
    the red style, with the text "0%", as its only red element; with the
    panel collapsed, as it is at first, it renders no indicator and nothing
    red.  With a total greater than 0 the expanded panel renders nothing
    red.  Submission is not blocked: changing the weights changes neither
    the disabled state of the compare button nor the button, the disabled
    state is determined by the two movies and [isLoading], and with both
    movies chosen and no request in flight the button is enabled and a
    click sends the comparison with these weights. *)
Theorem zero_weights_flagged_not_blocked (w : WeightConfig.t) :
  WeightConfig.allZero w ->
  WeightSliders.totalClass w = "text-red-400"%string
  /\ (0 <? WeightSliders.totalWeight w) = false
  /\ WeightSliders.totalIndicator w
     = React.tag "span" "text-red-400" [React.Text "0"; React.Text "%"]%string
  /\ React.select React.isRed (WeightSliders.WeightSliders w true)
     = [React.tag "span" "text-red-400" [React.Text "0"; React.Text "%"]%string]
  /\ React.select React.isRed
       (WeightSliders.WeightSliders w WeightSliders.isExpanded_initial)
     = []
  /\ React.select React.isRed
       (WeightSliders.WeightSliders w
          (WeightSliders.toggle WeightSliders.isExpanded_initial))
     = [WeightSliders.totalIndicator w]
  /\ (forall w' : WeightConfig.t,
        (0 <? WeightSliders.totalWeight w') = true ->
        React.select React.isRed (WeightSliders.WeightSliders w' true) = [])
  /\ (forall s : ComparePage.State,
        ComparePage.compareDisabled (ComparePage.setWeights w s)
        = ComparePage.compareDisabled s
        /\ ComparePage.compareButton (ComparePage.setWeights w s)
           = ComparePage.compareButton s)
  /\ (forall s1 s2 : ComparePage.State,
        (ComparePage.movie1 s1 = None <-> ComparePage.movie1 s2 = None) ->
        (ComparePage.movie2 s1 = None <-> ComparePage.movie2 s2 = None) ->
        ComparePage.isLoading s1 = ComparePage.isLoading s2 ->
        ComparePage.compareDisabled s1 = ComparePage.compareDisabled s2)
  /\ (forall (p : ComparePage.Page) (m1 m2 : MovieBasic.t),
        ComparePage.movie1 (ComparePage.state p) = Some m1 ->
        ComparePage.movie2 (ComparePage.state p) = Some m2 ->
        ComparePage.isLoading (ComparePage.state p) = false ->
        ComparePage.weights (ComparePage.state p) = w ->
        ComparePage.compareDisabled (ComparePage.state p) = false
        /\ ComparePage.inflight (ComparePage.step p ComparePage.ClickCompare)
           = Some (Api.compareMovies_request (MovieBasic.id m1) (MovieBasic.id m2) (Some w))).
Proof.
  intros Hz. pose proof (totalWeight_allZero w Hz) as Ht.
  assert (Hind : WeightSliders.totalIndicator w
                 = React.tag "span" "text-red-400" [React.Text "0"; React.Text "%"]%string).
  { unfold WeightSliders.totalIndicator, WeightSliders.totalClass. rewrite Ht.
    vm_compute. reflexivity. }
  pose proof (expanded_red_elements w) as Hpanel. rewrite Ht in Hpanel.
  change (0 <? 0) with false in Hpanel.
  split; [unfold WeightSliders.totalClass; rewrite Ht; reflexivity | ].
  split; [rewrite Ht; reflexivity | ].
  split; [exact Hind | ].
  split; [rewrite Hpanel, Hind; reflexivity | ].
  split; [reflexivity | ].
  split; [exact Hpanel | ].
  split; [intros w' Hpos; rewrite expanded_red_elements, Hpos; reflexivity | ].
  split; [intros s; split; reflexivity | ].
  split; [exact compareDisabled_depends | ].
  intros p m1 m2 H1 H2 Hl Hw.
  assert (Hd : ComparePage.compareDisabled (ComparePage.state p) = false).
  { unfold ComparePage.compareDisabled. rewrite H1, H2, Hl. reflexivity. }
  split; [exact Hd | ].
  unfold ComparePage.step. rewrite Hd. unfold ComparePage.handleCompare_start.
  rewrite H1, H2, Hw. reflexivity.
Qed.

(** Six weights [+0] and one [-0], with the panel expanded. *)
Lemma zero_weights_flagged_not_blocked_witness :
  let w := {| WeightConfig.vote_average := 0; WeightConfig.vote_count := -0;
              WeightConfig.popularity := 0; WeightConfig.revenue := 0;
              WeightConfig.runtime_quality := 0; WeightConfig.release_recency := 0;
              WeightConfig.cast_star_power := 0 |} in
  WeightConfig.allZero w
  /\ React.select React.isRed (WeightSliders.WeightSliders w true)
     = [React.tag "span" "text-red-400" [React.Text "0"; React.Text "%"]%string].
Proof.
  intros w.
  assert (Hz : WeightConfig.allZero w) by (intros k; destruct k; reflexivity).
  split; [exact Hz | ].
  exact (proj1 (proj2 (proj2 (proj2 (zero_weights_flagged_not_blocked w Hz))))).
Defined.

End ZeroWeights.

(** ** services/api.ts: the weights in the scoring requests *)

Section WeightSubmission.
Import JsNumber Api.

(** A property name as [JSON.stringify] writes it. *)
Let q (s : string) : string := JsString.dquote ++ s ++ JsString.dquote.






End WeightSubmission.

(** What is written for the numbers that JSON cannot carry and for [-0]:
    [null] in the body for NaN and the infinities, [0] for [-0]; in the
    query, [NaN], [Infinity] and [0]. *)
Example weights_that_change_on_the_way :
  map Js.json_number [nan; infinity; neg_infinity; (-0)%float]
  = ["null"; "null"; "null"; "0"]
  /\ map JsNumber.toString [nan; infinity; neg_infinity; (-0)%float]
     = ["NaN"; "Infinity"; "-Infinity"; "0"]
  /\ map Js.read_number ["null"; "0"] = [None; Some 0%float].
Proof. repeat split. Qed.

(** The positions of a slider ([min 0], [max 1], [step 0.05]) and the
    default weights are written in the body and in the query as the decimal
    text that reads back as the same number. *)
Example slider_positions_written :
  map Js.json_number
    [0; 0.05; 0.1; 0.15; 0.2; 0.25; 0.3; 0.35; 0.4; 0.45; 0.5;
     0.55; 0.6; 0.65; 0.7; 0.75; 0.8; 0.85; 0.9; 0.95; 1]%float
  = ["0"; "0.05"; "0.1"; "0.15"; "0.2"; "0.25"; "0.3"; "0.35"; "0.4"; "0.45"; "0.5";
     "0.55"; "0.6"; "0.65"; "0.7"; "0.75"; "0.8"; "0.85"; "0.9"; "0.95"; "1"]
  /\ Api.getMovieScore_endpoint 949%float (Some DEFAULT_WEIGHTS)
     = "/score/949?vote_average_weight=0.25&vote_count_weight=0.15&popularity_weight=0.2&revenue_weight=0.1&runtime_weight=0.05&recency_weight=0.1&cast_weight=0.15".
Proof. split; vm_compute; reflexivity. Qed.


(** ** services/api.ts and pages/ComparePage.tsx: the outcome of a call *)

Section CallOutcome.
Import Js Api.

Lemma fetchApi_response_ok (response : Response) :
  ok response = true -> fetchApi_response (Ok response) = json response.
Proof. intros Hok. unfold fetchApi_response. simpl. rewrite Hok. reflexivity. Qed.

(** A response that is not ok never makes [fetchApi] return. *)
Lemma fetchApi_response_not_ok (response : Response) :
  ok response = false -> exists e, fetchApi_response (Ok response) = Throw e.
Proof.
  intros Hok. unfold fetchApi_response. simpl. rewrite Hok. simpl.
  destruct (catch (json response) _) as [error | e]; simpl; [ | eauto].
  destruct (get error "error") as [e | e]; simpl; [ | eauto].
  destruct (truthy e); simpl.
  - destruct (toString e); simpl; eauto.
  - destruct (get error "detail") as [d | e']; simpl; [ | eauto].
    destruct (toString (or d (Str "Request failed"))); simpl; eauto.
Qed.

(** [fetchApi] on an error response whose body is a JSON object: the
    message is [error.error || error.detail || 'Request failed']. *)
Lemma fetchApi_response_error_object (response : Response) (ps : list (string * value)) :
  ok response = false -> json response = Ok (Obj ps) ->
  fetchApi_response (Ok response)
  = message <- toString (or (or (own "error" ps) (own "detail" ps)) (Str "Request failed")) ;;
    Throw (ApiError (status response) message).
Proof.
  intros Hok Hjson. unfold fetchApi_response. simpl. rewrite Hok, Hjson. simpl.
  unfold or. destruct (truthy (own "error" ps)) eqn:He; simpl; rewrite ?He.
  - reflexivity.
  - destruct (truthy (own "detail" ps)) eqn:Hd; simpl; rewrite ?Hd; reflexivity.
Qed.

(** [compareMovies] on a 2xx response whose body is a JSON object. *)
Lemma compareMovies_response_object (response : Response) (ps : list (string * value)) :
  ok response = true -> json response = Ok (Obj ps) ->
  compareMovies_response (Ok response)
  = if truthy (own "success" ps) && truthy (own "comparison" ps)
    then Ok (own "comparison" ps)
    else message <- toString (or (own "error" ps) (Str "Comparison failed")) ;;
         Throw (Error message).
Proof.
  intros Hok Hjson. unfold compareMovies_response.
  rewrite (fetchApi_response_ok response Hok), Hjson. simpl.
  destruct (truthy (own "success" ps)); simpl; [ | reflexivity].
  destruct (truthy (own "comparison" ps)); reflexivity.
Qed.

(** What [compareMovies] returns is the whole comparison of a successful
    response. *)
Lemma compareMovies_response_returns (fetched : result Response) (c : value) :
  compareMovies_response fetched = Ok c -> complete_comparison fetched c.
Proof.
  intros Hc. destruct fetched as [response | e]; [ | discriminate Hc].
  destruct (ok response) eqn:Hok.
  - unfold compareMovies_response in Hc.
    rewrite (fetchApi_response_ok response Hok) in Hc.
    destruct (json response) as [body | e] eqn:Hjson; [ | discriminate Hc].
    simpl in Hc.
    destruct body as [ | | b | x | s | l | ps]; try discriminate Hc.
    simpl in Hc.
    destruct (truthy (own "success" ps)) eqn:Hs; simpl in Hc.
    + destruct (truthy (own "comparison" ps)) eqn:Hcmp; simpl in Hc.
      * injection Hc as <-.
        exists response, (Obj ps), (own "success" ps). repeat split; assumption.
      * destruct (toString (or (own "error" ps) (Str "Comparison failed")));
          discriminate Hc.
    + destruct (toString (or (own "error" ps) (Str "Comparison failed")));
        discriminate Hc.
  - destruct (fetchApi_response_not_ok response Hok) as [e He].
    unfold compareMovies_response in Hc. rewrite He in Hc. discriminate Hc.
Qed.

(** *** The page *)

Import ComparePage.

Lemma page_step_invariant (p : Page) (e : event) :
  invariant p -> invariant (step p e).
Proof.
  unfold invariant. intros Hp.
  destruct e as [m | m | | | w | | fetched]; simpl.
  - destruct (movie1 (state p)); [exact Hp | ]. simpl. exact Hp.
  - destruct (movie2 (state p)); [exact Hp | ]. simpl. exact Hp.
  - destruct (inflight p); simpl; [ | exact Hp].
    destruct Hp as (_ & He & Hl). repeat split; assumption.
  - destruct (inflight p); simpl; [ | exact Hp].
    destruct Hp as (_ & He & Hl). repeat split; assumption.
  - exact Hp.
  - destruct (compareDisabled (state p)); [exact Hp | ].
    unfold handleCompare_start.
    destruct (movie1 (state p)), (movie2 (state p)); simpl; try exact Hp.
    repeat split; reflexivity.
  - destruct (inflight p) eqn:Hin; simpl; [reflexivity | rewrite Hin; exact Hp].
Qed.

Lemma page_run_invariant (events : list event) : invariant (run events).
Proof.
  unfold run.
  assert (Hfold : forall p, invariant p -> invariant (fold_left step events p)).
  { induction events as [ | e events IH]; intros p Hp; simpl.
    - exact Hp.
    - apply IH, page_step_invariant, Hp. }
  apply Hfold. reflexivity.
Qed.

Lemma step_delivered (p : Page) (e : event) :
  delivered p -> delivered (step p e).
Proof.
  unfold delivered. intros Hp.
  destruct e as [m | m | | | w | | fetched]; simpl.
  - destruct (movie1 (state p)); exact Hp.
  - destruct (movie2 (state p)); exact Hp.
  - intros c Hc. discriminate Hc.
  - intros c Hc. discriminate Hc.
  - exact Hp.
  - destruct (compareDisabled (state p)); [exact Hp | ].
    unfold handleCompare_start.
    destruct (movie1 (state p)), (movie2 (state p)); simpl; try exact Hp.
    intros c Hc. discriminate Hc.
  - destruct (inflight p); [ | exact Hp]. simpl.
    destruct (compareMovies_response fetched) as [c' | err] eqn:Hout; simpl.
    + intros c Hc. injection Hc as <-. exists fetched.
      apply compareMovies_response_returns, Hout.
    + exact Hp.
Qed.

Lemma run_delivered (events : list event) : delivered (run events).
Proof.
  unfold run.
  assert (Hfold : forall p, delivered p -> delivered (fold_left step events p)).
  { induction events as [ | e events IH]; intros p Hp; simpl.
    - exact Hp.
    - apply IH, step_delivered, Hp. }
  apply Hfold. intros c Hc. discriminate Hc.
Qed.

(** [handleCompare] run to its end is a click followed by the settling of
    the request it sent. *)
Lemma handleCompare_as_events
    (fetch : Request -> Js.result Response) (p : Page) (m1 m2 : MovieBasic.t) :
  movie1 (state p) = Some m1 -> movie2 (state p) = Some m2 ->
  isLoading (state p) = false ->
  state (step (step p ClickCompare)
           (Settle (fetch (compareMovies_request (MovieBasic.id m1) (MovieBasic.id m2)
                             (Some (weights (state p)))))))
  = handleCompare fetch (state p).
Proof.
  intros H1 H2 Hl. unfold handleCompare, step at 2, compareDisabled, handleCompare_start.
  rewrite H1, H2, Hl. reflexivity.
Qed.

(** A comparison that settles with a failure: no result, the message of
    the error as only thing to show. *)
Lemma settle_failure (p : Page) (fetched : Js.result Response) (e : JsError) :
  invariant p -> inflight p <> None ->
  compareMovies_response fetched = Throw e ->
  let s' := state (step p (Settle fetched)) in
  result s' = None /\ error s' = Some (message e) /\ isLoading s' = false
  /\ results s' = nothingShown.
Proof.
  unfold invariant. intros Hp Hin He. simpl.
  destruct (inflight p); [ | contradiction]. destruct Hp as (Hr & _ & _).
  rewrite He. simpl. unfold results. simpl. rewrite Hr.
  destruct e; repeat split; reflexivity.
Qed.

(** A comparison that settles with a success: the result, and no error. *)
Lemma settle_success (p : Page) (fetched : Js.result Response) (c : value) :
  invariant p -> inflight p <> None ->
  compareMovies_response fetched = Ok c ->
  let s' := state (step p (Settle fetched)) in
  result s' = Some c /\ error s' = None /\ isLoading s' = false.
Proof.
  unfold invariant. intros Hp Hin Hc. simpl.
  destruct (inflight p); [ | contradiction]. destruct Hp as (_ & He & _).
  rewrite Hc. simpl. repeat split; assumption.
Qed.

Lemma errorBanner_shown (s : State) (e : string) :
  error s = Some e -> e <> EmptyString -> errorBanner s = errorShown e.
Proof.
  intros He Hne. unfold errorBanner. rewrite He.
  destruct e; [contradiction | reflexivity].
Qed.

(** C1. The comparison call is atomic.  Whatever [fetch] settles to,
    compareMovies either returns the whole comparison of a response with a
    2xx status and a truthy success flag, or throws; a 2xx JSON object
    whose success flag is truthy and whose comparison is there is returned
    its comparison; on one that does not pass, the error thrown carries the
    response's error message when it has one and 'Comparison failed'
    otherwise.  In the
    page, whatever happened before, a comparison in flight that fails
    leaves the result null, nothing is rendered for it, and the error state
    and the banner hold the message of the error; one that succeeds sets
    the result to the whole comparison, and no error.  At all times the
    result the page holds is null or such a whole comparison. *)
Theorem comparison_is_atomic :
  (forall fetched : Js.result Response,
     match compareMovies_response fetched with
     | Ok c => complete_comparison fetched c
     | Throw e =>
         forall response ps,
           fetched = Ok response -> ok response = true ->
           json response = Ok (Obj ps) ->
           (forall msg, own "error" ps = Str msg -> msg <> EmptyString -> e = Error msg)
           /\ (falsy_or_absent (lookup "error" ps) = true -> e = Error "Comparison failed")
     end)
  /\ (forall (response : Response) (ps : list (string * value)),
        ok response = true -> json response = Ok (Obj ps) ->
        truthy (own "success" ps) = true -> truthy (own "comparison" ps) = true ->
        compareMovies_response (Ok response) = Ok (own "comparison" ps))
  /\ (forall (events : list event) (fetched : Js.result Response),
        inflight (run events) <> None ->
        let s' := state (step (run events) (Settle fetched)) in
        match compareMovies_response fetched with
        | Ok c =>
            ComparePage.result s' = Some c /\ error s' = None /\ isLoading s' = false
        | Throw e =>
            ComparePage.result s' = None /\ results s' = nothingShown
            /\ error s' = Some (message e) /\ isLoading s' = false
            /\ (message e <> EmptyString -> errorBanner s' = errorShown (message e))
        end)
  /\ (forall (events : list event) (c : value),
        ComparePage.result (state (run events)) = Some c ->
        exists fetched, complete_comparison fetched c).
Proof.
  split; [ | split; [ | split; [ | exact run_delivered]]].
  - intros fetched. destruct (compareMovies_response fetched) as [c | e] eqn:Hc.
    + apply compareMovies_response_returns, Hc.
    + intros response ps -> Hok Hjson.
      rewrite (compareMovies_response_object response ps Hok Hjson) in Hc.
      destruct (truthy (own "success" ps) && truthy (own "comparison" ps));
        [discriminate Hc | ].
      split.
      * intros msg Hmsg Hne. rewrite Hmsg in Hc. unfold or in Hc. simpl in Hc.
        destruct msg; [contradiction | ]. simpl in Hc. congruence.
      * intros Hfalsy. unfold own, or in Hc. unfold falsy_or_absent in Hfalsy.
        destruct (lookup "error" ps) as [x | ]; simpl in Hc.
        -- apply negb_true_iff in Hfalsy. rewrite Hfalsy in Hc. simpl in Hc. congruence.
        -- congruence.
  - intros response ps Hok Hjson Hs Hcmp.
    rewrite (compareMovies_response_object response ps Hok Hjson), Hs, Hcmp.
    reflexivity.
  - intros events fetched Hin s'. pose proof (page_run_invariant events) as Hinv.
    destruct (compareMovies_response fetched) as [c | e] eqn:Hc.
    + apply (settle_success _ _ _ Hinv Hin Hc).
    + destruct (settle_failure _ _ _ Hinv Hin Hc) as (Hr & He & Hl & Hshown).
      split; [exact Hr | ]. split; [exact Hshown | ].
      split; [exact He | ]. split; [exact Hl | ].
      intros Hne. apply errorBanner_shown; assumption.
Qed.

End CallOutcome.

(** A comparison in flight, answered by a 200 with [success: false]. *)
Lemma comparison_is_atomic_witness :
  ComparePage.inflight (ComparePage.run Sample.comparing) <> None
  /\ ComparePage.result
       (ComparePage.state
          (ComparePage.step (ComparePage.run Sample.comparing)
             (ComparePage.Settle
                (Js.Ok (Sample.response 200
                          [("success", Js.Bool false);
                           ("comparison", Js.Null);
                           ("error", Js.Str "Movie 8195 not found")])))))
     = None.
Proof.
  assert (Hin : ComparePage.inflight (ComparePage.run Sample.comparing) <> None)
    by (vm_compute; discriminate).
  split; [exact Hin | ].
  exact (proj1 (proj1 (proj2 (proj2 comparison_is_atomic)) Sample.comparing
                  (Js.Ok (Sample.response 200
                            [("success", Js.Bool false);
                             ("comparison", Js.Null);
                             ("error", Js.Str "Movie 8195 not found")])) Hin)).
Defined.

(** ** services/api.ts: the message of an error response *)

Section ErrorMessages.
Import Js Api ComparePage.

(** An empty [error] string is not the message: ['Request failed'] is. *)
Example empty_error_string :
  fetchApi_response (Ok (Sample.response 500 [("error", Str EmptyString)]))
  = Throw (ApiError 500 "Request failed").
Proof. reflexivity. Qed.

(** An [error] that is not a string goes before a [detail] string. *)
Example error_number_before_detail :
  fetchApi_response
    (Ok (Sample.response 422 [("error", Num 5); ("detail", Str "Unprocessable")]))
  = Throw (ApiError 422 "5").
Proof. vm_compute. reflexivity. Qed.

(** C2, as worded, fails: a non-2xx response whose body has the [error]
    string field "" raises an error whose message is not that string. *)
Lemma error_field_not_always_the_message :
  ~ (forall (response : Response) (ps : list (string * value)) (s : string),
       ok response = false -> json response = Ok (Obj ps) ->
       lookup "error" ps = Some (Str s)
       \/ (forall s', lookup "error" ps <> Some (Str s'))
          /\ lookup "detail" ps = Some (Str s) ->
       fetchApi_response (Ok response) = Throw (ApiError (status response) s)).
Proof.
  intros Hclaim.
  specialize (Hclaim (Sample.response 500 [("error", Str EmptyString)])
                [("error", Str EmptyString)] EmptyString
                eq_refl eq_refl (or_introl eq_refl)).
  rewrite empty_error_string in Hclaim. discriminate Hclaim.
Qed.

(** C2, amended. For a response with a non-2xx status whose JSON body has
    a non-empty [error] string, or no truthy [error] and a non-empty
    [detail] string, fetchApi throws an ApiError with the status and
    exactly that string as message; compareMovies passes the error on, and
    the page, whatever happened before, puts the message, unmodified, in
    its error state and in the banner it renders. *)
Theorem error_message_verbatim
    (response : Response) (ps : list (string * value)) (s : string) :
  ok response = false -> json response = Ok (Obj ps) -> s <> EmptyString ->
  lookup "error" ps = Some (Str s)
  \/ falsy_or_absent (lookup "error" ps) = true /\ lookup "detail" ps = Some (Str s) ->
  fetchApi_response (Ok response) = Throw (ApiError (status response) s)
  /\ compareMovies_response (Ok response) = Throw (ApiError (status response) s)
  /\ forall events : list event,
       inflight (run events) <> None ->
       let s' := state (step (run events) (Settle (Ok response))) in
       error s' = Some s /\ errorBanner s' = errorShown s
       /\ ComparePage.result s' = None.
Proof.
  intros Hok Hjson Hne Hfield.
  assert (Hthrow : fetchApi_response (Ok response) = Throw (ApiError (status response) s)).
  { rewrite (fetchApi_response_error_object response ps Hok Hjson).
    unfold or, own. destruct Hfield as [He | [He Hd]].
    - rewrite He. destruct s; [contradiction | reflexivity].
    - rewrite Hd. unfold falsy_or_absent in He.
      destruct (lookup "error" ps) as [x | ].
      + apply negb_true_iff in He. rewrite He.
        destruct s; [contradiction | reflexivity].
      + destruct s; [contradiction | reflexivity]. }
  assert (Hcompare : compareMovies_response (Ok response)
                     = Throw (ApiError (status response) s)).
  { unfold compareMovies_response. rewrite Hthrow. reflexivity. }
  split; [exact Hthrow | split; [exact Hcompare | ]].
  intros events Hin.
  destruct (settle_failure _ _ _ (page_run_invariant events) Hin Hcompare)
    as (Hr & He & _ & _).
  split; [exact He | split; [ | exact Hr]].
  apply errorBanner_shown; assumption.
Qed.

End ErrorMessages.

(** A comparison in flight, answered by a 404 with a [detail]. *)
Lemma error_message_verbatim_witness :
  let response := Sample.response 404 [("detail", Js.Str "Movie not found")] in
  Api.fetchApi_response (Js.Ok response) = Js.Throw (Js.ApiError 404 "Movie not found")
  /\ ComparePage.error
       (ComparePage.state
          (ComparePage.step (ComparePage.run Sample.comparing)
             (ComparePage.Settle (Js.Ok response))))
     = Some "Movie not found".
Proof.
  intros response.
  assert (Hin : ComparePage.inflight (ComparePage.run Sample.comparing) <> None)
    by (vm_compute; discriminate).
  assert (Hne : "Movie not found" <> EmptyString) by discriminate.
  destruct (error_message_verbatim response
              [("detail", Js.Str "Movie not found")] "Movie not found"
              eq_refl eq_refl Hne (or_intror (conj eq_refl eq_refl)))
    as (Hthrow & _ & Hpage).
  split; [exact Hthrow | ].
  exact (proj1 (Hpage Sample.comparing Hin)).
Defined.

(** * Further properties of the code *)

(** ** services/api.ts: how [fetchApi] and [compareMovies] fail *)

Section CallFailures.
Import Js Api.

Lemma falsy_own (key : string) (ps : list (string * value)) :
  falsy_or_absent (lookup key ps) = true -> truthy (own key ps) = false.
Proof.
  unfold own. destruct (lookup key ps) as [x | ]; simpl; [ | reflexivity].
  intros H. now apply negb_true_iff in H.
Qed.

Lemma toString_Arr_cons (a : value) (l : list value) :
  toString (Arr (a :: l))
  = bind match a with
         | Undefined | Null => Ok EmptyString
         | _ => toString a
         end
      (fun t => match l with
                | [] => Ok t
                | _ => bind (toString (Arr l)) (fun b => Ok (t ++ "," ++ b))
                end).
Proof. reflexivity. Qed.

Lemma toString_Arr_failure (l : list value) :
  Forall (fun a => forall e, toString a = Throw e ->
                   e = TypeError "Cannot convert object to primitive value") l ->
  forall e, toString (Arr l) = Throw e ->
            e = TypeError "Cannot convert object to primitive value".
Proof.
  induction 1 as [ | a l Ha Hl IH]; intros e; [intros H; discriminate H | ].
  rewrite toString_Arr_cons.
  destruct a; cbn [bind];
    try (destruct l; [intros H; discriminate H | ];
         destruct (toString (Arr (_ :: l))) as [t | e'] eqn:Ht; cbn [bind];
         [intros H; discriminate H | intros H; injection H as <-; apply IH; reflexivity]).
  all: match goal with
       | |- context [toString ?a] =>
           destruct (toString a) as [t0 | e0] eqn:H0; cbn [bind];
           [ | intros H; injection H as <-; apply Ha; reflexivity]
       end.
  all: destruct l; [intros H; discriminate H | ];
       destruct (toString (Arr (_ :: l))) as [t | e'] eqn:Ht; cbn [bind];
       [intros H; discriminate H | intros H; injection H as <-; apply IH; reflexivity].
Qed.

(** The only failure of ToString on a parsed value: an object with an own
    [toString] property, itself or inside an array. *)
Lemma toString_failure (v : value) (e : JsError) :
  toString v = Throw e -> e = TypeError "Cannot convert object to primitive value".
Proof.
  revert v e. fix IH 1. intros [ | | b | x | s | l | ps] e;
    try (intros H; discriminate H).
  - apply toString_Arr_failure. induction l as [ | a l IHl]; constructor.
    + apply IH.
    + exact IHl.
  - cbn [toString]. destruct (lookup "toString" ps); [ | intros H; discriminate H].
    intros H. injection H as <-. reflexivity.
Qed.
(** X1. fetchApi on a response that is not ok never returns: it throws
    an ApiError that carries the response's status, or a TypeError.  The
    message of the ApiError is 'Unknown error' when the body is not JSON;
    'Request failed' when the body is a boolean, a number, a string or an
    array, or an object with neither a truthy [error] nor a truthy
    [detail]; and the string of [error.error || error.detail] when the body
    is an object with a truthy one.  The TypeError is thrown when the body
    is [null] (the property read fails) and when that value has no string
    (an object with a [toString] property of its own, alone or in an
    array). *)
Theorem fetchApi_error_edges (response : Response) :
  ok response = false ->
  let thrown := fetchApi_response (Ok response) in
  ((exists message, thrown = Throw (ApiError (status response) message))
   \/ (exists message, thrown = Throw (TypeError message)))
  /\ match json response with
     | Throw _ => thrown = Throw (ApiError (status response) "Unknown error")
     | Ok Undefined | Ok Null => exists message, thrown = Throw (TypeError message)
     | Ok (Obj ps) =>
         match toString (or (or (own "error" ps) (own "detail" ps))
                           (Str "Request failed")) with
         | Ok message => thrown = Throw (ApiError (status response) message)
         | Throw _ => thrown = Throw (TypeError "Cannot convert object to primitive value")
         end
         /\ (falsy_or_absent (lookup "error" ps) = true ->
             falsy_or_absent (lookup "detail" ps) = true ->
             thrown = Throw (ApiError (status response) "Request failed"))
     | Ok _ => thrown = Throw (ApiError (status response) "Request failed")
     end.
Proof.
  intros Hok thrown.
  assert (Hcases :
    match json response with
    | Throw _ => thrown = Throw (ApiError (status response) "Unknown error")
    | Ok Undefined | Ok Null => exists message, thrown = Throw (TypeError message)
    | Ok (Obj ps) =>
        match toString (or (or (own "error" ps) (own "detail" ps))
                          (Str "Request failed")) with
        | Ok message => thrown = Throw (ApiError (status response) message)
        | Throw _ => thrown = Throw (TypeError "Cannot convert object to primitive value")
        end
        /\ (falsy_or_absent (lookup "error" ps) = true ->
            falsy_or_absent (lookup "detail" ps) = true ->
            thrown = Throw (ApiError (status response) "Request failed"))
    | Ok _ => thrown = Throw (ApiError (status response) "Request failed")
    end).
  { destruct (json response) as [[ | | b | x | s | l | ps] | e] eqn:Hjson;
      try (subst thrown; unfold fetchApi_response; simpl; rewrite Hok, Hjson;
           simpl; solve [reflexivity | eexists; reflexivity]).
    pose proof (fetchApi_response_error_object response ps Hok Hjson) as Hobj.
    fold thrown in Hobj. split.
    - destruct (toString (or (or (own "error" ps) (own "detail" ps))
                            (Str "Request failed"))) as [message | e] eqn:Hs.
      + exact Hobj.
      + rewrite Hobj. cbn [bind]. rewrite (toString_failure _ _ Hs). reflexivity.
    - intros He Hd. apply falsy_own in He, Hd. rewrite Hobj.
      unfold or. rewrite He, Hd. reflexivity. }
  split; [ | exact Hcases].
  destruct (json response) as [[ | | b | x | s | l | ps] | e];
    try (left; eexists; exact Hcases); try (right; exact Hcases).
  destruct Hcases as [Hcases _].
  destruct (toString (or (or (own "error" ps) (own "detail" ps)) (Str "Request failed")));
    [left | right]; eexists; exact Hcases.
Qed.

(** An error body whose [error] is an object with a [toString] property,
    and one whose [detail] is a number. *)
Example fetchApi_error_conversions :
  fetchApi_response
    (Ok {| status := 400;
           json := Ok (Obj [("error", Obj [("toString", Num 1)])]) |})
  = Throw (TypeError "Cannot convert object to primitive value")
  /\ fetchApi_response
       (Ok {| status := 422; json := Ok (Obj [("detail", Num 42)]) |})
     = Throw (ApiError 422 "42").
Proof. split; vm_compute; reflexivity. Qed.

(** X2. compareMovies on a 2xx response whose body is not a comparison:
    the body [null] throws a TypeError; a boolean, a number, a string or an
    array, and an object that lacks a truthy [success] or a truthy
    [comparison] and has no truthy [error], throw Error('Comparison
    failed'). *)
Theorem compareMovies_malformed_body (response : Response) (body : value) :
  ok response = true -> json response = Ok body ->
  (body = Null -> exists m, compareMovies_response (Ok response) = Throw (TypeError m))
  /\ (plain body = true ->
      compareMovies_response (Ok response) = Throw (Error "Comparison failed"))
  /\ (forall ps, body = Obj ps ->
      falsy_or_absent (lookup "success" ps) = true
      \/ falsy_or_absent (lookup "comparison" ps) = true ->
      falsy_or_absent (lookup "error" ps) = true ->
      compareMovies_response (Ok response) = Throw (Error "Comparison failed")).
Proof.
  intros Hok Hjson. unfold compareMovies_response.
  rewrite (fetchApi_response_ok _ Hok), Hjson.
  split; [intros ->; eexists; reflexivity | ].
  split; [destruct body; try discriminate; reflexivity | ].
  intros ps -> Hsc He. apply falsy_own in He. simpl.
  destruct (truthy (own "success" ps)) eqn:Hs; simpl.
  - destruct Hsc as [H | H]; apply falsy_own in H; [congruence | ].
    rewrite H. simpl. unfold or. rewrite He. reflexivity.
  - unfold or. rewrite He. reflexivity.
Qed.

End CallFailures.

(** A 502 from a proxy, with an HTML body. *)
Lemma fetchApi_error_edges_witness :
  Api.fetchApi_response
    (Js.Ok {| Api.status := 502; Api.json := Js.Throw (Js.SyntaxError "Unexpected token <") |})
  = Js.Throw (Js.ApiError 502 "Unknown error").
Proof.
  exact (proj2 (fetchApi_error_edges
                  {| Api.status := 502;
                     Api.json := Js.Throw (Js.SyntaxError "Unexpected token <") |}
                  eq_refl)).
Defined.

(** A 200 whose body is the JSON string "OK". *)
Lemma compareMovies_malformed_body_witness :
  Api.compareMovies_response
    (Js.Ok {| Api.status := 200; Api.json := Js.Ok (Js.Str "OK") |})
  = Js.Throw (Js.Error "Comparison failed").
Proof.
  exact (proj1 (proj2 (compareMovies_malformed_body
                         {| Api.status := 200; Api.json := Js.Ok (Js.Str "OK") |}
                         (Js.Str "OK") eq_refl eq_refl)) eq_refl).
Defined.

Section TransportFailures.
Import Js Api ComparePage.

(** X3. A call that fails before a body is read (the request is rejected,
    or a 2xx body is not JSON) passes through fetchApi and compareMovies
    unchanged, and a comparison in flight that ends this way leaves the
    page with that failure's message as its error, no result, and not
    loading. *)
Theorem transport_failure_reaches_page
    (fetched : Js.result Response) (e : JsError) (events : list event) :
  transport_failure fetched e -> inflight (run events) <> None ->
  fetchApi_response fetched = Throw e
  /\ compareMovies_response fetched = Throw e
  /\ let s' := state (step (run events) (Settle fetched)) in
     error s' = Some (message e) /\ ComparePage.result s' = None
     /\ isLoading s' = false.
Proof.
  intros Hfail Hin.
  assert (Hfetch : fetchApi_response fetched = Throw e).
  { destruct Hfail as [-> | (response & -> & Hok & Hjson)]; [reflexivity | ].
    rewrite (fetchApi_response_ok _ Hok). exact Hjson. }
  assert (Hcompare : compareMovies_response fetched = Throw e).
  { unfold compareMovies_response. rewrite Hfetch. reflexivity. }
  split; [exact Hfetch | split; [exact Hcompare | ]].
  destruct (settle_failure _ _ _ (page_run_invariant events) Hin Hcompare)
    as (Hr & He & Hl & _).
  repeat split; assumption.
Qed.

End TransportFailures.

(** The network is down while a comparison is in flight. *)
Lemma transport_failure_reaches_page_witness :
  ComparePage.error
    (ComparePage.state
       (ComparePage.step (ComparePage.run Sample.comparing)
          (ComparePage.Settle (Js.Throw (Js.TypeError "Failed to fetch")))))
  = Some "Failed to fetch".
Proof.
  assert (Hin : ComparePage.inflight (ComparePage.run Sample.comparing) <> None)
    by (vm_compute; discriminate).
  exact (proj1 (proj2 (proj2
           (transport_failure_reaches_page (Js.Throw (Js.TypeError "Failed to fetch"))
              (Js.TypeError "Failed to fetch") Sample.comparing
              (or_introl eq_refl) Hin)))).
Defined.

(** ** services/api.ts: the requests *)

Section Requests.
Import JsNumber Js Api.

Let quoted (s : string) : string := JsString.dquote ++ s ++ JsString.dquote.

(** X4. Called without weights, compareMovies sends a body that holds the
    two ids only (JSON.stringify leaves the undefined [weights] out), and
    getMovieScore asks for [/score/<id>?], with an empty query. *)
Theorem calls_without_weights (movie1Id movie2Id movieId : number) :
  body (init (compareMovies_request movie1Id movie2Id None))
  = Some ("{" ++ quoted "movie1_id" ++ ":" ++ json_number movie1Id
          ++ "," ++ quoted "movie2_id" ++ ":" ++ json_number movie2Id ++ "}")
  /\ getMovieScore_endpoint movieId None = "/score/" ++ JsNumber.toString movieId ++ "?".
Proof.
  split.
  - unfold quoted. cbv -[json_number append]. rewrite !append_assoc. reflexivity.
  - cbv -[JsNumber.toString append]. rewrite ?append_assoc. reflexivity.
Qed.

(** The request fetchApi makes: the URL is [/api] followed by the
    endpoint; method and body are the caller's; headers the caller passes
    replace the default ones altogether (the spread of [options] comes
    last), and without them the only header is Content-Type:
    application/json. *)
Lemma fetchApi_request_headers (endpoint : string) (options : option RequestInit) :
  let request := fetchApi_request endpoint options in
  url request = "/api" ++ endpoint
  /\ headers (init request)
     = Some match options with
            | Some {| headers := Some h |} => h
            | _ => [("Content-Type", "application/json")]
            end
  /\ method (init request) = match options with Some o => method o | None => None end
  /\ body (init request) = match options with Some o => body o | None => None end.
Proof.
  destruct options as [[m [h | ] b] | ]; repeat split.
Qed.

End Requests.

(** ** services/api.ts: the query of a search *)

Section SearchEndpoint.
Import JsString Urlencoded Api.

Lemma all_append (p : ascii -> bool) (a b : string) :
  all p (a ++ b) = all p a && all p b.
Proof.
  induction a as [ | c a IH]; simpl; [reflexivity | ].
  rewrite IH. apply andb_assoc.
Qed.

Lemma all_impl (p q : ascii -> bool) (s : string) :
  (forall c, p c = true -> q c = true) -> all p s = true -> all q s = true.
Proof.
  intros Hpq. induction s as [ | c s IH]; simpl; [reflexivity | ].
  intros H. apply andb_true_iff in H. destruct H as [Hc Hs].
  rewrite (Hpq c Hc), (IH Hs). reflexivity.
Qed.

Lemma form_char_safe (c : ascii) : all safe (form_char c) = true.
Proof. destruct c as [[] [] [] [] [] [] [] []]; reflexivity. Qed.

Lemma form_encode_safe (s : string) : all safe (form_encode s) = true.
Proof.
  induction s as [ | c s IH]; simpl; [reflexivity | ].
  rewrite all_append, form_char_safe, IH. reflexivity.
Qed.

Lemma percent_decode_char (c : ascii) (t : string) :
  percent_decode (form_char c ++ t) = (utf8 c ++ percent_decode t)%list.
Proof. destruct c as [[] [] [] [] [] [] [] []]; reflexivity. Qed.

Lemma utf8_decode_char (c : ascii) (l : list N) :
  utf8_decode (utf8 c ++ l) = String c (utf8_decode l).
Proof. destruct c as [[] [] [] [] [] [] [] []]; reflexivity. Qed.

Lemma percent_decode_encode (s t : string) :
  percent_decode (form_encode s ++ t)
  = (flat_map utf8 (list_ascii_of_string s) ++ percent_decode t)%list.
Proof.
  revert t. induction s as [ | c s IH]; intros t; simpl; [reflexivity | ].
  rewrite append_assoc, percent_decode_char, IH, app_assoc. reflexivity.
Qed.

Lemma utf8_decode_encode (s : string) (l : list N) :
  utf8_decode (flat_map utf8 (list_ascii_of_string s) ++ l) = s ++ utf8_decode l.
Proof.
  induction s as [ | c s IH]; simpl; [reflexivity | ].
  rewrite <- app_assoc, utf8_decode_char, IH. reflexivity.
Qed.

Lemma append_empty (s : string) : s ++ "" = s.
Proof. induction s as [ | c s IH]; simpl; [ | rewrite IH]; reflexivity. Qed.

(** Decoding reads an encoded string back. *)
Lemma form_decode_encode (s : string) : form_decode (form_encode s) = s.
Proof.
  unfold form_decode. rewrite <- (append_empty (form_encode s)).
  rewrite percent_decode_encode. simpl. rewrite utf8_decode_encode. simpl.
  apply append_empty.
Qed.

Lemma length_append (a b : string) :
  String.length (a ++ b) = String.length a + String.length b.
Proof. induction a as [ | c a IH]; simpl; [ | rewrite IH]; reflexivity. Qed.

Lemma append_inj_r (a b t : string) : a ++ t = b ++ t -> a = b.
Proof.
  intros H.
  assert (Hlen : String.length a = String.length b).
  { apply (f_equal String.length) in H. rewrite !length_append in H. lia. }
  revert b H Hlen. induction a as [ | c a IH]; intros [ | d b] H Hlen; simpl in *;
    try discriminate; [reflexivity | ].
  injection H as -> H. f_equal. apply IH; [exact H | lia].
Qed.

Lemma searchMovies_endpoint_shape (query : string) (page : option JsNumber.number) :
  searchMovies_endpoint query page
  = "/search?q=" ++ form_encode query ++ "&page="
    ++ form_encode (JsNumber.toString match page with Some p => p | None => 1%float end).
Proof.
  cbv -[JsNumber.toString form_encode append]. rewrite !append_assoc. reflexivity.
Qed.

(** X5. Whatever the user typed, the endpoint of a search is
    [/search?q=<query>&page=<page>] (page 1 when none is given), where the
    query is written with letters, digits, [*], [-], [.], [_], [+] and
    [%XY] escapes only: no character of the query can end the parameter or
    start another one. *)
Theorem search_query_is_escaped (query : string) (page : option JsNumber.number) :
  exists escaped,
    searchMovies_endpoint query page
    = "/search?q=" ++ escaped ++ "&page="
      ++ form_encode (JsNumber.toString match page with Some p => p | None => 1%float end)
    /\ escaped = form_encode query
    /\ all safe escaped = true
    /\ all (fun c => negb (existsb (Ascii.eqb c) (list_ascii_of_string "&=#?/ "))) escaped
       = true.
Proof.
  exists (form_encode query).
  split; [apply searchMovies_endpoint_shape | ].
  split; [reflexivity | ].
  split; [apply form_encode_safe | ].
  apply (all_impl safe); [ | apply form_encode_safe].
  intros c. destruct c as [[] [] [] [] [] [] [] []]; vm_compute; congruence.
Qed.

End SearchEndpoint.

(** A query that holds an ampersand and a space. *)
Example search_endpoint_sample :
  Api.searchMovies_endpoint "Fast & Furious" None = "/search?q=Fast+%26+Furious&page=1"
  /\ Urlencoded.form_decode "Fast+%26+Furious" = "Fast & Furious".
Proof. split; vm_compute; reflexivity. Qed.

(** ** pages/ComparePage.tsx: the requests of the page *)

Section PageRequests.
Import Js Api ComparePage.

Lemma run_app (events : list event) (e : event) :
  run (events ++ [e]) = step (run events) e.
Proof. unfold run. rewrite fold_left_app. reflexivity. Qed.

Lemma requested_by_app (events : list event) (e : event) (request : Request) :
  requested_by events request -> requested_by (events ++ [e]) request.
Proof.
  intros (m1 & m2 & w & Hr & H1 & H2 & Hw). exists m1, m2, w.
  repeat split; try (apply in_or_app; left; assumption); [exact Hr | ].
  destruct Hw as [Hw | Hw]; [left; exact Hw | right; apply in_or_app; left; exact Hw].
Qed.

Lemma chosen_by_step (events : list event) (p : Page) (e : event) :
  chosen_by events p -> chosen_by (events ++ [e]) (step p e).
Proof.
  intros (H1 & H2 & Hw & Hs & Hn).
  assert (H1' : forall m, movie1 (state p) = Some m -> In (SelectMovie1 m) (events ++ [e]))
    by (intros m H; apply in_or_app; left; auto).
  assert (H2' : forall m, movie2 (state p) = Some m -> In (SelectMovie2 m) (events ++ [e]))
    by (intros m H; apply in_or_app; left; auto).
  assert (Hw' : weights (state p) = DEFAULT_WEIGHTS
                \/ In (ChangeWeights (weights (state p))) (events ++ [e]))
    by (destruct Hw as [Hw | Hw]; [left; exact Hw | right; apply in_or_app; left; exact Hw]).
  assert (Hs' : forall request, In request (sent p) -> requested_by (events ++ [e]) request)
    by (intros request H; apply requested_by_app, Hs, H).
  assert (Hn' : length (sent p) <= length (filter isClickCompare (events ++ [e])))
    by (rewrite filter_app, length_app; lia).
  assert (Hlast : In e (events ++ [e])) by (apply in_or_app; right; left; reflexivity).
  unfold chosen_by.
  destruct e as [m | m | | | w | | fetched]; simpl.
  - destruct (movie1 (state p)) eqn:Hm; simpl; [rewrite ?Hm; auto | ].
    repeat split; auto. intros m' H. injection H as <-. exact Hlast.
  - destruct (movie2 (state p)) eqn:Hm; simpl; [rewrite ?Hm; auto | ].
    repeat split; auto. intros m' H. injection H as <-. exact Hlast.
  - repeat split; auto. discriminate.
  - repeat split; auto. discriminate.
  - repeat split; auto.
  - destruct (compareDisabled (state p)); [auto | ].
    unfold handleCompare_start.
    destruct (movie1 (state p)) as [m1 | ] eqn:Hm1; [ | simpl; rewrite ?Hm1; auto].
    destruct (movie2 (state p)) as [m2 | ] eqn:Hm2; [ | simpl; rewrite ?Hm1, ?Hm2; auto].
    simpl. rewrite ?Hm1, ?Hm2. repeat split; auto.
    + intros request [<- | H]; [ | auto].
      exists m1, m2, (weights (state p)). repeat split; auto.
    + rewrite filter_app, length_app. simpl. lia.
  - destruct (inflight p); simpl; [ | auto].
    destruct (compareMovies_response fetched); repeat split; auto.
Qed.

Lemma chosen_by_run (events : list event) : chosen_by events (run events).
Proof.
  induction events as [ | e events IH] using rev_ind.
  - unfold chosen_by; simpl. repeat split; try discriminate; auto. contradiction.
  - rewrite run_app. apply chosen_by_step, IH.
Qed.

(** X7. Whatever happens on the compare page, every request it has sent is
    the compareMovies request for a first and a second movie that were
    picked in the search bars and for weights that the sliders set (or the
    default weights); and it has sent no more requests than there were
    clicks on the compare button. *)
Theorem sent_requests_come_from_choices (events : list event) :
  (forall request, In request (sent (run events)) -> requested_by events request)
  /\ length (sent (run events)) <= length (filter isClickCompare events).
Proof.
  destruct (chosen_by_run events) as (_ & _ & _ & Hs & Hn). split; assumption.
Qed.

(** X8. While a comparison is in flight a click on the compare button does
    nothing: the button is disabled, no second request is sent, and the
    state stays as it is. *)
Theorem no_second_request_in_flight (events : list event) :
  inflight (run events) <> None ->
  compareDisabled (state (run events)) = true
  /\ step (run events) ClickCompare = run events.
Proof.
  intros Hin. pose proof (page_run_invariant events) as Hinv.
  unfold invariant in Hinv. destruct (inflight (run events)); [ | contradiction].
  destruct Hinv as (_ & _ & Hl).
  assert (Hd : compareDisabled (state (run events)) = true).
  { unfold compareDisabled. rewrite Hl. apply orb_true_r. }
  split; [exact Hd | ]. simpl. rewrite Hd. reflexivity.
Qed.

End PageRequests.

(** A second click while the comparison of the sample run is in flight. *)
Lemma no_second_request_in_flight_witness :
  ComparePage.step (ComparePage.run Sample.comparing) ComparePage.ClickCompare
  = ComparePage.run Sample.comparing.
Proof.
  assert (Hin : ComparePage.inflight (ComparePage.run Sample.comparing) <> None)
    by (vm_compute; discriminate).
  exact (proj2 (no_second_request_in_flight Sample.comparing Hin)).
Defined.

(** ** pages/ComparePage.tsx: what the page shows *)

Section PageDisplay.
Import Js Api ComparePage.

Lemma exclusive_step (p : Page) (e : event) :
  invariant p ->
  ComparePage.result (state p) = None \/ error (state p) = None ->
  ComparePage.result (state (step p e)) = None \/ error (state (step p e)) = None.
Proof.
  intros Hinv H. destruct e as [m | m | | | w | | fetched]; simpl.
  - destruct (movie1 (state p)); exact H.
  - destruct (movie2 (state p)); exact H.
  - left; reflexivity.
  - left; reflexivity.
  - exact H.
  - destruct (compareDisabled (state p)); [exact H | ].
    unfold handleCompare_start.
    destruct (movie1 (state p)); [ | exact H].
    destruct (movie2 (state p)); [ | exact H].
    left; reflexivity.
  - unfold invariant in Hinv. destruct (inflight p); [ | exact H].
    destruct Hinv as (Hr & He & _).
    destruct (compareMovies_response fetched); simpl; [right | left]; assumption.
Qed.

(** X9. The compare page never holds a result and an error at once,
    whatever the order of picks, clears, weight changes, clicks and
    responses. *)
Theorem result_and_error_exclusive (events : list event) :
  ComparePage.result (state (run events)) = None \/ error (state (run events)) = None.
Proof.
  induction events as [ | e events IH] using rev_ind.
  - left; reflexivity.
  - rewrite run_app. apply exclusive_step; [apply page_run_invariant | exact IH].
Qed.

Lemma inflight_kept (later : list event) (p : Page) :
  invariant p -> inflight p <> None ->
  forallb (fun e => negb (isSettle e)) later = true ->
  invariant (fold_left step later p) /\ inflight (fold_left step later p) <> None.
Proof.
  revert p. induction later as [ | e later IH]; intros p Hinv Hin Hl; simpl.
  - split; assumption.
  - simpl in Hl. apply andb_true_iff in Hl. destruct Hl as [He Hl].
    apply IH; [apply page_step_invariant, Hinv | | exact Hl].
    unfold invariant in Hinv.
    destruct (inflight p) as [r | ] eqn:Hr; [ | contradiction].
    destruct Hinv as (_ & _ & Hload).
    destruct e as [m | m | | | w | | fetched]; simpl; rewrite ?Hr; try discriminate.
    + destruct (movie1 (state p)); simpl; rewrite ?Hr; discriminate.
    + destruct (movie2 (state p)); simpl; rewrite ?Hr; discriminate.
    + unfold compareDisabled. rewrite Hload, orb_true_r. rewrite Hr. discriminate.
Qed.

(** X10. A comparison in flight cannot be called off: whatever the user
    does before the response arrives (clear a movie, pick another, move the
    sliders, click), a successful response puts its comparison on the page,
    also when the movies it compares are no longer the chosen ones. *)
Theorem late_response_is_shown
    (events later : list event) (fetched : Js.result Response) (c : value) :
  inflight (run events) <> None ->
  forallb (fun e => negb (isSettle e)) later = true ->
  compareMovies_response fetched = Ok c ->
  let s' := state (run (events ++ later ++ [Settle fetched])) in
  ComparePage.result s' = Some c /\ error s' = None /\ isLoading s' = false.
Proof.
  intros Hin Hl Hc. unfold run. rewrite app_assoc, !fold_left_app.
  destruct (inflight_kept later _ (page_run_invariant events) Hin Hl) as (Hinv & Hin').
  exact (settle_success _ _ _ Hinv Hin' Hc).
Qed.

End PageDisplay.

(** The first movie is cleared while the comparison is in flight; the
    comparison still appears, beside an empty first slot. *)
Lemma late_response_is_shown_witness :
  let fetched :=
    Js.Ok (Sample.response 200
             [("success", Js.Bool true); ("comparison", Js.Obj [("winner", Js.Str "tie")])]) in
  let s' :=
    ComparePage.state
      (ComparePage.run (Sample.comparing ++ [ComparePage.ClearMovie1]
                          ++ [ComparePage.Settle fetched])) in
  ComparePage.result s' = Some (Js.Obj [("winner", Js.Str "tie")])
  /\ ComparePage.movie1 s' = None.
Proof.
  intros fetched s'.
  assert (Hin : ComparePage.inflight (ComparePage.run Sample.comparing) <> None)
    by (vm_compute; discriminate).
  split; [ | vm_compute; reflexivity].
  exact (proj1 (late_response_is_shown Sample.comparing [ComparePage.ClearMovie1] fetched
                  (Js.Obj [("winner", Js.Str "tie")]) Hin eq_refl eq_refl)).
Defined.

(** ** components/SearchBar.tsx: timers, calls and what is shown *)

Section SearchBarBehaviour.
Import Js SearchBar.

(** X11. When a timer of the search bar fires, the query it searches is the
    one in the input at that moment, and no timer is left pending: a timer
    set for an earlier text never reaches the network. *)
Theorem timer_searches_current_query (events : list event) (id : nat) :
  let w := run events in
  fire id w = w
  \/ (calls (fire id w) = query (state w) :: calls w /\ timers (fire id w) = []).
Proof.
  intros w. destruct (search_run_invariant events) as [_ Ht]. fold w in Ht.
  unfold fire. destruct (timers w) as [ | [id0 q] [ | t l]]; try contradiction.
  - left; reflexivity.
  - destruct Ht as (-> & _ & _). simpl.
    destruct (Nat.eqb id0 id); simpl; [right; split; reflexivity | left; reflexivity].
Qed.

Lemma clearTimeout_In (id : nat) (timers : list (nat * string)) (t : nat * string) :
  In t (clearTimeout id timers) -> In t timers.
Proof. unfold clearTimeout. intros H. apply filter_In in H. apply H. Qed.

Lemma timers_cleared_In (ref : option nat) (timers : list (nat * string)) (t : nat * string) :
  In t match ref with Some id => clearTimeout id timers | None => timers end ->
  In t timers.
Proof. destruct ref; [apply clearTimeout_In | auto]. Qed.

Lemma search_run_app (events : list event) (e : event) :
  run (events ++ [e]) = step (run events) e.
Proof. unfold run. rewrite fold_left_app. reflexivity. Qed.

Lemma typed_by_setQuery (events : list event) (e : event) (q : string) (w : World) :
  (q = EmptyString \/ e = Input q) ->
  typed_by events w -> typed_by (events ++ [e]) (setQuery q w).
Proof.
  intros Hq (Ht & Hc & Hn).
  assert (Ht' : forall id q, In (id, q) (timers w) -> In (Input q) (events ++ [e]))
    by (intros; apply in_or_app; left; eauto).
  assert (Hc' : forall q, In q (calls w) -> In (Input q) (events ++ [e]))
    by (intros; apply in_or_app; left; eauto).
  assert (Hn' : length (calls w) <= length (filter isFire (events ++ [e])))
    by (rewrite filter_app, length_app; lia).
  unfold setQuery. destruct (String.eqb q (query (state w))); [repeat split; assumption | ].
  unfold effect, cleanup. cbn [state timers calls debounceRef query next_timer awaiting].
  destruct (String.length (JsString.trim q) <? 2)%nat eqn:Hshort;
    cbn [state timers calls]; repeat split; try assumption.
  - intros id q' H. do 2 apply timers_cleared_In in H. eauto.
  - intros id q' [H | H].
    + injection H as _ <-. destruct Hq as [-> | ->]; [discriminate Hshort | ].
      apply in_or_app; right; left; reflexivity.
    + do 2 apply timers_cleared_In in H. eauto.
Qed.

Lemma typed_by_step (events : list event) (w : World) (e : event) :
  typed_by events w -> typed_by (events ++ [e]) (step w e).
Proof.
  intros Hw. destruct e as [q | | id | outcome]; simpl.
  - apply typed_by_setQuery; [right; reflexivity | exact Hw].
  - destruct (typed_by_setQuery events Clear EmptyString w (or_introl eq_refl) Hw)
      as (Ht & Hc & Hn).
    unfold handleClear. repeat split; assumption.
  - destruct Hw as (Ht & Hc & Hn). unfold fire.
    destruct (find (fun t => Nat.eqb (fst t) id) (timers w)) as [[id' q] | ] eqn:Hf.
    + apply find_some in Hf. destruct Hf as [Hin _].
      repeat split; cbn [timers calls].
      * intros i q' H. apply clearTimeout_In in H. apply in_or_app; left; eauto.
      * intros q' [<- | H]; apply in_or_app; left; eauto.
      * rewrite filter_app, length_app. simpl. lia.
    + repeat split.
      * intros; apply in_or_app; left; eauto.
      * intros; apply in_or_app; left; eauto.
      * rewrite filter_app, length_app. lia.
  - destruct Hw as (Ht & Hc & Hn). unfold settle.
    destruct (awaiting w); cbn [timers calls]; repeat split;
      try (intros; apply in_or_app; left; eauto; fail);
      rewrite filter_app, length_app; simpl; lia.
Qed.

(** X12. Every query the search bar has passed to searchMovies is a text
    that was typed into the input, as it was typed; and it has made no more
    calls than timers have fired. *)
Theorem searched_queries_were_typed (events : list event) :
  (forall q, In q (calls (run events)) -> In (Input q) events)
  /\ length (calls (run events)) <= length (filter isFire events).
Proof.
  assert (H : typed_by events (run events)).
  { induction events as [ | e events IH] using rev_ind.
    - repeat split; simpl; try contradiction. lia.
    - rewrite search_run_app. apply typed_by_step, IH. }
  destruct H as (_ & Hc & Hn). split; assumption.
Qed.

End SearchBarBehaviour.

Section SearchBarDisplay.
Import Js SearchBar.

Lemma not_searchable_short (q : string) :
  ~ searchable q -> (String.length (JsString.trim q) <? 2)%nat = true.
Proof. unfold searchable. intros H. apply Nat.ltb_lt. lia. Qed.

Lemma spinning_idle_step (w : World) (e : event) :
  quiet e -> spinning_idle w -> spinning_idle (step w e).
Proof.
  intros He (Hl & Ht & Hc & Ha).
  assert (Hset : forall q, ~ searchable q -> spinning_idle (setQuery q w)).
  { intros q Hq. unfold setQuery.
    destruct (String.eqb q (query (state w))); [repeat split; assumption | ].
    unfold effect, cleanup. cbn [state timers calls debounceRef query next_timer awaiting].
    rewrite (not_searchable_short q Hq), Ht.
    repeat split; cbn [state timers calls awaiting isLoading]; try assumption;
      destruct (debounceRef (state w)); reflexivity. }
  destruct e as [q | | id | outcome]; simpl.
  - apply Hset, He.
  - assert (Hempty : ~ searchable EmptyString) by (unfold searchable; simpl; lia).
    destruct (Hset EmptyString Hempty) as (Hl' & Ht' & Hc' & Ha').
    unfold handleClear. repeat split; assumption.
  - unfold fire. rewrite Ht. simpl. repeat split; assumption.
  - unfold settle. rewrite Ha. repeat split; assumption.
Qed.

(** X13. The spinner can stay on for good: when a searchable query is typed
    and then, before its timer fires, changed to one that is not searchable
    (shorter than 2 characters once trimmed), the timer is cleared but
    isLoading stays true; and it stays true through everything that follows
    short of typing a searchable query, with no call made or awaited. *)
Theorem spinner_left_on (q1 q2 : string) (later : list event) :
  searchable q1 -> ~ searchable q2 -> Forall quiet later ->
  let w := run ([Input q1; Input q2] ++ later) in
  isLoading (state w) = true /\ timers w = [] /\ calls w = [] /\ awaiting w = 0.
Proof.
  intros H1 H2 Hlater.
  assert (Hstart : spinning_idle (run [Input q1; Input q2])).
  { assert (Hne1 : String.eqb q1 EmptyString = false).
    { apply String.eqb_neq. intros ->. unfold searchable in H1. simpl in H1. lia. }
    assert (Hne2 : String.eqb q2 q1 = false).
    { apply String.eqb_neq. intros ->. contradiction. }
    assert (Hlong : (String.length (JsString.trim q1) <? 2)%nat = false).
    { apply Nat.ltb_ge. exact H1. }
    assert (E1 : setQuery q1 mount
                 = {| state := {| query := q1; results := Arr []; isLoading := true;
                                  isOpen := false; error := None;
                                  debounceRef := Some 1 |};
                      timers := [(1, q1)]; next_timer := 2; calls := [];
                      awaiting := 0 |}).
    { unfold setQuery. change (query (state mount)) with EmptyString. rewrite Hne1.
      unfold effect, cleanup.
      cbn [state timers calls debounceRef query next_timer awaiting mount].
      rewrite Hlong. reflexivity. }
    change (run [Input q1; Input q2]) with (setQuery q2 (setQuery q1 mount)).
    rewrite E1. unfold setQuery.
    cbn [state timers calls debounceRef query next_timer awaiting].
    rewrite Hne2. unfold effect, cleanup.
    cbn [state timers calls debounceRef query next_timer awaiting].
    rewrite (not_searchable_short q2 H2). repeat split. }
  unfold run. rewrite fold_left_app. fold (run [Input q1; Input q2]).
  generalize dependent (run [Input q1; Input q2]).
  induction Hlater as [ | e later He Hlater IH]; intros w Hw; simpl.
  - exact Hw.
  - apply IH, spinning_idle_step; assumption.
Qed.

Lemma substring_length (m : nat) (s : string) :
  String.length (substring 0 m s) <= m.
Proof.
  revert s. induction m as [ | m IH]; intros [ | c s]; simpl; try lia.
  specialize (IH s). lia.
Qed.

Lemma first8_at_most_8 (response rs : value) :
  first8 response = Ok rs -> at_most_8 rs.
Proof.
  unfold first8. destruct (get response "results") as [r | e]; cbn [bind]; [ | discriminate].
  destruct r as [ | | b | x | s | l | ps]; try discriminate;
    intros H; injection H as <-; unfold at_most_8.
  - apply substring_length.
  - change (length (firstn 8 l) <= 8). rewrite length_firstn. lia.
Qed.

Lemma display_step (w : World) (e : event) :
  at_most_8 (results (state w))
  /\ (error (state w) = None \/ error (state w) = Some "Search failed. Please try again.") ->
  at_most_8 (results (state (step w e)))
  /\ (error (state (step w e)) = None
      \/ error (state (step w e)) = Some "Search failed. Please try again.").
Proof.
  intros [Hr He].
  assert (Hset : forall q,
             at_most_8 (results (state (setQuery q w)))
             /\ (error (state (setQuery q w)) = None
                 \/ error (state (setQuery q w)) = Some "Search failed. Please try again.")).
  { intros q. unfold setQuery. destruct (String.eqb q (query (state w))); [auto | ].
    unfold effect, cleanup. cbn [state timers calls debounceRef query next_timer awaiting].
    destruct (String.length (JsString.trim q) <? 2)%nat; cbn [state results error];
      split; auto; simpl; lia. }
  destruct e as [q | | id | outcome]; simpl.
  - apply Hset.
  - unfold handleClear. simpl. split; [lia | apply Hset].
  - unfold fire. destruct (find _ (timers w)) as [[i q] | ]; simpl; auto.
  - unfold settle. destruct (awaiting w); [auto | ].
    cbn [state]. destruct (response <- outcome ;; first8 response) as [rs | err] eqn:Hrs.
    + split; [ | exact He]. simpl.
      destruct outcome as [response | err]; simpl in Hrs; [ | discriminate].
      exact (first8_at_most_8 _ _ Hrs).
    + simpl. split; [lia | right; reflexivity].
Qed.

(** X14. The search bar never holds more than eight results, whatever the
    server returns; and the only error text it ever holds is 'Search
    failed. Please try again.': the cause of a failed search (a status, a
    server message, a network error) does not reach the user. *)
Theorem search_display_bounds (events : list event) :
  at_most_8 (results (state (run events)))
  /\ (error (state (run events)) = None
      \/ error (state (run events)) = Some "Search failed. Please try again.").
Proof.
  induction events as [ | e events IH] using rev_ind.
  - split; [simpl; lia | left; reflexivity].
  - rewrite search_run_app. apply display_step, IH.
Qed.

(** X15. A response is shown whatever has been typed since its search was
    made: when a call is awaited and a response with a results array
    arrives, the list opens with the first eight of its results and the
    spinner stops, while the query in the input and a timer pending for it
    stay as they are. *)
Theorem any_response_is_shown (events : list event) (response : value) (l : list value) :
  awaiting (run events) <> 0 -> get response "results" = Ok (Arr l) ->
  let w := run events in
  let w' := step w (Settle (Ok response)) in
  results (state w') = Arr (firstn 8 l) /\ isOpen (state w') = true
  /\ isLoading (state w') = false
  /\ query (state w') = query (state w) /\ timers w' = timers w.
Proof.
  intros Ha Hr. cbv zeta. unfold step, settle.
  destruct (awaiting (run events)); [contradiction | ].
  cbn [state timers bind]. unfold first8. rewrite Hr. cbn [bind]. repeat split.
Qed.

End SearchBarDisplay.

(** "he" is typed and then cut to "h" before the timer fires. *)
Lemma spinner_left_on_witness :
  SearchBar.isLoading
    (SearchBar.state
       (SearchBar.run ([SearchBar.Input "he"; SearchBar.Input "h"]
                       ++ [SearchBar.Fire 1; SearchBar.Clear])))
  = true.
Proof.
  assert (H1 : SearchBar.searchable "he") by (vm_compute; lia).
  assert (H2 : ~ SearchBar.searchable "h") by (vm_compute; lia).
  assert (Hl : Forall SearchBar.quiet [SearchBar.Fire 1; SearchBar.Clear])
    by (repeat constructor).
  exact (proj1 (spinner_left_on "he" "h" [SearchBar.Fire 1; SearchBar.Clear] H1 H2 Hl)).
Defined.

(** The search for "he" is under way when the input is cleared; its
    response opens the list under the empty input. *)
Lemma any_response_is_shown_witness :
  let events := [SearchBar.Input "he"; SearchBar.Fire 1; SearchBar.Clear] in
  let response := Js.Obj [("results", Js.Arr [Js.Str "Heat"; Js.Str "Her"])] in
  let w' := SearchBar.step (SearchBar.run events) (SearchBar.Settle (Js.Ok response)) in
  SearchBar.results (SearchBar.state w') = Js.Arr [Js.Str "Heat"; Js.Str "Her"]
  /\ SearchBar.isOpen (SearchBar.state w') = true
  /\ SearchBar.query (SearchBar.state w') = EmptyString.
Proof.
  intros events response w'.
  assert (Ha : SearchBar.awaiting (SearchBar.run events) <> 0) by (vm_compute; lia).
  destruct (any_response_is_shown events response [Js.Str "Heat"; Js.Str "Her"] Ha eq_refl)
    as (Hr & Ho & _ & Hq & _).
  split; [exact Hr | split; [exact Ho | ]].
  exact Hq.
Defined.

(** ** components/ComparisonResult.tsx: the winner and the key factors *)

Section ComparisonDisplay.
Import React ComparisonResultComponent.

Variable H : Type.

(** X16. A comparison that one movie wins shows exactly one "Winner"
    badge, in the card of the winner and not in the other card, and the
    banner names the winner's title. *)
Theorem winner_shown_once (result : ComparisonResult.t) :
  (ComparisonResult.winner result = movie1 ->
   countWinnerBadges (ComparisonResult H result) = 1
   /\ countWinnerBadges (movie1Card H result) = 1
   /\ countWinnerBadges (movie2Card H result) = 0
   /\ winnerTitle result = ComparisonResult.movie1_title result)
  /\ (ComparisonResult.winner result = movie2 ->
      countWinnerBadges (ComparisonResult H result) = 1
      /\ countWinnerBadges (movie1Card H result) = 0
      /\ countWinnerBadges (movie2Card H result) = 1
      /\ winnerTitle result = ComparisonResult.movie2_title result).
Proof.
  rewrite ComparisonResult_badges, movie1Card_badges, movie2Card_badges.
  unfold winnerTitle.
  split; intros ->; repeat split; reflexivity.
Qed.

Lemma argument_key_factor (result : ComparisonResult.t) (index : nat) (arg : ArgumentPoint.t) :
  countKeyFactorTags (argument H result index arg)
  = if Importance_is_high (ArgumentPoint.importance arg) then 1 else 0.
Proof.
  unfold argument.
  destruct (ArgumentPoint.winner arg), (Importance_is_high (ArgumentPoint.importance arg));
    reflexivity.
Qed.

Lemma arguments_key_factor (result : ComparisonResult.t) (l : list ArgumentPoint.t) :
  forall index,
    list_sum (map countKeyFactorTags (mapi (argument H result) index l))
    = length (filter (fun arg => Importance_is_high (ArgumentPoint.importance arg)) l).
Proof.
  induction l as [ | arg l IH]; intros index; cbn [mapi map list_sum fold_right filter].
  - reflexivity.
  - fold (list_sum (map (@countKeyFactorTags H) (mapi (argument H result) (S index) l))).
    rewrite argument_key_factor, IH.
    destruct (Importance_is_high (ArgumentPoint.importance arg)); reflexivity.
Qed.

Lemma mapi_keys (result : ComparisonResult.t) (l : list ArgumentPoint.t) :
  forall index,
    map rowKey (mapi (argument H result) index l)
    = map (fun arg => Some (Js.Str (ArgumentPoint.factor arg))) l.
Proof.
  induction l as [ | arg l IH]; intros index; cbn [mapi map]; [reflexivity | ].
  rewrite IH. reflexivity.
Qed.

(** X17. The rendered comparison holds one row per argument, in the order
    of the arguments and keyed by their factors, and as many "Key Factor"
    tags as there are arguments of high importance: no other part of the
    page and no text of the response can add or hide one. *)
Theorem key_factor_tags (result : ComparisonResult.t) :
  map rowKey (argumentRows (argumentsCard H result))
  = map (fun arg => Some (Js.Str (ArgumentPoint.factor arg)))
      (ComparisonResult.arguments result)
  /\ countKeyFactorTags (ComparisonResult H result)
     = length (filter (fun arg => Importance_is_high (ArgumentPoint.importance arg))
                 (ComparisonResult.arguments result)).
Proof.
  split; [apply mapi_keys | ].
  assert (Hbanner : countKeyFactorTags (winnerBanner H result) = 0)
    by (unfold winnerBanner; destruct (ComparisonResult.winner result); reflexivity).
  assert (H1 : countKeyFactorTags (movie1Card H result) = 0)
    by (unfold movie1Card; destruct (ComparisonResult.winner result); reflexivity).
  assert (H2 : countKeyFactorTags (movie2Card H result) = 0)
    by (unfold movie2Card; destruct (ComparisonResult.winner result); reflexivity).
  assert (Hvs : countKeyFactorTags (versus H result) = 0) by reflexivity.
  assert (Hverdict : countKeyFactorTags (verdictCard H result) = 0) by reflexivity.
  assert (Hcharts : countKeyFactorTags (charts H result) = 0) by reflexivity.
  unfold ComparisonResult, scoreComparison, argumentsCard, delayed.
  cbn [countKeyFactorTags tag map list_sum fold_right isKeyFactorTag String.eqb
         Ascii.eqb Bool.eqb andb className].
  rewrite Hbanner, H1, H2, arguments_key_factor, Hvs, Hverdict, Hcharts.
  simpl. lia.
Qed.

End ComparisonDisplay.

(** ** components/WeightSliders.tsx: moving a slider *)

Section SliderChange.
Import JsNumber WeightSliders.

(** X18. Moving the slider of one key sets that weight to the slider's
    value and leaves the six others as they were; the later of two moves
    of the same slider wins, and moves of different sliders commute.  The
    next comparison of the page sends the weights so changed. *)
Theorem slider_changes_one_weight
    (w : WeightConfig.t) (k k' : WeightConfig.key) (v v' : number) :
  WeightConfig.get (handleWeightChange w k v) k = v
  /\ (k' <> k -> WeightConfig.get (handleWeightChange w k v) k' = WeightConfig.get w k')
  /\ handleWeightChange (handleWeightChange w k v) k v' = handleWeightChange w k v'
  /\ (k' <> k ->
      handleWeightChange (handleWeightChange w k v) k' v'
      = handleWeightChange (handleWeightChange w k' v') k v)
  /\ (forall (s : ComparePage.State) (m1 m2 : MovieBasic.t),
        ComparePage.movie1 s = Some m1 -> ComparePage.movie2 s = Some m2 ->
        ComparePage.weights s = w ->
        snd (ComparePage.handleCompare_start
               (ComparePage.setWeights (handleWeightChange w k v) s))
        = Some (Api.compareMovies_request (MovieBasic.id m1) (MovieBasic.id m2)
                  (Some (handleWeightChange w k v)))).
Proof.
  split; [destruct k; reflexivity | ].
  split; [intros Hk; destruct k, k'; try reflexivity; contradiction | ].
  split; [destruct k; reflexivity | ].
  split; [intros Hk; destruct k, k'; try reflexivity; contradiction | ].
  intros s m1 m2 Hm1 Hm2 _. unfold ComparePage.handleCompare_start. simpl.
  rewrite Hm1, Hm2. reflexivity.
Qed.

End SliderChange.

(** ** utils/format.ts and the pages: years, grades, runtimes, amounts *)

Section Years.
Import JsString Format.

Lemma index_dash_cons (c : ascii) (s : string) :
  index 0 "-" (String c s)
  = if Ascii.eqb c "-" then Some 0
    else match index 0 "-" s with
         | Some n => Some (S n)
         | None => None
         end.
Proof.
  destruct (Ascii.eqb_spec c "-") as [-> | Hne].
  - destruct s; reflexivity.
  - cbn [index prefix]. destruct (ascii_dec "-" c) as [Heq | _]; [ | reflexivity].
    symmetry in Heq. contradiction.
Qed.

Lemma split_first_dash (y tail : string) :
  index 0 "-" y = None ->
  tail = EmptyString \/ (exists rest, tail = String "-" rest) ->
  split_first "-" (y ++ tail) = y.
Proof.
  intros Hy Htail. unfold split_first.
  induction y as [ | c y IH].
  - destruct Htail as [-> | (rest & ->)]; [reflexivity | destruct rest; reflexivity].
  - rewrite index_dash_cons in Hy. cbn [append]. rewrite index_dash_cons.
    destruct (Ascii.eqb c "-"); [discriminate Hy | ].
    destruct (index 0 "-" y) as [i | ] eqn:Hi; [discriminate Hy | ].
    specialize (IH eq_refl).
    destruct (index 0 "-" (y ++ tail)) as [i | ]; cbn [substring]; rewrite IH; reflexivity.
Qed.

(** X19. The year of a date: for a date that begins with a year (any text
    that is not empty and holds no dash) followed by nothing or by a dash
    and anything, formatYear, the movie card, the compare page and the
    movie page all show that year. *)
Theorem year_of_a_date (y tail : string) :
  index 0 "-" y = None -> y <> EmptyString ->
  tail = EmptyString \/ (exists rest, tail = String "-" rest) ->
  formatYear (Some (y ++ tail)) = y
  /\ MovieCard.year (Some (y ++ tail)) = y
  /\ ComparePage.year (Some (y ++ tail)) = y
  /\ MoviePage.year (Some (y ++ tail)) = y.
Proof.
  intros Hy Hne Htail.
  pose proof (split_first_dash y tail Hy Htail) as Hsplit.
  assert (Hd : truthy (y ++ tail) = true) by (destruct y; [contradiction | reflexivity]).
  assert (Ht : truthy y = true) by (destruct y; [contradiction | reflexivity]).
  unfold formatYear, MovieCard.year, ComparePage.year, MoviePage.year.
  fold (split_first "-" (y ++ tail)).
  change (ComparePage.before_dash (y ++ tail)) with (split_first "-" (y ++ tail)).
  rewrite Hd, Hsplit, Ht. repeat split.
Qed.

Lemma split_first_empty (c : ascii) (s : string) :
  split_first "-" (String c s) = EmptyString <-> c = "-"%char.
Proof.
  unfold split_first. rewrite index_dash_cons.
  destruct (Ascii.eqb_spec c "-") as [-> | Hne].
  - split; reflexivity.
  - destruct (index 0 "-" s); cbn [substring]; split; intros H;
      try discriminate; contradiction.
Qed.

(** X20. Where the year expressions part: formatYear and the movie card
    agree on every date, and so do the compare page and the movie page;
    the two pairs differ exactly on a date that begins with a dash, for
    which the card shows an empty year and the pages show 'N/A'. *)
Theorem year_variants (date : option string) :
  formatYear date = MovieCard.year date
  /\ ComparePage.year date = MoviePage.year date
  /\ (MovieCard.year date <> ComparePage.year date
      <-> exists rest, date = Some (String "-" rest))
  /\ (forall rest, date = Some (String "-" rest) ->
      MovieCard.year date = EmptyString /\ ComparePage.year date = "N/A").
Proof.
  split; [destruct date as [[ | c d] | ]; reflexivity | ].
  split; [reflexivity | ].
  split.
  - destruct date as [[ | c d] | ].
    + split; [intros H; contradiction H; reflexivity | intros (rest & H); discriminate H].
    + unfold MovieCard.year, ComparePage.year.
      change (ComparePage.before_dash (String c d)) with (split_first "-" (String c d)).
      cbn [truthy].
      destruct (split_first "-" (String c d)) as [ | c' t] eqn:Hs.
      * apply split_first_empty in Hs. subst c.
        split; [intros _; exists d; reflexivity | intros _; discriminate].
      * split; [intros H; contradiction H; reflexivity | ].
        intros (rest & H). injection H as -> ->.
        assert (He : split_first "-" (String "-" rest) = EmptyString)
          by (apply split_first_empty; reflexivity).
        rewrite He in Hs. discriminate Hs.
    + split; [intros H; contradiction H; reflexivity | intros (rest & H); discriminate H].
  - intros rest ->.
    assert (He : split_first "-" (String "-" rest) = EmptyString)
      by (apply split_first_empty; reflexivity).
    unfold MovieCard.year, ComparePage.year.
    change (ComparePage.before_dash (String "-" rest))
      with (split_first "-" (String "-" rest)).
    cbn [truthy]. rewrite He. split; reflexivity.
Qed.

End Years.

(** The release date of the sample movie. *)
Lemma year_of_a_date_witness :
  Format.formatYear (Some "1995-12-15") = "1995"
  /\ ComparePage.year (Some "1995-12-15") = "1995".
Proof.
  assert (Hy : index 0 "-" "1995" = None) by reflexivity.
  assert (Hne : "1995" <> EmptyString) by discriminate.
  destruct (year_of_a_date "1995" "-12-15" Hy Hne (or_intror (ex_intro _ "12-15" eq_refl)))
    as (Hf & _ & Hc & _).
  split; [exact Hf | exact Hc].
Defined.

Section Grades.
Import JsString FormatSpec.

Lemma startsWith_letter (a c : ascii) (rest : string) :
  startsWith (String a EmptyString) (String c rest) = Ascii.eqb a c.
Proof.
  unfold startsWith. cbn [prefix].
  destruct (ascii_dec a c) as [-> | Hne].
  - rewrite Ascii.eqb_refl. destruct rest; reflexivity.
  - symmetry. apply Ascii.eqb_neq. exact Hne.
Qed.

(** The three classes of a grade, by its first character. *)
Lemma grade_colors_by_letter (c : ascii) :
  (Format.getGradeColor (String c EmptyString)
   = MovieCard.getGradeColor (String c EmptyString)
   /\ MovieCard.getGradeColor (String c EmptyString)
      = ScoreBreakdownChart.getGradeColorClass (String c EmptyString))
  <-> (c = "A" \/ c = "B" \/ c = "C" \/ c = "D")%char.
Proof.
  destruct c as [[] [] [] [] [] [] [] []]; vm_compute;
    (split;
     [ intros [H1 H2]; try discriminate H1; try discriminate H2; tauto
     | intros [H | [H | [H | H]]]; try discriminate H; split; reflexivity ]).
Qed.

(** X21. The three functions that colour a grade (getGradeColor of
    utils/format.ts, getGradeColor of the movie card, getGradeColorClass of
    the score gauge) give the same class exactly for the grades whose first
    character is an upper-case A, B, C or D: they differ on F, on a
    lower-case letter, on the empty grade and on anything else. *)
Theorem grade_colors_agree (grade : string) :
  (Format.getGradeColor grade = MovieCard.getGradeColor grade
   /\ MovieCard.getGradeColor grade = ScoreBreakdownChart.getGradeColorClass grade)
  <-> starts_A_to_D grade.
Proof.
  unfold starts_A_to_D. destruct grade as [ | c rest].
  - split; [intros [H _]; discriminate H | intros (c & rest & H & _); discriminate H].
  - assert (H1 : Format.getGradeColor (String c rest)
                 = Format.getGradeColor (String c EmptyString)) by reflexivity.
    assert (H2 : MovieCard.getGradeColor (String c rest)
                 = MovieCard.getGradeColor (String c EmptyString))
      by (unfold MovieCard.getGradeColor; rewrite !startsWith_letter; reflexivity).
    assert (H3 : ScoreBreakdownChart.getGradeColorClass (String c rest)
                 = ScoreBreakdownChart.getGradeColorClass (String c EmptyString))
      by (unfold ScoreBreakdownChart.getGradeColorClass; rewrite !startsWith_letter;
          reflexivity).
    rewrite H1, H2, H3, grade_colors_by_letter. split.
    + intros H. exists c, rest. split; [reflexivity | exact H].
    + intros (c' & rest' & Heq & H). injection Heq as -> _. exact H.
Qed.

End Grades.

Section WholeAmounts.
Import JsNumber Format FormatSpec.

Lemma upto_spec (p : Z -> bool) (count : nat) :
  forall from, upto p count from = true ->
  forall n, (from <= n < from + Z.of_nat count)%Z -> p n = true.
Proof.
  induction count as [ | count IH]; intros from H n Hn; [lia | ].
  cbn [upto] in H. apply andb_true_iff in H. destruct H as [Hfrom Hrest].
  destruct (Z.eq_dec n from) as [-> | Hne]; [exact Hfrom | ].
  apply (IH (from + 1)%Z Hrest). lia.
Qed.

Lemma upto_range (p : Z -> bool) (count : nat) (from to n : Z) :
  upto p count from = true -> (from + Z.of_nat count)%Z = to ->
  (from <= n < to)%Z -> p n = true.
Proof. intros H <- Hn. exact (upto_spec p count from H n Hn). Qed.

(** X22. The runtime of a movie of a whole number of minutes, up to 25
    hours: formatRuntime gives 'N/A' for 0, the minutes alone below an
    hour ("45m") and hours and minutes from an hour on ("2h 0m"); the movie
    page writes the hours also below an hour ("0h 45m"), so that the two
    agree exactly from 60 minutes on, and on 0. *)
Theorem runtime_of_whole_minutes (n : Z) :
  (0 <= n < 1500)%Z ->
  formatRuntime (Some (ofZ n))
  = (if (n =? 0)%Z then "N/A"
     else if (n <? 60)%Z then decimal n ++ "m"
     else hours_and_minutes n)
  /\ MoviePage.runtime (Some (ofZ n))
     = (if (n =? 0)%Z then "N/A" else hours_and_minutes n).
Proof.
  intros Hn.
  assert (Hall :
    upto (fun n =>
            String.eqb (formatRuntime (Some (ofZ n)))
              (if (n =? 0)%Z then "N/A"
               else if (n <? 60)%Z then decimal n ++ "m"
               else hours_and_minutes n)
            && String.eqb (MoviePage.runtime (Some (ofZ n)))
                 (if (n =? 0)%Z then "N/A" else hours_and_minutes n))
      1500 0 = true) by (vm_compute; reflexivity).
  assert (Hto : (0 + Z.of_nat 1500)%Z = 1500%Z) by (vm_compute; reflexivity).
  pose proof (upto_range _ _ _ _ n Hall Hto Hn) as Hrange. cbv beta in Hrange.
  apply andb_true_iff in Hrange. destruct Hrange as [H1 H2].
  split; apply String.eqb_eq; assumption.
Qed.

(** X23. Whole amounts at the edges of formatCurrency: an amount below
    1000 is written in full after the dollar sign; an amount from 999,500
    to 999,999 is written "$1000K", the rounded thousands without a change
    of unit. *)
Theorem currency_of_whole_amounts (n : Z) :
  ((0 <= n < 1000)%Z -> formatCurrency (ofZ n) = "$" ++ decimal n)
  /\ ((999500 <= n < 1000000)%Z -> formatCurrency (ofZ n) = "$1000K").
Proof.
  split; intros Hn.
  - assert (Hall : upto (fun n => String.eqb (formatCurrency (ofZ n)) ("$" ++ decimal n))
                     1000 0 = true) by (vm_compute; reflexivity).
    assert (Hto : (0 + Z.of_nat 1000)%Z = 1000%Z) by (vm_compute; reflexivity).
    apply String.eqb_eq. exact (upto_range _ _ _ _ n Hall Hto Hn).
  - assert (Hall : upto (fun n => String.eqb (formatCurrency (ofZ n)) "$1000K")
                     500 999500 = true) by (vm_compute; reflexivity).
    assert (Hto : (999500 + Z.of_nat 500)%Z = 1000000%Z) by (vm_compute; reflexivity).
    apply String.eqb_eq. exact (upto_range _ _ _ _ n Hall Hto Hn).
Qed.

End WholeAmounts.

(** Two hours, and three quarters of an hour. *)
Lemma runtime_of_whole_minutes_witness :
  Format.formatRuntime (Some 120%float) = "2h 0m"
  /\ Format.formatRuntime (Some 45%float) = "45m"
  /\ MoviePage.runtime (Some 45%float) = "0h 45m".
Proof.
  assert (H120 : (0 <= 120 < 1500)%Z) by lia.
  assert (H45 : (0 <= 45 < 1500)%Z) by lia.
  split; [exact (proj1 (runtime_of_whole_minutes 120 H120)) | ].
  split; [exact (proj1 (runtime_of_whole_minutes 45 H45)) | ].
  exact (proj2 (runtime_of_whole_minutes 45 H45)).
Defined.

(** ** hooks/useApi.ts *)

Section Hooks.
Import Js.

(** X24. useDebounce never follows its argument: the timeout is set in a
    useState initializer, which runs in the first render only and closes
    over the first value, so whatever values the hook is rendered with
    later and whenever the timeout fires, it returns the value of the first
    render. *)
Theorem useDebounce_keeps_first_value
    (T : Type) (value : T) (events : list (UseDebounce.event T)) :
  UseDebounce.debouncedValue (UseDebounce.run value events) = value.
Proof.
  assert (H : forall h,
             UseDebounce.debouncedValue h = value
             /\ Forall (fun v => v = value) (UseDebounce.timers h) ->
             UseDebounce.debouncedValue (fold_left UseDebounce.step events h) = value).
  { induction events as [ | e events IH]; intros h [Hd Ht]; simpl; [exact Hd | ].
    apply IH. destruct e as [v | ]; simpl; [split; assumption | ].
    unfold UseDebounce.fire. destruct (UseDebounce.timers h) as [ | v r] eqn:Hr; simpl.
    - rewrite Hr. split; [exact Hd | constructor].
    - inversion Ht; subst. split; [reflexivity | assumption]. }
  apply H. split; [reflexivity | repeat constructor].
Qed.

Lemma useApi_step_shape (h : UseApi.Hook) (e : UseApi.event) :
  UseApi.one_at_most (UseApi.state h) -> UseApi.one_at_most (UseApi.state (UseApi.step h e)).
Proof.
  intros Hh.
  assert (Hshape : forall s,
            s = UseApi.execute_start \/ s = UseApi.reset
            \/ (exists settled, s = fst (UseApi.execute_settle settled)) ->
            UseApi.one_at_most s).
  { intros s [-> | [-> | ([result | err] & ->)]]; unfold UseApi.one_at_most; simpl;
      (split; [ | split]); intros Hx; try discriminate Hx;
      try (contradiction Hx; reflexivity); split; reflexivity. }
  destruct e as [ | settled | ]; simpl.
  - apply Hshape. left; reflexivity.
  - destruct (UseApi.pending h); [exact Hh | ].
    destruct (UseApi.execute_settle settled) as [s v] eqn:Hs. simpl.
    apply Hshape. right; right. exists settled. rewrite Hs. reflexivity.
  - apply Hshape. right; left; reflexivity.
Qed.

(** X25. The state of useApi holds at most one of data, isLoading and
    error at any time, however calls of execute overlap and whenever reset
    is called; and execute never rejects: a successful call gives its
    result and leaves it in data; a call rejected with an Error gives null
    and leaves that error's message in error; a call rejected with
    anything else gives null and leaves 'An error occurred' in error. *)
Theorem useApi_state_is_exclusive (events : list UseApi.event) :
  UseApi.one_at_most (UseApi.state (UseApi.run events))
  /\ (forall result,
        UseApi.execute_settle (UseApi.Fulfilled result)
        = ({| UseApi.data := result; UseApi.isLoading := false;
              UseApi.error := None |}, result))
  /\ (forall err,
        UseApi.execute_settle (UseApi.Rejected (UseApi.AnError err))
        = ({| UseApi.data := Null; UseApi.isLoading := false;
              UseApi.error := Some (message err) |}, Null))
  /\ (forall thrown,
        UseApi.execute_settle (UseApi.Rejected (UseApi.NotAnError thrown))
        = ({| UseApi.data := Null; UseApi.isLoading := false;
              UseApi.error := Some "An error occurred" |}, Null)).
Proof.
  split; [ | split; [reflexivity | split; [intros [ | | | ]; reflexivity | reflexivity]]].
  unfold UseApi.run.
  assert (H : forall h, UseApi.one_at_most (UseApi.state h) ->
                        UseApi.one_at_most (UseApi.state (fold_left UseApi.step events h))).
  { induction events as [ | e events IH]; intros h Hh; simpl; [exact Hh | ].
    apply IH, useApi_step_shape, Hh. }
  apply H. unfold UseApi.one_at_most. simpl.
  (split; [ | split]); intros Hx; try discriminate Hx;
    try (contradiction Hx; reflexivity); split; reflexivity.
Qed.

(** A call that rejects with a string, then one that rejects with an
    ApiError, then one that succeeds. *)
Example useApi_rejections :
  let run events := UseApi.state (UseApi.run events) in
  UseApi.error (run [UseApi.Execute;
                     UseApi.Settle (UseApi.Rejected (UseApi.NotAnError (Str "timeout")))])
  = Some "An error occurred"
  /\ UseApi.error (run [UseApi.Execute;
                        UseApi.Settle (UseApi.Rejected
                                         (UseApi.AnError (ApiError 404 "Movie not found")))])
     = Some "Movie not found"
  /\ UseApi.returned
       (UseApi.run [UseApi.Execute; UseApi.Execute;
                    UseApi.Settle (UseApi.Rejected (UseApi.NotAnError Null));
                    UseApi.Settle (UseApi.Fulfilled (Num 7))])
     = [Num 7; Null].
Proof. repeat split. Qed.

End Hooks.

(** ** pages/MoviePage.tsx: loading a movie *)

Section MovieLoading.
Import Js MoviePage.

(** X26. When one of the four calls of the movie page fails, the page
    keeps the movie, the score, the recommendations and the cast analysis
    it held before (those of the movie shown last), stops loading, and
    shows the error view with the failure's message.  (A failure with an
    empty message shows the previous movie instead, or 'Movie not found'
    when there is none.) *)
Theorem loadMovie_failure_keeps_previous (s : State) (id : string) (err : JsError) :
  id <> EmptyString ->
  let s' := loadMovie_settle (Throw err) (fst (loadMovie_start (Some id) s)) in
  movie s' = movie s /\ scoreBreakdown s' = scoreBreakdown s
  /\ recommendations s' = recommendations s /\ castAnalysis s' = castAnalysis s
  /\ error s' = Some (message err) /\ isLoading s' = false
  /\ view s' = (if JsString.truthy (message err) then ErrorView (message err)
                else if truthy (movie s) then Content
                else ErrorView "Movie not found").
Proof.
  intros Hid. unfold loadMovie_start.
  destruct id as [ | c id]; [contradiction | ]. cbn [JsString.truthy negb fst].
  destruct err as [m | st m | m | m]; simpl; unfold view; simpl;
    destruct m; simpl; repeat split; destruct (truthy (movie s)); reflexivity.
Qed.

(** X27. When the four calls succeed, the page takes the movie, the score,
    the first six recommendations and the cast analysis, with no error.
    But when the recommendations response has no [recommendations], the
    page is left half updated: the movie and the score are the new ones,
    the recommendations and the cast analysis the previous ones, and the
    error view is shown with the TypeError's message. *)
Theorem loadMovie_success_and_half_update
    (s : State) (id : string) (movieData scoreData castData : value)
    (fields : list (string * value)) :
  id <> EmptyString ->
  let started := fst (loadMovie_start (Some id) s) in
  let s' := loadMovie_settle (Ok (movieData, scoreData, Obj fields, castData)) started in
  (forall l, lookup "recommendations" fields = Some (Arr l) ->
     movie s' = movieData /\ scoreBreakdown s' = scoreData
     /\ recommendations s' = Arr (firstn 6 l) /\ castAnalysis s' = castData
     /\ error s' = None /\ isLoading s' = false)
  /\ (lookup "recommendations" fields = None ->
      movie s' = movieData /\ scoreBreakdown s' = scoreData
      /\ recommendations s' = recommendations s /\ castAnalysis s' = castAnalysis s
      /\ isLoading s' = false
      /\ view s' = ErrorView "Cannot read properties of undefined (reading 'slice')").
Proof.
  intros Hid. unfold loadMovie_start.
  destruct id as [ | c id]; [contradiction | ]. cbn [JsString.truthy negb fst].
  unfold loadMovie_settle, get, own. cbn [bind].
  split.
  - intros l Hl. rewrite Hl. cbn [first6 bind]. repeat split.
  - intros Hl. rewrite Hl. cbn [first6 bind]. repeat split.
Qed.

Lemma parseInt_no_integer (c : ascii) (rest : string) :
  begins_no_integer c = true -> JsString.parseInt (String c rest) = nan.
Proof.
  intros Hc. unfold JsString.parseInt.
  destruct c as [[] [] [] [] [] [] [] []]; try discriminate Hc; reflexivity.
Qed.

(** X28. The requests of the movie page: for an id that is the decimal
    text of a whole number below 2000 (as the link of a movie card writes
    it) the four calls ask for /movie/<id>, /score/<id>?,
    /recommendations/<id> and /cast-analysis/<id>; for an id that begins
    with anything but white space, a sign or a digit, parseInt gives NaN
    and the four calls are made all the same, for the id NaN. *)
Theorem loadMovie_requests (s : State) :
  (forall n : Z, (0 <= n < 2000)%Z ->
     snd (loadMovie_start (Some (JsNumber.toString (JsNumber.ofZ n))) s)
     = endpoints_of (JsNumber.decimal n))
  /\ (forall c rest, begins_no_integer c = true ->
      snd (loadMovie_start (Some (String c rest)) s) = endpoints_of "NaN").
Proof.
  split.
  - intros n Hn.
    assert (Hall :
      FormatSpec.upto
        (fun n =>
           let id := JsNumber.toString (JsNumber.ofZ n) in
           JsString.truthy id
           && String.eqb id (JsNumber.decimal n)
           && String.eqb (JsNumber.toString (JsString.parseInt id)) (JsNumber.decimal n))
        2000 0 = true) by (vm_compute; reflexivity).
    assert (Hto : (0 + Z.of_nat 2000)%Z = 2000%Z) by (vm_compute; reflexivity).
    pose proof (upto_range _ _ _ _ n Hall Hto Hn) as H. cbv beta zeta in H.
    apply andb_true_iff in H. destruct H as [H Hparse].
    apply andb_true_iff in H. destruct H as [Hid Hdec].
    apply String.eqb_eq in Hdec, Hparse.
    unfold loadMovie_start. rewrite Hid. cbn [negb snd].
    unfold Api.getMovie_endpoint, Api.getRecommendations_endpoint,
      Api.getCastAnalysis_endpoint.
    assert (Hscore : forall x, Api.getMovieScore_endpoint x None
                               = "/score/" ++ JsNumber.toString x ++ "?").
    { intros x. cbv -[JsNumber.toString append]. rewrite ?append_assoc. reflexivity. }
    rewrite Hscore, Hparse. reflexivity.
  - intros c rest Hc. unfold loadMovie_start. cbn [JsString.truthy negb snd].
    rewrite (parseInt_no_integer c rest Hc). vm_compute. reflexivity.
Qed.

End MovieLoading.

(** The request for movie 949 is refused. *)
Lemma loadMovie_failure_keeps_previous_witness :
  MoviePage.view
    (MoviePage.loadMovie_settle (Js.Throw (Js.ApiError 404 "Movie not found"))
       (fst (MoviePage.loadMovie_start (Some "949") MoviePage.initial)))
  = MoviePage.ErrorView "Movie not found".
Proof.
  assert (Hid : "949" <> EmptyString) by discriminate.
  exact (proj2 (proj2 (proj2 (proj2 (proj2 (proj2
           (loadMovie_failure_keeps_previous MoviePage.initial "949"
              (Js.ApiError 404 "Movie not found") Hid))))))).
Defined.

(** A recommendations response that is an empty object. *)
Lemma loadMovie_success_and_half_update_witness :
  let s' :=
    MoviePage.loadMovie_settle
      (Js.Ok (Js.Obj [("id", Js.Num 949)], Js.Obj [("grade", Js.Str "A")], Js.Obj [],
              Js.Null))
      (fst (MoviePage.loadMovie_start (Some "949") MoviePage.initial)) in
  MoviePage.movie s' = Js.Obj [("id", Js.Num 949)]
  /\ MoviePage.recommendations s' = Js.Arr [].
Proof.
  intros s'.
  assert (Hid : "949" <> EmptyString) by discriminate.
  destruct (proj2 (loadMovie_success_and_half_update MoviePage.initial "949"
                     (Js.Obj [("id", Js.Num 949)]) (Js.Obj [("grade", Js.Str "A")])
                     Js.Null [] Hid) eq_refl)
    as (Hm & _ & Hr & _).
  split; [exact Hm | exact Hr].
Defined.

(** ** pages/TrendingPage.tsx: requests and responses *)

Section Trending.
Import Js TrendingPage.

Lemma loadTrending_settle_toggles (outcome : Js.result value) (s : State) :
  timeWindow (loadTrending_settle outcome s) = timeWindow s
  /\ showScores (loadTrending_settle outcome s) = showScores s.
Proof.
  unfold loadTrending_settle.
  destruct (data <- outcome ;; get data "results") as [results | e]; simpl;
    [ | split; reflexivity].
  destruct (data <- outcome ;; get data "scored_results") as [scored | e]; simpl;
    [ | split; reflexivity].
  destruct (truthy scored); split; reflexivity.
Qed.

Lemma trending_run_app (events : list event) (e : event) :
  run (events ++ [e]) = step (run events) e.
Proof. unfold run. rewrite fold_left_app. reflexivity. Qed.

(** X29. The trending page asks again each time the time window or the
    score checkbox changes, and the request made last is always the one for
    the window and the checkbox as they are now; every request it makes is
    one of the four /trending URLs. *)
Theorem trending_requests_follow_toggles (events : list event) :
  let w := run events in
  hd_error (sent w)
  = Some (Api.getTrending_endpoint (Some (timeWindow (state w)))
            (Some (showScores (state w))))
  /\ Forall (fun endpoint =>
              In endpoint ["/trending?time_window=day&with_scores=false";
                           "/trending?time_window=day&with_scores=true";
                           "/trending?time_window=week&with_scores=false";
                           "/trending?time_window=week&with_scores=true"])
       (sent w).
Proof.
  cbv zeta.
  assert (Hurl : forall t b,
            In (Api.getTrending_endpoint (Some t) (Some b))
              ["/trending?time_window=day&with_scores=false";
               "/trending?time_window=day&with_scores=true";
               "/trending?time_window=week&with_scores=false";
               "/trending?time_window=week&with_scores=true"])
    by (intros [ | ] [ | ]; vm_compute; tauto).
  induction events as [ | e events IH] using rev_ind.
  - split; [reflexivity | ].
    constructor; [exact (Hurl Api.week false) | constructor].
  - rewrite trending_run_app. destruct IH as [Hhd Hall].
    destruct e as [t | b | outcome]; cbn [step].
    + destruct (TimeWindow_eqb t (timeWindow (state (run events)))); [split; assumption | ].
      simpl. split; [reflexivity | constructor; [apply Hurl | exact Hall]].
    + destruct (Bool.eqb b (showScores (state (run events)))); [split; assumption | ].
      simpl. split; [reflexivity | constructor; [apply Hurl | exact Hall]].
    + destruct (pending (run events)); [split; assumption | ]. cbn [state sent].
      destruct (loadTrending_settle_toggles outcome (state (run events))) as [-> ->].
      split; assumption.
Qed.

(** X30. A trending request that fails is not reported: no state records
    the failure, the page stops loading, and the movies, the scored movies,
    the time window and the checkbox stay as they were just before the
    response, so that the lists on the page can be those of an earlier
    window.  A response without scored results replaces the movies and
    keeps the scored list of an earlier response. *)
Theorem trending_failure_is_silent (events : list event) :
  pending (run events) <> 0 ->
  let s := state (run events) in
  (forall err,
     let s' := state (step (run events) (Settle (Throw err))) in
     movies s' = movies s /\ scoredMovies s' = scoredMovies s
     /\ timeWindow s' = timeWindow s /\ showScores s' = showScores s
     /\ isLoading s' = false)
  /\ (forall fields results,
      lookup "results" fields = Some results ->
      Api.falsy_or_absent (lookup "scored_results" fields) = true ->
      let s' := state (step (run events) (Settle (Ok (Obj fields)))) in
      movies s' = results /\ scoredMovies s' = scoredMovies s /\ isLoading s' = false).
Proof.
  intros Hp. cbv zeta. split.
  - intros err. simpl. destruct (pending (run events)); [contradiction | ].
    simpl. repeat split.
  - intros fields results Hr Hs. simpl.
    destruct (pending (run events)); [contradiction | ].
    simpl. unfold loadTrending_settle, get, own. cbn [bind]. rewrite Hr.
    destruct (lookup "scored_results" fields) as [scored | ]; simpl in Hs |- *.
    + apply negb_true_iff in Hs. rewrite Hs. repeat split.
    + repeat split.
Qed.

End Trending.

(** The scores of the week have been loaded; "Today" is clicked and its
    request fails: under "Today" the page holds the week's scored movies. *)
Lemma trending_failure_is_silent_witness :
  let week_scores := Js.Arr [Js.Obj [("grade", Js.Str "A")]] in
  let events :=
    [TrendingPage.Settle (Js.Ok (Js.Obj [("results", Js.Arr [])]));
     TrendingPage.ChangeShowScores true;
     TrendingPage.Settle
       (Js.Ok (Js.Obj [("results", Js.Arr []); ("scored_results", week_scores)]));
     TrendingPage.ClickTimeWindow Api.day] in
  let s' :=
    TrendingPage.state
      (TrendingPage.step (TrendingPage.run events)
         (TrendingPage.Settle (Js.Throw (Js.TypeError "Failed to fetch")))) in
  TrendingPage.timeWindow s' = Api.day /\ TrendingPage.scoredMovies s' = week_scores
  /\ TrendingPage.isLoading s' = false.
Proof.
  intros week_scores events s'.
  assert (Hp : TrendingPage.pending (TrendingPage.run events) <> 0)
    by (vm_compute; discriminate).
  destruct (proj1 (trending_failure_is_silent events Hp) (Js.TypeError "Failed to fetch"))
    as (_ & Hscored & Hwindow & _ & Hl).
  split; [etransitivity; [exact Hwindow | reflexivity] | ].
  split; [etransitivity; [exact Hscored | reflexivity] | exact Hl].
Defined.

Ltac Zify.zify_post_hook ::= Z.to_euclidean_division_equations.

(** ** services/api.ts: the query of a search, for any string *)

Section SearchEndpointUnits.
Import Urlencoded Usv Api.

Lemma percent_decode_byte (c : ascii) (t : string) :
  percent_decode (JsString.form_byte (JsString.code c) ++ t)
  = JsString.code c :: percent_decode t.
Proof. destruct c as [[] [] [] [] [] [] [] []]; reflexivity. Qed.

Lemma byte_is_code (b : N) : (b < 256)%N -> exists c, b = JsString.code c.
Proof.
  intros Hb. exists (ascii_of_N b). unfold JsString.code.
  symmetry. apply N_ascii_embedding. exact Hb.
Qed.

Lemma percent_decode_bytes (bytes : list N) (t : string) :
  Forall (fun b => (b < 256)%N) bytes ->
  percent_decode
    (fold_right append EmptyString (map JsString.form_byte bytes) ++ t)
  = (bytes ++ percent_decode t)%list.
Proof.
  induction 1 as [ | b bytes Hb _ IH]; [reflexivity | ].
  destruct (byte_is_code b Hb) as [c ->].
  cbn [map fold_right app]. rewrite append_assoc, percent_decode_byte, IH. reflexivity.
Qed.

Lemma utf8_bytes (c : N) : (c < 1114112)%N -> Forall (fun b => (b < 256)%N) (utf8 c).
Proof.
  intros Hc. unfold utf8.
  destruct (N.ltb_spec c 128); [repeat constructor; lia | ].
  destruct (N.ltb_spec c 2048); [repeat constructor; lia | ].
  destruct (N.ltb_spec c 65536); repeat constructor; lia.
Qed.

Lemma utf8_scalars_utf8 (c : N) (l : list N) :
  (c < 1114112)%N -> utf8_scalars (utf8 c ++ l) = c :: utf8_scalars l.
Proof.
  intros Hc. unfold utf8.
  destruct (N.ltb_spec c 128) as [H1 | H1].
  { cbn [app utf8_scalars]. destruct (N.ltb_spec c 128); [reflexivity | lia]. }
  destruct (N.ltb_spec c 2048) as [H2 | H2].
  { cbn [app utf8_scalars].
    destruct (N.ltb_spec (192 + c / 64) 128); [lia | ].
    destruct (N.ltb_spec (192 + c / 64) 224); [ | lia].
    f_equal. lia. }
  destruct (N.ltb_spec c 65536) as [H3 | H3].
  { cbn [app utf8_scalars].
    destruct (N.ltb_spec (224 + c / 4096) 128); [lia | ].
    destruct (N.ltb_spec (224 + c / 4096) 224); [lia | ].
    destruct (N.ltb_spec (224 + c / 4096) 240); [ | lia].
    f_equal. lia. }
  cbn [app utf8_scalars].
  destruct (N.ltb_spec (240 + c / 262144) 128); [lia | ].
  destruct (N.ltb_spec (240 + c / 262144) 224); [lia | ].
  destruct (N.ltb_spec (240 + c / 262144) 240); [lia | ].
  f_equal. lia.
Qed.

Lemma utf8_scalars_all (cs l : list N) :
  Forall (fun c => (c < 1114112)%N) cs ->
  utf8_scalars (flat_map utf8 cs ++ l) = (cs ++ utf8_scalars l)%list.
Proof.
  induction 1 as [ | c cs Hc _ IH]; [reflexivity | ].
  cbn [flat_map app]. rewrite <- app_assoc, utf8_scalars_utf8, IH by exact Hc.
  reflexivity.
Qed.

Lemma utf8_bytes_all (cs : list N) :
  Forall (fun c => (c < 1114112)%N) cs ->
  Forall (fun b => (b < 256)%N) (flat_map utf8 cs).
Proof.
  induction 1 as [ | c cs Hc _ IH]; [constructor | ].
  cbn [flat_map]. apply Forall_app. split; [apply utf8_bytes, Hc | exact IH].
Qed.

(** The code points of a well-formed string, and the way back. *)
Lemma scalars_well_formed (n : nat) :
  forall s, length s <= n -> well_formed s = true ->
  Forall (fun c => (c < 1114112)%N) (scalars s)
  /\ flat_map to_units (scalars s) = s.
Proof.
  induction n as [ | n IH]; intros [ | u r] Hlen Hwf;
    try (split; [constructor | reflexivity]); [simpl in Hlen; lia | ].
  cbn [well_formed scalars] in *. unfold is_lead, is_trail in *.
  destruct ((55296 <=? u) && (u <=? 56319))%N eqn:Hlead.
  - destruct r as [ | v r']; [discriminate Hwf | ].
    apply andb_true_iff in Hwf. destruct Hwf as [Htrail Hwf].
    rewrite Htrail.
    apply andb_true_iff in Hlead, Htrail.
    destruct Hlead as [Hu1 Hu2], Htrail as [Hv1 Hv2].
    apply N.leb_le in Hu1, Hu2, Hv1, Hv2.
    destruct (IH r') as [Hall Hback]; [simpl in Hlen; lia | exact Hwf | ].
    split; [constructor; [lia | exact Hall] | ].
    cbn [flat_map]. rewrite Hback. unfold to_units.
    destruct (N.ltb_spec (65536 + (u - 55296) * 1024 + (v - 56320)) 65536); [lia | ].
    cbn [app]. f_equal; [lia | f_equal; lia].
  - apply andb_true_iff in Hwf. destruct Hwf as [Hwf Hr].
    apply andb_true_iff in Hwf. destruct Hwf as [Htrail Hu].
    apply negb_true_iff in Htrail. rewrite Htrail.
    apply N.ltb_lt in Hu.
    destruct (IH r) as [Hall Hback]; [simpl in Hlen; lia | exact Hr | ].
    split; [constructor; [lia | exact Hall] | ].
    cbn [flat_map]. rewrite Hback. unfold to_units.
    destruct (N.ltb_spec u 65536); [reflexivity | lia].
Qed.

(** Reading back what the serializer wrote for a well-formed string. *)
Lemma form_decode_encode_units (s : list N) :
  well_formed s = true -> form_decode_units (form_encode s) = s.
Proof.
  intros Hwf.
  destruct (scalars_well_formed (length s) s (le_n _) Hwf) as [Hall Hback].
  unfold form_decode_units, form_encode.
  rewrite <- (append_empty (fold_right _ _ _)).
  rewrite percent_decode_bytes by (apply utf8_bytes_all, Hall).
  cbn [percent_decode]. rewrite <- (app_nil_r (flat_map utf8 (scalars s))) at 1.
  rewrite <- app_assoc, utf8_scalars_all by exact Hall.
  cbn [app utf8_scalars]. rewrite app_nil_r. exact Hback.
Qed.

(** On a string of code units below 256 the serializer is the one of
    [JsString]. *)
Lemma form_char_units (c : ascii) :
  JsString.form_char c
  = fold_right append EmptyString (map JsString.form_byte (utf8 (JsString.code c))).
Proof. destruct c as [[] [] [] [] [] [] [] []]; reflexivity. Qed.

Lemma code_small (c : ascii) : (JsString.code c < 256)%N.
Proof. apply N_ascii_bounded. Qed.

Lemma fold_append_app (a b : list string) :
  fold_right append EmptyString (a ++ b)
  = fold_right append EmptyString a ++ fold_right append EmptyString b.
Proof.
  induction a as [ | x a IH]; [reflexivity | ].
  cbn [app fold_right]. rewrite IH, append_assoc. reflexivity.
Qed.

Lemma form_encode_of_string (s : string) :
  JsString.form_encode s = Usv.form_encode (of_string s)
  /\ well_formed (of_string s) = true.
Proof.
  unfold Usv.form_encode, of_string. induction s as [ | c s [IH Hwf]]; [split; reflexivity | ].
  pose proof (code_small c) as Hc.
  cbn [list_ascii_of_string map scalars well_formed JsString.form_encode].
  unfold is_lead, is_trail.
  destruct (N.leb_spec 55296 (JsString.code c)); [lia | ].
  destruct (N.leb_spec 56320 (JsString.code c)); [lia | ].
  destruct (N.ltb_spec (JsString.code c) 65536); [ | lia].
  cbn [andb negb flat_map]. split; [ | exact Hwf].
  rewrite map_app, fold_append_app, <- IH, <- form_char_units. reflexivity.
Qed.

Lemma searchMovies_endpoint_units_shape (query : list N) (page : option JsNumber.number) :
  searchMovies_endpoint_units query page
  = "/search?q=" ++ Usv.form_encode query ++ "&page="
    ++ JsString.form_encode
         (JsNumber.toString match page with Some p => p | None => 1%float end).
Proof.
  cbv -[JsNumber.toString JsString.form_encode Usv.form_encode append].
  rewrite ?append_assoc. reflexivity.
Qed.

(** X6. The search endpoint determines the query, for every query that is
    well-formed UTF-16 (no surrogate without its partner): the parser of
    the URL standard reads the written query back as the code units that
    were typed, so two such queries for the same page ask for different
    URLs.  A string of code units below 256 is well formed, and its
    endpoint is the one of the Latin-1 model.  A surrogate without its
    partner is written as U+FFFD, so that it and U+FFFD ask for the same
    URL. *)
Theorem search_endpoint_injective (query query' : list N) (page : option JsNumber.number) :
  well_formed query = true -> well_formed query' = true ->
  form_decode_units (Usv.form_encode query) = query
  /\ (searchMovies_endpoint_units query page = searchMovies_endpoint_units query' page ->
      query = query')
  /\ (forall s : string,
        well_formed (of_string s) = true
        /\ searchMovies_endpoint s page = searchMovies_endpoint_units (of_string s) page)
  /\ searchMovies_endpoint_units [55296%N] page
     = searchMovies_endpoint_units [65533%N] page.
Proof.
  intros Hq Hq'.
  split; [apply form_decode_encode_units, Hq | ].
  split.
  { rewrite !searchMovies_endpoint_units_shape. intros H.
    injection H as H. apply append_inj_r in H.
    rewrite <- (form_decode_encode_units query Hq), H.
    apply form_decode_encode_units, Hq'. }
  split.
  { intros s. destruct (form_encode_of_string s) as [Henc Hwf].
    split; [exact Hwf | ].
    rewrite searchMovies_endpoint_shape, searchMovies_endpoint_units_shape, Henc.
    reflexivity. }
  rewrite !searchMovies_endpoint_units_shape. reflexivity.
Qed.

End SearchEndpointUnits.

(** A clapper board (a surrogate pair), a space and an e with an acute
    accent; and what is written for a surrogate on its own. *)
Lemma search_endpoint_injective_witness :
  Urlencoded.form_decode_units (Usv.form_encode [55356; 57260; 32; 233]%N)
  = [55356; 57260; 32; 233]%N.
Proof.
  exact (proj1 (search_endpoint_injective [55356; 57260; 32; 233]%N [104; 105]%N None
                  eq_refl eq_refl)).
Defined.

Example search_endpoint_units_sample :
  Api.searchMovies_endpoint_units [55356; 57260; 32; 233]%N None
  = "/search?q=%F0%9F%8E%AC+%C3%A9&page=1"
  /\ Api.searchMovies_endpoint_units [55296]%N None = "/search?q=%EF%BF%BD&page=1"
  /\ Api.searchMovies_endpoint_units [65533]%N None = "/search?q=%EF%BF%BD&page=1".
Proof. repeat split; vm_compute; reflexivity. Qed.
